(** * BookSuggester: the recommendation endpoint of the two Express servers

    The repository holds two variants of the same server:

    - the nested-body server (module [NestedServer]): the request is
      [{profile, exclude_titles, max_results_per_category, seed}], the mock
      lives inside [callGemini], and the answer of the gateway goes through
      [validateSchema];
    - the flat-body server, backend/server.js (module [FlatServer]): the
      profile may be the body itself, [max], [exclude] and [seed] come from
      the query string, and the gateway strips Markdown fencing.

    JavaScript values are embedded as the type [JsVal]: the values of JSON
    documents, which is what express.json and the HTTP client hand to the
    code.  A string is its list of UTF-16 code units.  The numbers the model
    computes with are NaN and the integers; a conversion, a sum or a quotient
    is answered only where the doubles of the engine give that integer, and
    has the outcome [Unmodelled] elsewhere.  Every function throws where the
    engine throws; in particular the conversions to text and to number throw
    a TypeError on an object with an own property toString.  The built-ins
    of the engine that the code calls on data it does not control
    (JSON.parse, the HTTP client, uuidv4, the clock) are inputs of the
    functions below. *)

From Stdlib Require Import List ZArith NArith String Ascii Bool Lia.
Import ListNotations.
Local Open Scope Z_scope.
Set Warnings "-register-all".

(** ** Strings *)

Definition jsstring : Type := list N.

(** The code units of a literal of the source. *)
Definition js (s : string) : jsstring :=
  map N_of_ascii (list_ascii_of_string s).

Fixpoint str_eqb (a b : jsstring) : bool :=
  match a, b with
  | [], [] => true
  | x :: a', y :: b' => N.eqb x y && str_eqb a' b'
  | _, _ => false
  end.

(** [p] is a prefix of [s]. *)
Fixpoint prefix (p s : jsstring) : bool :=
  match p, s with
  | [], _ => true
  | _ :: _, [] => false
  | x :: p', y :: s' => N.eqb x y && prefix p' s'
  end.

(** String.prototype.includes with a string argument. *)
Fixpoint includes (p s : jsstring) : bool :=
  prefix p s ||
  match s with
  | [] => false
  | _ :: s' => includes p s'
  end.

(** String.prototype.split with a non-empty separator.  [skip] counts the
    code units of a separator just matched that are still to be passed over,
    [cur] is the piece being read, most recent unit first. *)
Fixpoint split_go (sep : jsstring) (skip : nat) (cur s : jsstring)
  : list jsstring :=
  match s with
  | [] => [rev cur]
  | c :: s' =>
      match skip with
      | S k => split_go sep k cur s'
      | O =>
          if prefix sep s
          then rev cur :: split_go sep (Nat.pred (List.length sep)) [] s'
          else split_go sep O (c :: cur) s'
      end
  end.

Definition split (sep s : jsstring) : list jsstring := split_go sep O [] s.

(** WhiteSpace and LineTerminator of ECMAScript: what String.prototype.trim
    removes and what the numeric conversions skip. *)
Definition is_space (c : N) : bool :=
  ((9 <=? c) && (c <=? 13) || (c =? 32) || (c =? 160) || (c =? 5760)
   || (8192 <=? c) && (c <=? 8202) || (c =? 8232) || (c =? 8233)
   || (c =? 8239) || (c =? 8287) || (c =? 12288) || (c =? 65279))%N.

Fixpoint trimStart (s : jsstring) : jsstring :=
  match s with
  | [] => []
  | c :: s' => if is_space c then trimStart s' else s
  end.

Definition trimEnd (s : jsstring) : jsstring := rev (trimStart (rev s)).

Definition trim (s : jsstring) : jsstring := trimEnd (trimStart s).

(** Decimal digits of a natural number, most significant first. *)
Fixpoint digits_go (fuel : nat) (n : N) (acc : jsstring) : jsstring :=
  match fuel with
  | O => acc
  | S f =>
      let acc' := (48 + n mod 10)%N :: acc in
      if (n <? 10)%N then acc' else digits_go f (n / 10)%N acc'
  end.

Definition digits (n : N) : jsstring := digits_go (S (N.to_nat n)) n [].

(** ** Numbers and values *)

(** The numbers the model computes with: NaN and the integers.  [Int z]
    stands for the double nearest to z, which is z itself up to
    Number.MAX_SAFE_INTEGER. *)
Inductive JsNum : Type :=
| NaN
| Int (z : Z).

(** The values of JSON documents, and undefined.  A number is [JNum NaN],
    [JNum (Int z)] when it is the safe integer z, and otherwise (a number
    with a fraction, an integer beyond the safe ones, an infinity)
    [JReal text], the number for which Number::toString prints [text]: the
    model carries such a number and converts it to text, but does not
    compute with it. *)
Inductive JsVal : Type :=
| JUndefined
| JNull
| JBool (b : bool)
| JNum (n : JsNum)
| JReal (text : jsstring)
| JStr (s : jsstring)
| JArr (elts : list JsVal)
| JObj (props : list (jsstring * JsVal)).

(** What a statement can do: complete with a value, throw, or leave the
    fragment of JavaScript that is modelled. *)
Inductive JsError : Type :=
| Err (msg : jsstring)                    (* new Error(msg) *)
| ErrWrap (msg : jsstring) (inner : JsError) (* new Error(msg + inner.message) *)
| TypeErr                                  (* raised by the engine *)
| SyntaxErr                                (* raised by JSON.parse *)
| Rejected (msg : jsstring).               (* the HTTP client rejected *)

Inductive Completion (A : Type) : Type :=
| Normal (a : A)
| Throw (e : JsError)
| Unmodelled.

Arguments Normal {A} a.
Arguments Throw {A} e.
Arguments Unmodelled {A}.

Definition bind {A B} (c : Completion A) (k : A -> Completion B)
  : Completion B :=
  match c with
  | Normal a => k a
  | Throw e => Throw e
  | Unmodelled => Unmodelled
  end.

Notation "x <- c ;; k" := (bind c (fun x => k))
  (at level 61, c at next level, right associativity).

(** try { c } catch (e) { h e } *)
Definition try_catch {A} (c : Completion A) (h : JsError -> Completion A)
  : Completion A :=
  match c with
  | Throw e => h e
  | _ => c
  end.

(** [f] applied to the elements from left to right, as Array.prototype.map
    and join do: the first element on which it throws ends the loop. *)
Fixpoint mapM {A B} (f : A -> Completion B) (l : list A)
  : Completion (list B) :=
  match l with
  | [] => Normal []
  | x :: rest =>
      y <- f x ;;
      ys <- mapM f rest ;;
      Normal (y :: ys)
  end.

(** ToBoolean. *)
Definition truthy (v : JsVal) : bool :=
  match v with
  | JUndefined | JNull => false
  | JBool b => b
  | JNum NaN => false
  | JNum (Int z) => negb (z =? 0)
  | JReal _ => true
  | JStr s => match s with [] => false | _ => true end
  | JArr _ | JObj _ => true
  end.

(** a || b *)
Definition js_or (a b : JsVal) : JsVal := if truthy a then a else b.

Definition isArray (v : JsVal) : bool :=
  match v with JArr _ => true | _ => false end.

(** typeof v === 'string' *)
Definition is_string (v : JsVal) : bool :=
  match v with JStr _ => true | _ => false end.

Fixpoint lookup (k : jsstring) (props : list (jsstring * JsVal)) : JsVal :=
  match props with
  | [] => JUndefined
  | (k', v) :: rest => if str_eqb k k' then v else lookup k rest
  end.

(** The object has an own property named [k]. *)
Definition has_own (k : string) (props : list (jsstring * JsVal)) : bool :=
  existsb (fun kv => str_eqb (js k) (fst kv)) props.

(** obj[k] = v on the property list of an object. *)
Fixpoint assign (k : jsstring) (v : JsVal) (props : list (jsstring * JsVal))
  : list (jsstring * JsVal) :=
  match props with
  | [] => [(k, v)]
  | (k', v') :: rest =>
      if str_eqb k k' then (k, v) :: rest else (k', v') :: assign k v rest
  end.

(** v.k for the property names of the source, none of which is defined by a
    prototype or is an index: only an object has such a property; reading it
    off undefined or null is a TypeError. *)
Definition get (v : JsVal) (k : string) : Completion JsVal :=
  match v with
  | JUndefined | JNull => Throw TypeErr
  | JObj props => Normal (lookup (js k) props)
  | _ => Normal JUndefined
  end.

(** v.k where v is known not to be undefined or null. *)
Definition field (v : JsVal) (k : string) : JsVal :=
  match get v k with
  | Normal x => x
  | _ => JUndefined
  end.

(** v[0] *)
Definition get0 (v : JsVal) : Completion JsVal :=
  match v with
  | JUndefined | JNull => Throw TypeErr
  | JObj props => Normal (lookup (js "0") props)
  | JArr elts => Normal (match elts with [] => JUndefined | x :: _ => x end)
  | JStr s => Normal (match s with [] => JUndefined | c :: _ => JStr [c] end)
  | _ => Normal JUndefined
  end.

(** v.k = x in sloppy mode: a TypeError on undefined and null, ignored on a
    primitive.  An array keeps no named property in this model; the source
    only ever reads such a property back through [validateSchema], which
    rejects an array for its missing [results] either way. *)
Definition set (v : JsVal) (k : string) (x : JsVal) : Completion JsVal :=
  match v with
  | JUndefined | JNull => Throw TypeErr
  | JObj props => Normal (JObj (assign (js k) x props))
  | _ => Normal v
  end.

(** Number.MAX_SAFE_INTEGER, 2^53 - 1: up to it an integer is a double, its
    decimal text reads as that double, and Number::toString prints its
    digits. *)
Definition MAX_SAFE_INTEGER : Z := 9007199254740991.

Definition safe (z : Z) : bool := Z.abs z <=? MAX_SAFE_INTEGER.

(** The operands on which the arithmetic of the source is taken exactly: up
    to 2^52 the sum and the difference of two integers are at most 2^53 in
    size, which a double holds as it is and Number::toString prints in
    digits, and the double nearest to z / 5 lies on the same side of every
    half as z / 5 itself (the spacing of the doubles below 2^50 is at most
    1/8, and a fifth part is at least 1/10 away from a half). *)
Definition exact (z : Z) : bool := Z.abs z <=? 4503599627370496.

(** Number::toString on NaN and on the safe integers, the numbers that a
    [JNum] holds. *)
Definition num_to_string (n : JsNum) : jsstring :=
  match n with
  | NaN => js "NaN"
  | Int z => if z <? 0 then js "-" ++ digits (Z.abs_N z) else digits (Z.abs_N z)
  end.

Fixpoint intercalate (sep : jsstring) (l : list jsstring) : jsstring :=
  match l with
  | [] => []
  | [x] => x
  | x :: rest => x ++ sep ++ intercalate sep rest
  end.

(** ToString, as String(v), a template literal and string concatenation
    apply it.  An array joins its elements with a comma, undefined and null
    elements giving the empty string.  An object of a JSON document has no
    method of its own: with an own property toString, which cannot be
    called, neither toString nor valueOf yields a primitive and the
    conversion is a TypeError; without one, Object.prototype.toString
    answers. *)
Fixpoint ToString (v : JsVal) : Completion jsstring :=
  match v with
  | JUndefined => Normal (js "undefined")
  | JNull => Normal (js "null")
  | JBool true => Normal (js "true")
  | JBool false => Normal (js "false")
  | JNum n => Normal (num_to_string n)
  | JReal text => Normal text
  | JStr s => Normal s
  | JArr elts =>
      strs <- (fix strs (l : list JsVal) : Completion (list jsstring) :=
                 match l with
                 | [] => Normal []
                 | x :: rest =>
                     s <- match x with
                          | JUndefined | JNull => Normal []
                          | _ => ToString x
                          end ;;
                     r <- strs rest ;;
                     Normal (s :: r)
                 end) elts ;;
      Normal (intercalate (js ",") strs)
  | JObj props =>
      if has_own "toString" props then Throw TypeErr
      else Normal (js "[object Object]")
  end.

(** The text of an element of an array that is joined. *)
Definition element_text (x : JsVal) : Completion jsstring :=
  match x with
  | JUndefined | JNull => Normal []
  | _ => ToString x
  end.

(** Array.prototype.join *)
Definition join (sep : jsstring) (elts : list JsVal) : Completion jsstring :=
  strs <- mapM element_text elts ;;
  Normal (intercalate sep strs).

Definition is_digit (c : N) : bool := ((48 <=? c) && (c <=? 57))%N.

(** The value of a run of decimal digits read after [acc]. *)
Fixpoint read_digits (acc : Z) (s : jsstring) : Z * jsstring :=
  match s with
  | c :: s' =>
      if is_digit c then read_digits (10 * acc + (Z.of_N c - 48)) s'
      else (acc, s)
  | [] => (acc, [])
  end.

(** StringToNumber on the integer fragment: the trimmed text is empty (0), an
    optionally signed run of digits that writes a safe integer, or text that
    no numeric literal starts with (NaN).  Text that begins like a numeric
    literal but is not such a run of digits (a fraction, an exponent, a radix
    prefix, Infinity, an integer that is rounded) is outside the fragment. *)
Definition StringToNumber (s : jsstring) : Completion JsNum :=
  match trim s with
  | [] => Normal (Int 0)
  | c :: r =>
      let signed := (c =? 43)%N || (c =? 45)%N in
      let body := if signed then r else c :: r in
      match body with
      | [] => Normal NaN
      | d :: _ =>
          if is_digit d then
            match read_digits 0 body with
            | (z, []) =>
                if safe z
                then Normal (Int (if (c =? 45)%N then - z else z))
                else Unmodelled
            | _ => Unmodelled
            end
          else if (d =? 46)%N || (d =? 73)%N then Unmodelled
          else Normal NaN
      end
  end.

(** ToNumber, as Number(v) and the arithmetic operators apply it.  An array
    converts through its text; an object of a JSON document through
    Object.prototype.toString, unless an own property toString stands in
    the way (a TypeError, as for [ToString]). *)
Definition ToNumber (v : JsVal) : Completion JsNum :=
  match v with
  | JUndefined => Normal NaN
  | JNull => Normal (Int 0)
  | JBool b => Normal (Int (if b then 1 else 0))
  | JNum n => Normal n
  | JReal _ => Unmodelled
  | JStr s => StringToNumber s
  | JArr _ => s <- ToString v ;; StringToNumber s
  | JObj props =>
      if has_own "toString" props then Throw TypeErr else Normal NaN
  end.

(** a + b and a - b on numbers, within the operands of [exact], so that the
    result is the integer itself. *)
Definition num_add (a b : JsNum) : Completion JsNum :=
  match a, b with
  | Int x, Int y =>
      if exact x && exact y then Normal (Int (x + y)) else Unmodelled
  | _, _ => Normal NaN
  end.

Definition num_sub (a b : JsNum) : Completion JsNum :=
  match a, b with
  | Int x, Int y =>
      if exact x && exact y then Normal (Int (x - y)) else Unmodelled
  | _, _ => Normal NaN
  end.

(** Math.max and Math.min of two numbers. *)
Definition Math_max (a b : JsNum) : JsNum :=
  match a, b with
  | Int x, Int y => Int (Z.max x y)
  | _, _ => NaN
  end.

Definition Math_min (a b : JsNum) : JsNum :=
  match a, b with
  | Int x, Int y => Int (Z.min x y)
  | _, _ => NaN
  end.

(** Math.round(n / 5): the nearest integer, a half rounding up, within the
    operands of [exact]. *)
Definition round_div5 (n : JsNum) : Completion JsNum :=
  match n with
  | NaN => Normal NaN
  | Int z => if exact z then Normal (Int ((2 * z + 5) / 10)) else Unmodelled
  end.

(** v + k for a number literal k: string concatenation as soon as the left
    operand is a string or converts to one, numeric addition otherwise. *)
Definition plus_lit (v : JsVal) (k : Z) : Completion JsVal :=
  match v with
  | JUndefined => Normal (JNum NaN)
  | JNull => Normal (JNum (Int k))
  | JBool b => Normal (JNum (Int ((if b then 1 else 0) + k)))
  | JNum n => r <- num_add n (Int k) ;; Normal (JNum r)
  | JReal _ => Unmodelled
  | JStr _ | JArr _ | JObj _ =>
      s <- ToString v ;;
      Normal (JStr (s ++ num_to_string (Int k)))
  end.

(** Array.prototype.slice(0, n) *)
Definition slice0 {A} (l : list A) (n : JsNum) : list A :=
  match n with
  | NaN => []
  | Int z =>
      if z <? 0 then firstn (Z.to_nat (Z.of_nat (List.length l) + z)) l
      else firstn (Z.to_nat z) l
  end.

Definition hex_value (c : N) : option Z :=
  if is_digit c then Some (Z.of_N c - 48)
  else if ((97 <=? c) && (c <=? 102))%N then Some (Z.of_N c - 87)
  else if ((65 <=? c) && (c <=? 70))%N then Some (Z.of_N c - 55)
  else None.

(** The longest run of digits of the radix (10 or 16) at the head of [s];
    [seen] records whether a digit was read. *)
Fixpoint read_radix (hex : bool) (seen : bool) (acc : Z) (s : jsstring)
  : option Z :=
  match s with
  | c :: s' =>
      match (if hex then hex_value c
             else if is_digit c then Some (Z.of_N c - 48) else None) with
      | Some d => read_radix hex true ((if hex then 16 else 10) * acc + d) s'
      | None => if seen then Some acc else None
      end
  | [] => if seen then Some acc else None
  end.

(** parseInt(s) without a radix argument: NaN, or the integer that the
    digits write.  The source compares it with 5 and slices by it. *)
Definition parseInt (s : jsstring) : JsNum :=
  let t := trimStart s in
  let '(neg, t) :=
    match t with
    | c :: r => if (c =? 45)%N then (true, r)
                else if (c =? 43)%N then (false, r) else (false, t)
    | [] => (false, t)
    end in
  let '(hex, t) :=
    match t with
    | z :: x :: r =>
        if (z =? 48)%N && ((x =? 120)%N || (x =? 88)%N) then (true, r)
        else (false, t)
    | _ => (false, t)
    end in
  match read_radix hex false 0 t with
  | Some v => Int (if neg then - v else v)
  | None => NaN
  end.

(** ** What the two servers share *)

(** process.env *)
Record Env : Type := {
  MOCK_MODE : option jsstring;
  GEMINI_API_KEY : option jsstring
}.

(** const USE_MOCK = process.env.MOCK_MODE === 'true' *)
Definition USE_MOCK (env : Env) : bool :=
  match MOCK_MODE env with
  | Some s => str_eqb s (js "true")
  | None => false
  end.

(** How the awaited axios.post settles: with [resp.data], or rejected
    (transport failure, status outside 2xx). *)
Inductive Upstream : Type :=
| Resolves (data : JsVal)
| Rejects (msg : jsstring).

(** What a request sees of the outside: the identifier uuidv4() returns (each
    server calls it at most once per request), the clock, the remote API. *)
Record World : Type := {
  uuidv4 : jsstring;
  now : jsstring;
  axios_post : Upstream
}.

(** The object buildPrompt returns.  Its two texts are fixed templates; of
    the instruction the model keeps what the template interpolates: the
    canonical profile [p], the cap, the excluded titles and, in the flat
    server, the seed.  [maxPerCategory] is the property the nested handler
    adds afterwards. *)
Record Prompt : Type := {
  system : jsstring;
  instruction_profile : JsVal;
  instruction_max : JsNum;
  instruction_exclude : JsVal;
  instruction_seed : option JsVal;
  maxPerCategory : JsVal
}.

Inductive Call : Type :=
| MockCall
| RemoteCall (prompt : Prompt).

Inductive Payload : Type :=
| Text (s : jsstring)          (* res.send *)
| Json (v : JsVal)             (* res.json *)
| Failure (e : JsError).       (* the message of a caught error *)

Record Response : Type := {
  status : Z;
  payload : Payload
}.

(** A handled request: the response, the gateways invoked on the way, and
    req.body as the handler leaves it (it sanitizes in place). *)
Record Handled : Type := {
  response : Response;
  calls : list Call;
  body_after : JsVal
}.

(** What a handler hands to its gateway, and through it to buildPrompt:
    the sanitized profile, the excluded titles, the cap per category and the
    seed. *)
Record Inputs : Type := {
  in_profile : JsVal;
  in_exclude : JsVal;
  in_max : JsNum;
  in_seed : JsVal
}.

(** /[\u0000-\u001f\u007f-\u009f]/ *)
Definition is_control (c : N) : bool :=
  ((c <=? 31) || (127 <=? c) && (c <=? 159))%N.

(** function sanitizeText(s), the same in both servers: String(s) throws a
    TypeError where [ToString] does. *)
Definition sanitizeText (s : JsVal) : Completion JsVal :=
  if negb (truthy s) then Normal s
  else
    text <- ToString s ;;
    Normal (JStr (filter (fun c => negb (is_control c)) text)).

(** The object literal [p] of buildPrompt, the same in both servers. *)
Definition canonical_profile (profile : JsVal) : Completion JsVal :=
  age <- get profile "age" ;;
  gender <- get profile "gender" ;;
  favorite_video_games <- get profile "favorite_video_games" ;;
  favorite_board_games <- get profile "favorite_board_games" ;;
  fiction_preference <- get profile "fiction_preference" ;;
  movie_genres <- get profile "movie_genres" ;;
  reading_level <- get profile "reading_level" ;;
  interests <- get profile "interests" ;;
  preferred_format <- get profile "preferred_format" ;;
  minutes_per_week <- get profile "minutes_per_week" ;;
  language <- get profile "language" ;;
  accessibility_needs <- get profile "accessibility_needs" ;;
  max_price <- get profile "max_price" ;;
  favorite_authors <- get profile "favorite_authors" ;;
  disliked_themes <- get profile "disliked_themes" ;;
  surprise <- get profile "surprise" ;;
  Normal (JObj [
    (js "age", age);
    (js "gender", gender);
    (js "favorite_video_games", js_or favorite_video_games (JArr []));
    (js "favorite_board_games", js_or favorite_board_games (JArr []));
    (js "fiction_preference", js_or fiction_preference (JStr (js "both")));
    (js "movie_genres", js_or movie_genres (JArr []));
    (js "reading_level", reading_level);
    (js "interests", js_or interests (JArr []));
    (js "preferred_format", preferred_format);
    (js "minutes_per_week", minutes_per_week);
    (js "language", language);
    (js "accessibility_needs", js_or accessibility_needs (JArr []));
    (js "max_price", js_or max_price JNull);
    (js "favorite_authors", js_or favorite_authors (JArr []));
    (js "disliked_themes", js_or disliked_themes (JArr []));
    (js "surprise", JBool (truthy surprise))
  ]).

(** ** The nested-body server *)

Module NestedServer.
Section Server.

Variable JSON_parse : jsstring -> option JsVal.
Variable env : Env.
Variable world : World.

Definition buildPrompt (profile : JsVal) (maxPerCategory : JsNum)
    (excludeTitles seed : JsVal) : Completion Prompt :=
  p <- canonical_profile profile ;;
  Normal {|
    system := js "You are a book-suggestion engine specialized in providing age-appropriate recommendations for young readers.";
    instruction_profile := p;
    instruction_max := maxPerCategory;
    instruction_exclude := js_or excludeTitles (JArr []);
    instruction_seed := None;
    maxPerCategory := JUndefined
  |}.

(** (profile.interests||[]).slice(0,n).join(sep): only an array has both
    methods; the call on any other truthy value is a TypeError. *)
Definition interests_text (profile : JsVal) (n : nat) (sep : jsstring)
  : Completion jsstring :=
  interests <- get profile "interests" ;;
  match js_or interests (JArr []) with
  | JArr l => join sep (firstn n l)
  | _ => Throw TypeErr
  end.

(** The arrow function [make] of mockLLMResponse; the properties of the
    object literal are computed in the order in which they are written. *)
Definition make (profile : JsVal) (title : jsstring) (tags : JsVal)
    (fiction : bool) : Completion JsVal :=
  about <- interests_text profile 2 (js " and ") ;;
  age <- get profile "age" ;;
  age_n <- ToNumber age ;;
  younger <- num_sub age_n (Int 2) ;;
  let low := num_to_string (Math_max (Int 4) younger) in
  older <- plus_lit age 3 ;;
  high <- ToString older ;;
  matches <- interests_text profile 3 (js ", ") ;;
  minutes_per_week <- get profile "minutes_per_week" ;;
  minutes <- ToNumber (js_or minutes_per_week (JNum (Int 60))) ;;
  fifth <- round_div5 minutes ;;
  Normal (JObj [
    (js "title", JStr title);
    (js "author", JStr (js "A. Writer"));
    (js "year", JNum (Int 2020));
    (js "isbn", JNull);
    (js "cover_url", JNull);
    (js "short_description",
      JStr (firstn 250
              (title ++ js " is a fun "
                 ++ (if fiction then js "story" else js "book")
                 ++ js " about "
                 ++ (match about with [] => js "adventure" | _ => about end)
                 ++ js ".")));
    (js "age_range", JStr (low ++ js "-" ++ high));
    (js "why_recommended",
      JStr (js "Matches interests: "
              ++ (match matches with [] => js "general fun" | _ => matches end)
              ++ js "."));
    (js "tags", tags);
    (js "reading_time_minutes", JNum (Math_max (Int 10) fifth));
    (js "confidence", JReal (js "0.85"))
  ]).

(** The body of the for loop, run [n] times from index [i]. *)
Fixpoint mock_loop (profile : JsVal) (n : nat) (i : Z)
    (fiction nonfiction : list JsVal)
  : Completion (list JsVal * list JsVal) :=
  match n with
  | O => Normal (fiction, nonfiction)
  | S n' =>
      f <- make profile (js "Fun Story " ++ num_to_string (Int (i + 1)))
             (JArr [JStr (js "adventure"); JStr (js "friendship")]) true ;;
      g <- make profile (js "Real Facts " ++ num_to_string (Int (i + 1)))
             (JArr [JStr (js "science"); JStr (js "learning")]) false ;;
      mock_loop profile n' (i + 1) (fiction ++ [f]) (nonfiction ++ [g])
  end.

(** How often [for(let i=0; i<bound; i++)] runs. *)
Definition iterations (bound : JsNum) : nat :=
  match bound with
  | NaN => O
  | Int z => Z.to_nat z
  end.

Definition mockLLMResponse (profile : JsVal) (prompt : Prompt)
  : Completion JsVal :=
  cap <- ToNumber (js_or (maxPerCategory prompt) (JNum (Int 5))) ;;
  lists <- mock_loop profile (iterations (Math_min (Int 5) cap)) 0 [] [] ;;
  Normal (JObj [
    (js "metadata", JObj [
       (js "request_id", JStr (uuidv4 world));
       (js "model", JStr (js "gemini-2.5-flash"));
       (js "timestamp", JStr (now world))]);
    (js "results", JObj [
       (js "fiction", JArr (fst lists));
       (js "nonfiction", JArr (snd lists))]);
    (js "warnings", JArr []);
    (js "excluded_titles", JArr [])
  ]).

(** resp.data.candidates[0].content.parts[0].text *)
Definition candidate_text (data : JsVal) : Completion JsVal :=
  candidates <- get data "candidates" ;;
  first <- get0 candidates ;;
  content <- get first "content" ;;
  parts <- get content "parts" ;;
  part <- get0 parts ;;
  get part "text".

(** The try block of callGemini that reads and parses the first candidate. *)
Definition read_candidate (data : JsVal) : Completion JsVal :=
  text <- candidate_text data ;;
  match text with
  | JStr s =>                                  (* text.substring exists *)
      match JSON_parse s with
      | Some json =>
          set json "metadata" (JObj [
            (js "request_id", JStr (uuidv4 world));
            (js "model", JStr (js "gemini-pro"));
            (js "timestamp", JStr (now world))])
      | None => Throw SyntaxErr
      end
  | _ => Throw TypeErr
  end.

(** The check of callGemini on the settled response, then its try/catch. *)
Definition read_response (data : JsVal) : Completion JsVal :=
  candidates <- (if truthy data then get data "candidates"
                 else Normal JUndefined) ;;
  first <- (if truthy candidates then get0 candidates
            else Normal JUndefined) ;;
  if negb (truthy first)
  then Throw (Err (js "Invalid response from Gemini"))
  else
    try_catch (read_candidate data)
      (fun e => Throw (ErrWrap
         (js "Failed to parse Gemini response as JSON: ") e)).

Definition callGemini (prompt : Prompt) (profile : JsVal)
  : list Call * Completion JsVal :=
  if USE_MOCK env then ([MockCall], mockLLMResponse profile prompt)
  else
    match GEMINI_API_KEY env with
    | None =>
        ([], Throw (Err (js "GEMINI_API_KEY not set - check your .env file")))
    | Some apiKey =>
        match trim apiKey with
        | [] =>
            ([], Throw (Err (js "GEMINI_API_KEY not set - check your .env file")))
        | _ =>
            ([RemoteCall prompt],
             match axios_post world with
             | Rejects msg => Throw (Rejected msg)
             | Resolves data => read_response data
             end)
        end
    end.

Definition validateSchema (obj : JsVal) : Completion bool :=
  if negb (truthy obj) then Normal false
  else
    metadata <- get obj "metadata" ;;
    if negb (truthy metadata) then Normal false
    else
      results <- get obj "results" ;;
      if negb (truthy results) then Normal false else Normal true.

Definition array_fields : list string :=
  ["favorite_video_games"; "favorite_board_games"; "movie_genres";
   "interests"; "accessibility_needs"; "favorite_authors";
   "disliked_themes"]%string.

(** if(Array.isArray(profile[k])) profile[k] = profile[k].map(sanitizeText):
    the assignment only takes place when map has returned. *)
Definition sanitize_field (profile : JsVal) (k : string)
  : Completion JsVal :=
  match profile with
  | JObj props =>
      match lookup (js k) props with
      | JArr l =>
          l' <- mapM sanitizeText l ;;
          Normal (JObj (assign (js k) (JArr l') props))
      | _ => Normal profile
      end
  | _ => Normal profile
  end.

(** The for loop over the names [ks]: the profile as the loop leaves it,
    which is the object of req.body, and how the loop ends. *)
Fixpoint sanitize_fields (ks : list string) (profile : JsVal)
  : JsVal * Completion unit :=
  match ks with
  | [] => (profile, Normal tt)
  | k :: rest =>
      match sanitize_field profile k with
      | Normal profile' => sanitize_fields rest profile'
      | Throw e => (profile, Throw e)
      | Unmodelled => (profile, Unmodelled)
      end
  end.

Definition sanitize_arrays (profile : JsVal) : JsVal * Completion unit :=
  sanitize_fields array_fields profile.

(** Array.isArray(body.exclude_titles) ? body.exclude_titles.map(sanitizeText)
    : [] *)
Definition sanitize_exclude (exclude : JsVal) : Completion JsVal :=
  match exclude with
  | JArr l => l' <- mapM sanitizeText l ;; Normal (JArr l')
  | _ => Normal (JArr [])
  end.

(** The statements of the handler between the profile check and buildPrompt,
    where [body.profile] is truthy: the profile as they leave it in req.body,
    and the inputs of the prompt or the error thrown on the way. *)
Definition recommend_inputs (body : JsVal) : JsVal * Completion Inputs :=
  let '(profile, sanitized) := sanitize_arrays (field body "profile") in
  (profile,
   _ <- sanitized ;;
   exclude <- get body "exclude_titles" ;;
   exclude_titles <- sanitize_exclude exclude ;;
   max <- get body "max_results_per_category" ;;
   n <- ToNumber max ;;
   let maxPerCategory := if truthy (JNum n) then n else Int 5 in
   seed <- get body "seed" ;;
   Normal {| in_profile := profile; in_exclude := exclude_titles;
             in_max := maxPerCategory; in_seed := js_or seed JNull |}).

(** req.body once the profile has been sanitized in place. *)
Definition store_profile (body profile : JsVal) : JsVal :=
  match body with
  | JObj props => JObj (assign (js "profile") profile props)
  | _ => body
  end.

(** The try block of the handler after the profile check: the gateways
    invoked, the profile as it is left in req.body, and the response or the
    error thrown. *)
Definition recommend_try (body : JsVal)
  : list Call * JsVal * Completion Response :=
  let '(profile, inputs) := recommend_inputs body in
  match inputs with
  | Normal i =>
      match buildPrompt (in_profile i) (in_max i) (in_exclude i) (in_seed i) with
      | Normal prompt =>
          let prompt := {|
            system := system prompt;
            instruction_profile := instruction_profile prompt;
            instruction_max := instruction_max prompt;
            instruction_exclude := instruction_exclude prompt;
            instruction_seed := instruction_seed prompt;
            maxPerCategory := JNum (in_max i) |} in
          let '(called, llmResp) := callGemini prompt (in_profile i) in
          (called, profile,
           llmResp <- llmResp ;;
           ok <- validateSchema llmResp ;;
           if negb ok
           then Normal {| status := 502;
                          payload := Text (js "Model returned invalid schema") |}
           else Normal {| status := 200; payload := Json llmResp |})
      | Throw e => ([], profile, Throw e)
      | Unmodelled => ([], profile, Unmodelled)
      end
  | Throw e => ([], profile, Throw e)
  | Unmodelled => ([], profile, Unmodelled)
  end.

(** app.post('/api/recommend', ...): [None] when the request leaves the
    modelled fragment. *)
Definition api_recommend (body : JsVal) : option Handled :=
  if negb (truthy body) || negb (truthy (field body "profile"))
  then Some {| response := {| status := 400;
                              payload := Text (js "profile required") |};
               calls := []; body_after := body |}
  else
    match recommend_try body with
    | (called, profile, Normal r) =>
        Some {| response := r; calls := called;
                body_after := store_profile body profile |}
    | (called, profile, Throw e) =>
        Some {| response := {| status := 500; payload := Failure e |};
                calls := called;
                body_after := store_profile body profile |}
    | (_, _, Unmodelled) => None
    end.

End Server.
End NestedServer.

(** ** The flat-body server (backend/server.js) *)

Module FlatServer.

(** req.query: each parameter absent or a plain string. *)
Record Query : Type := {
  q_max : option jsstring;
  q_exclude : option jsstring;
  q_seed : option jsstring
}.

Record Request : Type := {
  body : JsVal;
  query : Query
}.

(** req.query.name || dflt *)
Definition param_or (p : option jsstring) (dflt : jsstring) : jsstring :=
  match p with
  | Some (c :: s) => c :: s
  | _ => dflt
  end.

Section Server.

Variable JSON_parse : jsstring -> option JsVal.
Variable env : Env.
Variable world : World.

Definition buildPrompt (profile : JsVal) (maxPerCategory : JsNum)
    (excludeTitles seed : JsVal) : Completion Prompt :=
  p <- canonical_profile profile ;;
  Normal {|
    system := js "You are a book recommendation expert helping a young reader find their next favorite books.";
    instruction_profile := p;
    instruction_max := maxPerCategory;
    instruction_exclude := excludeTitles;
    instruction_seed := Some seed;
    maxPerCategory := JUndefined
  |}.

(** text.includes(fence): the method of a string or of an array; any other
    truthy value has none. *)
Definition text_includes (text : JsVal) (fence : jsstring)
  : Completion bool :=
  match text with
  | JStr s => Normal (includes fence s)
  | JArr l =>
      Normal (existsb (fun x => match x with
                                | JStr s => str_eqb s fence
                                | _ => false
                                end) l)
  | _ => Throw TypeErr
  end.

(** text.split(fence)[1].split('```')[0].trim(): only a string can be split. *)
Definition between_fences (text : JsVal) (fence : jsstring)
  : Completion JsVal :=
  match text with
  | JStr s =>
      match nth_error (split fence s) 1 with
      | Some inner =>
          match split (js "```") inner with
          | piece :: _ => Normal (JStr (trim piece))
          | [] => Throw TypeErr
          end
      | None => Throw TypeErr
      end
  | _ => Throw TypeErr
  end.

(** The statements of callGemini from the fence test to the inner try,
    whose catch replaces whatever JSON.parse throws, the TypeError of the
    conversion of its argument to text included. *)
Definition parse_text (text : JsVal) : Completion JsVal :=
  fenced <- text_includes text (js "```json") ;;
  jsonStr <- (if fenced then between_fences text (js "```json")
              else
                plain <- text_includes text (js "```") ;;
                if plain then between_fences text (js "```")
                else Normal text) ;;
  try_catch
    (source <- ToString jsonStr ;;
     match JSON_parse source with
     | Some v => Normal v
     | None => Throw SyntaxErr
     end)
    (fun _ => Throw (Err (js "Invalid JSON response from Gemini"))).

(** The two checks of callGemini on the settled response and what follows. *)
Definition read_response (data : JsVal) : Completion JsVal :=
  candidates <- (if truthy data then get data "candidates"
                 else Normal JUndefined) ;;
  first <- (if truthy candidates then get0 candidates
            else Normal JUndefined) ;;
  if negb (truthy first)
  then Throw (Err (js "Invalid response from Gemini API"))
  else
    content <- get first "content" ;;
    parts <- (if truthy content then get content "parts"
              else Normal JUndefined) ;;
    part <- (if truthy parts then get0 parts else Normal JUndefined) ;;
    text <- (if truthy part then get part "text" else Normal JUndefined) ;;
    if negb (truthy text)
    then Throw (Err (js "No text content in Gemini response"))
    else parse_text text.

(** The outer try of callGemini only logs and rethrows. *)
Definition callGemini (profile : JsVal) (maxPerCategory : JsNum)
    (excludeTitles seed : JsVal) : list Call * Completion JsVal :=
  match GEMINI_API_KEY env with
  | Some (_ :: _) =>
      match buildPrompt profile maxPerCategory excludeTitles seed with
      | Normal prompt =>
          ([RemoteCall prompt],
           match axios_post world with
           | Rejects msg => Throw (Rejected msg)
           | Resolves data => read_response data
           end)
      | Throw e => ([], Throw e)
      | Unmodelled => ([], Unmodelled)
      end
  | _ => ([], Throw (Err (js "GEMINI_API_KEY is not configured")))
  end.

Definition mockLLMResponse (profile : JsVal) (maxPerCategory : JsNum)
  : Completion JsVal :=
  name <- get profile "name" ;;
  based_on <- ToString name ;;
  name <- get profile "name" ;;
  perfect_for <- ToString name ;;
  let fiction := [JObj [
    (js "title", JStr (js "The Dragon's Secret"));
    (js "author", JStr (js "Maria Swift"));
    (js "year", JNum (Int 2023));
    (js "isbn", JStr (js "978-1234567890"));
    (js "cover_url", JStr (js "https://via.placeholder.com/200x300"));
    (js "short_description", JStr (js "A young wizard discovers a friendly dragon hiding in the school library, leading to an adventure about friendship and courage."));
    (js "age_range", JStr (js "8-12"));
    (js "why_recommended",
      JStr (js "Based on " ++ based_on
              ++ js "'s interest in fantasy games and love of adventure stories."));
    (js "tags", JArr [JStr (js "fantasy"); JStr (js "friendship");
                      JStr (js "adventure"); JStr (js "dragons")]);
    (js "content_warnings", JArr [JStr (js "mild peril")])
  ]] in
  let nonfiction := [JObj [
    (js "title", JStr (js "Amazing Science Experiments at Home"));
    (js "author", JStr (js "Dr. Sarah Smart"));
    (js "year", JNum (Int 2024));
    (js "isbn", JStr (js "978-0987654321"));
    (js "cover_url", JStr (js "https://via.placeholder.com/200x300"));
    (js "short_description", JStr (js "A collection of safe and fun science experiments that can be done with everyday household items."));
    (js "age_range", JStr (js "7-13"));
    (js "why_recommended",
      JStr (js "Perfect for " ++ perfect_for
              ++ js "'s interest in science and hands-on activities."));
    (js "tags", JArr [JStr (js "science"); JStr (js "experiments");
                      JStr (js "education"); JStr (js "STEM")]);
    (js "content_warnings", JNull)
  ]] in
  Normal (JObj [
    (js "results", JObj [
       (js "fiction", JArr (slice0 fiction maxPerCategory));
       (js "nonfiction", JArr (slice0 nonfiction maxPerCategory))])
  ]).

(** if (typeof v === 'string') v = sanitizeText(v) *)
Definition sanitize_string (v : JsVal) : Completion JsVal :=
  if is_string v then sanitizeText v else Normal v.

(** Object.keys(profile).forEach(key => { if (typeof profile[key] ===
    'string') profile[key] = sanitizeText(profile[key]); }) *)
Definition sanitize_strings (profile : JsVal) : Completion JsVal :=
  match profile with
  | JObj props =>
      props' <- mapM (fun kv => v <- sanitize_string (snd kv) ;;
                                Normal (fst kv, v)) props ;;
      Normal (JObj props')
  | JArr elts => elts' <- mapM sanitize_string elts ;; Normal (JArr elts')
  | _ => Normal profile
  end.

(** const profile = req.body.profile || req.body *)
Definition request_profile (body : JsVal) : Completion JsVal :=
  nested <- get body "profile" ;;
  Normal (js_or nested body).

(** Math.min(parseInt(req.query.max || '3'), 5) *)
Definition max_per_category (q : Query) : JsNum :=
  Math_min (parseInt (param_or (q_max q) (js "3"))) (Int 5).

(** (req.query.exclude || '').split(',').filter(Boolean) *)
Definition exclude_titles (q : Query) : JsVal :=
  JArr (map JStr
          (filter (fun s => match s with [] => false | _ => true end)
             (split (js ",") (param_or (q_exclude q) [])))).

(** req.body once the profile has been sanitized in place: the profile is
    the object at body.profile, or the body itself. *)
Definition store_profile (body sanitized : JsVal) : JsVal :=
  match body with
  | JObj props =>
      if truthy (lookup (js "profile") props)
      then JObj (assign (js "profile") sanitized props)
      else sanitized
  | _ => sanitized
  end.

Definition invalid_request : Response :=
  {| status := 400;
     payload := Json (JObj [
       (js "error",
        JStr (js "Invalid request. Required fields: age, reading_level"))]) |}.

(** The statements of the handler between the check of the required fields
    and the choice of the gateway; [profile] is req.body.profile || req.body. *)
Definition recommend_inputs (req : Request) (profile : JsVal)
  : Completion Inputs :=
  sanitized <- sanitize_strings profile ;;
  Normal {| in_profile := sanitized;
            in_max := max_per_category (query req);
            in_exclude := exclude_titles (query req);
            in_seed := JStr (param_or (q_seed (query req)) (uuidv4 world)) |}.

(** The try block of the handler: the gateways invoked, the state of
    req.body, and the response or the error thrown. *)
Definition recommend_try (req : Request)
  : list Call * JsVal * Completion Response :=
  match request_profile (body req) with
  | Normal profile =>
      if negb (truthy profile) || negb (truthy (field profile "age"))
         || negb (truthy (field profile "reading_level"))
      then ([], body req, Normal invalid_request)
      else
        match recommend_inputs req profile with
        | Normal i =>
            let '(called, result) :=
              if USE_MOCK env
              then ([MockCall], mockLLMResponse (in_profile i) (in_max i))
              else callGemini (in_profile i) (in_max i) (in_exclude i)
                     (in_seed i) in
            (called, store_profile (body req) (in_profile i),
             result <- result ;;
             Normal {| status := 200; payload := Json result |})
        | Throw e => ([], body req, Throw e)
        | Unmodelled => ([], body req, Unmodelled)
        end
  | Throw e => ([], body req, Throw e)
  | Unmodelled => ([], body req, Unmodelled)
  end.

(** app.post('/api/recommend', ...) *)
Definition api_recommend (req : Request) : option Handled :=
  match recommend_try req with
  | (called, after, Normal r) =>
      Some {| response := r; calls := called; body_after := after |}
  | (called, after, Throw e) =>
      Some {| response := {| status := 500; payload := Failure e |};
              calls := called; body_after := after |}
  | (_, _, Unmodelled) => None
  end.

End Server.
End FlatServer.

(** ** A reference JSON.parse

    The servers take JSON.parse as an input.  To run them on concrete
    documents the development provides [parse_json], a recursive-descent
    reader of the JSON grammar with integer numbers; a document with a
    fraction, an exponent or an integer beyond the safe ones is not read. *)

Definition is_json_space (c : N) : bool :=
  ((c =? 32) || (c =? 9) || (c =? 10) || (c =? 13))%N.

Fixpoint skip_space (s : jsstring) : jsstring :=
  match s with
  | c :: s' => if is_json_space c then skip_space s' else s
  | [] => []
  end.

Definition simple_escape (c : N) : option N :=
  if (c =? 34)%N then Some 34%N            (* quote *)
  else if (c =? 92)%N then Some 92%N       (* backslash *)
  else if (c =? 47)%N then Some 47%N       (* slash *)
  else if (c =? 98)%N then Some 8%N        (* b *)
  else if (c =? 102)%N then Some 12%N      (* f *)
  else if (c =? 110)%N then Some 10%N      (* n *)
  else if (c =? 114)%N then Some 13%N      (* r *)
  else if (c =? 116)%N then Some 9%N       (* t *)
  else None.

Definition hex4 (a b c d : N) : option N :=
  match hex_value a, hex_value b, hex_value c, hex_value d with
  | Some w, Some x, Some y, Some z =>
      Some (Z.to_N (((w * 16 + x) * 16 + y) * 16 + z))
  | _, _, _, _ => None
  end.

(** The characters of a string literal after its opening quote. *)
Fixpoint read_string (acc s : jsstring) : option (jsstring * jsstring) :=
  match s with
  | [] => None
  | c :: r =>
      if (c =? 34)%N then Some (rev acc, r)
      else if (c =? 92)%N then
        match r with
        | e :: r' =>
            match simple_escape e with
            | Some x => read_string (x :: acc) r'
            | None =>
                if (e =? 117)%N then
                  match r' with
                  | h1 :: h2 :: h3 :: h4 :: r'' =>
                      match hex4 h1 h2 h3 h4 with
                      | Some x => read_string (x :: acc) r''
                      | None => None
                      end
                  | _ => None
                  end
                else None
            end
        | [] => None
        end
      else if (c <? 32)%N then None
      else read_string (c :: acc) r
  end.

(** An integer literal: an optional minus, then 0 or a run of digits that
    does not start with 0, not followed by a fraction or an exponent, and
    within the safe integers. *)
Definition read_number (s : jsstring) : option (JsVal * jsstring) :=
  let '(neg, t) := match s with
                   | c :: r => if (c =? 45)%N then (true, r) else (false, s)
                   | [] => (false, s)
                   end in
  match t with
  | d :: r =>
      if negb (is_digit d) then None
      else
        let '(z, rest) := read_digits 0 t in
        let leading_zero :=
          (d =? 48)%N && match r with e :: _ => is_digit e | [] => false end in
        let continues :=
          match rest with
          | e :: _ => (e =? 46)%N || (e =? 101)%N || (e =? 69)%N
          | [] => false
          end in
        if leading_zero || continues || negb (safe z) then None
        else Some (JNum (Int (if neg then - z else z)), rest)
  | [] => None
  end.

Definition strip (p s : jsstring) : option jsstring :=
  if prefix p s then Some (skipn (List.length p) s) else None.

Fixpoint parse_value (fuel : nat) (s : jsstring) {struct fuel}
  : option (JsVal * jsstring) :=
  match fuel with
  | O => None
  | S f =>
      match skip_space s with
      | [] => None
      | c :: r =>
          if (c =? 34)%N then
            match read_string [] r with
            | Some (str, rest) => Some (JStr str, rest)
            | None => None
            end
          else if (c =? 91)%N then
            match skip_space r with
            | e :: r' => if (e =? 93)%N then Some (JArr [], r')
                         else parse_elements f r []
            | [] => None
            end
          else if (c =? 123)%N then
            match skip_space r with
            | e :: r' => if (e =? 125)%N then Some (JObj [], r')
                         else parse_members f r []
            | [] => None
            end
          else if (c =? 45)%N || is_digit c then read_number (c :: r)
          else
            match strip (js "true") (c :: r) with
            | Some rest => Some (JBool true, rest)
            | None =>
                match strip (js "false") (c :: r) with
                | Some rest => Some (JBool false, rest)
                | None =>
                    match strip (js "null") (c :: r) with
                    | Some rest => Some (JNull, rest)
                    | None => None
                    end
                end
            end
      end
  end

with parse_elements (fuel : nat) (s : jsstring) (acc : list JsVal)
    {struct fuel} : option (JsVal * jsstring) :=
  match fuel with
  | O => None
  | S f =>
      match parse_value f s with
      | Some (v, rest) =>
          match skip_space rest with
          | c :: r =>
              if (c =? 44)%N then parse_elements f r (v :: acc)
              else if (c =? 93)%N then Some (JArr (rev (v :: acc)), r)
              else None
          | [] => None
          end
      | None => None
      end
  end

with parse_members (fuel : nat) (s : jsstring)
    (acc : list (jsstring * JsVal)) {struct fuel}
  : option (JsVal * jsstring) :=
  match fuel with
  | O => None
  | S f =>
      match skip_space s with
      | q :: r =>
          if negb (q =? 34)%N then None
          else
            match read_string [] r with
            | Some (key, rest) =>
                match skip_space rest with
                | colon :: r' =>
                    if negb (colon =? 58)%N then None
                    else
                      match parse_value f r' with
                      | Some (v, rest') =>
                          match skip_space rest' with
                          | c :: r'' =>
                              if (c =? 44)%N
                              then parse_members f r'' (assign key v acc)
                              else if (c =? 125)%N
                              then Some (JObj (assign key v acc), r'')
                              else None
                          | [] => None
                          end
                      | None => None
                      end
                | [] => None
                end
            | None => None
            end
      | [] => None
      end
  end.

Definition parse_json (s : jsstring) : option JsVal :=
  match parse_value (S (List.length s)) s with
  | Some (v, rest) =>
      match skip_space rest with
      | [] => Some v
      | _ => None
      end
  | None => None
  end.

(** ** Vocabulary of the statements *)

(** a?.k *)
Definition opt (v : JsVal) (read : JsVal -> Completion JsVal) : JsVal :=
  match v with
  | JUndefined | JNull => JUndefined
  | _ => match read v with Normal x => x | _ => JUndefined end
  end.

(** data?.candidates?.[0]?.content?.parts?.[0]?.text: where the remote API
    puts the text of its first candidate. *)
Definition first_text (data : JsVal) : JsVal :=
  let candidates := opt data (fun v => get v "candidates") in
  let first := opt candidates get0 in
  let content := opt first (fun v => get v "content") in
  let parts := opt content (fun v => get v "parts") in
  let part := opt parts get0 in
  opt part (fun v => get v "text").

(** The first candidate carries no non-empty text: the value at
    [first_text] is anything but a non-empty string. *)
Definition no_text_content (data : JsVal) : bool :=
  match first_text data with
  | JStr (_ :: _) => false
  | _ => true
  end.

(** A document between a Markdown fence with the json tag, and between a
    bare fence, each on lines of its own. *)
Definition fence_json (j : jsstring) : jsstring :=
  js "```json" ++ 10%N :: j ++ 10%N :: js "```".

Definition fence_plain (j : jsstring) : jsstring :=
  js "```" ++ 10%N :: j ++ 10%N :: js "```".

(** A remote response whose only candidate carries [text]. *)
Definition response_with (text : jsstring) : JsVal :=
  JObj [(js "candidates",
         JArr [JObj [(js "content",
                      JObj [(js "parts",
                             JArr [JObj [(js "text", JStr text)]])])]])].

(** The request sits in the modelled fragment: the statements of the
    nested handler before buildPrompt convert nothing that the model leaves
    unanswered. *)
Definition in_fragment (body : JsVal) : bool :=
  match snd (NestedServer.recommend_inputs body) with
  | Unmodelled => false
  | _ => true
  end.

(** An object literal. *)
Definition obj (props : list (string * JsVal)) : JsVal :=
  JObj (map (fun kv => (js (fst kv), snd kv)) props).

Definition is_number (v : JsVal) : bool :=
  match v with JNum _ => true | _ => false end.

(** An integer within the operands of [exact]. *)
Definition is_integer (v : JsVal) : bool :=
  match v with JNum (Int z) => exact z | _ => false end.

(** A sequence of strings. *)
Definition strings (v : JsVal) : bool :=
  match v with JArr l => forallb is_string l | _ => false end.

Definition optional (of_type : JsVal -> bool) (v : JsVal) : bool :=
  match v with
  | JUndefined => true
  | _ => of_type v
  end.

(** A ReaderProfile as the data model declares it, as far as the mocks
    read it: an object whose age and minutes_per_week, when present, are
    integers, whose interests, when present, are a sequence of strings, and
    whose name, when present, is a string. *)
Definition well_formed (profile : JsVal) : bool :=
  match profile with
  | JObj _ =>
      optional is_integer (field profile "age")
      && optional is_integer (field profile "minutes_per_week")
      && optional strings (field profile "interests")
      && optional is_string (field profile "name")
  | _ => false
  end.

(** result.results[category] when it is an array. *)
Definition entries (result : JsVal) (category : string)
  : option (list JsVal) :=
  match field (field result "results") category with
  | JArr l => Some l
  | _ => None
  end.

(** A string without its control characters; any other value as it is. *)
Definition clean_string (v : JsVal) : JsVal :=
  match v with
  | JStr s => JStr (filter (fun c => negb (is_control c)) s)
  | _ => v
  end.

(** An array holds strings; any other value passes. *)
Definition strings_if_array (v : JsVal) : bool :=
  match v with JArr l => forallb is_string l | _ => true end.

(** The arrays that the nested handler sanitizes hold strings, as the data
    model declares them: the seven array fields of the profile and
    exclude_titles. *)
Definition string_arrays (body : JsVal) : bool :=
  forallb (fun k => strings_if_array (field (field body "profile") k))
    NestedServer.array_fields
  && strings_if_array (field body "exclude_titles").

(** A value that Number(v) || 5 replaces by 5: Number(v) is NaN or 0. *)
Definition no_number (v : JsVal) : Prop :=
  ToNumber v = Normal NaN \/ ToNumber v = Normal (Int 0).

(** [l'] holds, element by element, what sanitizeText returns on [l]. *)
Definition sanitized (l l' : list JsVal) : Prop :=
  Forall2 (fun v v' => sanitizeText v = Normal v') l l'.

(** No key occurs twice. *)
Fixpoint distinct (keys : list jsstring) : bool :=
  match keys with
  | [] => true
  | k :: rest => negb (existsb (str_eqb k) rest) && distinct rest
  end.

(** The nested server finds a credential: GEMINI_API_KEY is set and not
    blank. *)
Definition configured (env : Env) : bool :=
  match GEMINI_API_KEY env with
  | Some k => match trim k with [] => false | _ => true end
  | None => false
  end.

(** JSON.parse answers undefined or null. *)
Definition nullish (v : JsVal) : bool :=
  match v with
  | JUndefined | JNull => true
  | _ => false
  end.

(** One step of reading decimal text: the value so far and the next digit. *)
Definition dec_step (a : Z) (c : N) : Z := 10 * a + (Z.of_N c - 48).

(** What [make] puts in the computed fields of an entry for a profile with
    the properties [props]. *)
Definition made (props : list (jsstring * JsVal)) (e : JsVal) : Prop :=
  exists younger high fifth d,
    (age_n <- ToNumber (lookup (js "age") props) ;;
     num_sub age_n (Int 2)) = Normal younger
    /\ (older <- plus_lit (lookup (js "age") props) 3 ;; ToString older)
       = Normal high
    /\ (minutes <- ToNumber (js_or (lookup (js "minutes_per_week") props)
                               (JNum (Int 60))) ;;
        round_div5 minutes) = Normal fifth
    /\ field e "reading_time_minutes" = JNum (Math_max (Int 10) fifth)
    /\ field e "age_range"
       = JStr (num_to_string (Math_max (Int 4) younger) ++ js "-" ++ high)
    /\ field e "short_description" = JStr d
    /\ (List.length d <= 250)%nat.

(** ** Sample inputs *)

Definition mock_env : Env :=
  {| MOCK_MODE := Some (js "true"); GEMINI_API_KEY := None |}.

Definition live_env : Env :=
  {| MOCK_MODE := Some (js "false"); GEMINI_API_KEY := Some (js "AIza-key") |}.

(** A request during which the remote API answers [data]. *)
Definition world_answering (data : JsVal) : World :=
  {| uuidv4 := js "3f0c9f0e-52a1-4b8e-9d3c-7a1b2c3d4e5f";
     now := js "2025-01-01T00:00:00.000Z";
     axios_post := Resolves data |}.

Definition no_query : FlatServer.Query :=
  {| FlatServer.q_max := None;
     FlatServer.q_exclude := None;
     FlatServer.q_seed := None |}.

(** {age: 8, reading_level: 'grade 3'} *)
Definition flat_profile : JsVal :=
  obj [("age", JNum (Int 8)); ("reading_level", JStr (js "grade 3"))]%string.

(** {profile: {age: 8, fiction_preference: 'both', interests: ['space']},
     exclude_titles: [], max_results_per_category: 2}, the body of the
    end-to-end test. *)
Definition test_body : JsVal :=
  obj [("profile",
        obj [("age", JNum (Int 8));
             ("fiction_preference", JStr (js "both"));
             ("interests", JArr [JStr (js "space")])]);
       ("exclude_titles", JArr []);
       ("max_results_per_category", JNum (Int 2))]%string.

(** A name with a control character, U+0001, in it. *)
Definition dirty : jsstring := js "Ann" ++ [1%N] ++ js "a".

(** A prompt as the nested handler passes it to the mock, with the cap [n]. *)
Definition test_prompt (n : Z) : Prompt :=
  {| system := []; instruction_profile := JNull; instruction_max := Int n;
     instruction_exclude := JArr []; instruction_seed := None;
     maxPerCategory := JNum (Int n) |}.

(** The JSON document of a string that holds a fenced 1. *)
Definition quoted_fence : jsstring := 34%N :: js "```1```" ++ [34%N].

(** ** The health endpoint and the repository's test *)

(** app.get('/api/health', ...) of backend/server.js *)
Definition api_health (env : Env) : Response :=
  {| status := 200;
     payload := Json (obj [("status", JStr (js "ok"));
                           ("mock_mode", JBool (USE_MOCK env))]%string) |}.

(** The assertions of runTest on the answer to its request:
    assert.equal(res.statusCode, 200), then JSON.parse of the body and
    assert(json.metadata && json.results). *)
Definition runTest_passes (r : Response) : bool :=
  (status r =? 200)
  && match payload r with
     | Json v => truthy (field v "metadata") && truthy (field v "results")
     | _ => false
     end.

(** ** More vocabulary *)

(** A code unit outside U+0000..U+001F and U+007F..U+009F. *)
Definition printable (c : N) : Prop := (31 < c /\ (c < 127 \/ 159 < c))%N.

(** What sanitizeText leaves of a value: the value itself when it is falsy,
    else a string of printable code units. *)
Definition clean_value (v : JsVal) : Prop :=
  truthy v = false \/ exists t, v = JStr t /\ Forall printable t.

(** The flat server finds a credential: GEMINI_API_KEY is set and not
    empty. *)
Definition flat_configured (env : Env) : bool :=
  match GEMINI_API_KEY env with
  | Some (_ :: _) => true
  | _ => false
  end.

(** The names of the properties of the object [p] of buildPrompt. *)
Definition canonical_keys : list string :=
  ["age"; "gender"; "favorite_video_games"; "favorite_board_games";
   "fiction_preference"; "movie_genres"; "reading_level"; "interests";
   "preferred_format"; "minutes_per_week"; "language";
   "accessibility_needs"; "max_price"; "favorite_authors";
   "disliked_themes"; "surprise"]%string.

(** The titles [stem 1], ..., [stem k] of the nested mock. *)
Definition numbered (stem : string) (k : nat) : list JsVal :=
  map (fun i => JStr (js stem ++ num_to_string (Int (Z.of_nat i)))) (seq 1 k).

(** A text with prose before and after a json fence. *)
Definition fenced_in (pre j post : jsstring) : jsstring :=
  pre ++ js "```json" ++ 10%N :: j ++ 10%N :: js "```" ++ post.

(** A string literal of JSON: the text between quotes. *)
Definition quoted (s : string) : jsstring := 34%N :: js s ++ [34%N].

(** The text {"results": {}, "metadata": 7} that a model may write. *)
Definition model_text : jsstring :=
  js "{" ++ quoted "results" ++ js ": {}, " ++ quoted "metadata" ++ js ": 7}".

(** After the closing fence, text that does not begin with a backtick. *)
Definition no_backtick_ahead (post : jsstring) : Prop :=
  match post with
  | [] => True
  | c :: _ => c <> 96%N
  end.

(** * Proofs *)

(** ** Completions *)

Lemma Normal_inj {A} (a b : A) : Normal a = Normal b -> a = b.
Proof. now intros [= ->]. Qed.

Lemma bind_normal {A B} (c : Completion A) (k : A -> Completion B) b :
  bind c k = Normal b -> exists a, c = Normal a /\ k a = Normal b.
Proof.
  destruct c as [a| |]; try discriminate. intros H. now exists a.
Qed.

Lemma bind_modelled {A B} (c : Completion A) (k : A -> Completion B) :
  c <> Unmodelled -> (forall a, k a <> Unmodelled) -> bind c k <> Unmodelled.
Proof.
  intros Hc Hk. destruct c as [a| |]; [apply Hk | discriminate | congruence].
Qed.

Lemma mapM_pure {A B} (g : A -> B) (l : list A) :
  mapM (fun x => Normal (g x)) l = Normal (map g l).
Proof.
  induction l as [|x l IH]; [reflexivity|]. cbn [mapM bind map].
  now rewrite IH.
Qed.

Lemma mapM_ext {A B} (f g : A -> Completion B) (l : list A) :
  (forall x, In x l -> f x = g x) -> mapM f l = mapM g l.
Proof.
  induction l as [|x l IH]; intros H; [reflexivity|]. cbn [mapM].
  rewrite (H x (or_introl eq_refl)), IH; [reflexivity|].
  intros y Hy. apply H. now right.
Qed.

Lemma mapM_Forall2 {A B} (f : A -> Completion B) (l : list A) l' :
  mapM f l = Normal l' <-> Forall2 (fun x y => f x = Normal y) l l'.
Proof.
  revert l'. induction l as [|x l IH]; intros l'; cbn [mapM].
  - split.
    + intros H. injection H as <-. constructor.
    + intros H. inversion H. reflexivity.
  - split.
    + intros H. apply bind_normal in H. destruct H as (y & Hy & H).
      apply bind_normal in H. destruct H as (ys & Hys & H).
      injection H as <-. constructor; [exact Hy | now apply IH].
    + intros H. inversion H as [|? y ? ys Hy Hys]; subst.
      rewrite Hy. cbn [bind]. apply IH in Hys. now rewrite Hys.
Qed.

Lemma mapM_length {A B} (f : A -> Completion B) (l : list A) l' :
  mapM f l = Normal l' -> List.length l' = List.length l.
Proof.
  intros H. apply mapM_Forall2 in H.
  induction H; [reflexivity | simpl; congruence].
Qed.

Lemma mapM_modelled {A B} (f : A -> Completion B) (l : list A) :
  (forall x, In x l -> f x <> Unmodelled) -> mapM f l <> Unmodelled.
Proof.
  induction l as [|x l IH]; intros H; [discriminate|]. cbn [mapM].
  apply bind_modelled; [apply H; now left|]. intros y.
  apply bind_modelled; [|discriminate]. apply IH. intros z Hz. apply H.
  now right.
Qed.

(** ** Sanitization *)

Lemma filter_twice {A} (f : A -> bool) (l : list A) :
  filter f (filter f l) = filter f l.
Proof.
  induction l as [|x l IH]; simpl; [reflexivity|].
  destruct (f x) eqn:E; simpl; [rewrite E, IH|]; auto.
Qed.

Lemma sanitizeText_string (s : jsstring) :
  sanitizeText (JStr s)
  = Normal (JStr (filter (fun c => negb (is_control c)) s)).
Proof.
  unfold sanitizeText. destruct s; reflexivity.
Qed.

Lemma is_control_ranges (c : N) :
  is_control c = false <-> (31 < c /\ (c < 127 \/ 159 < c))%N.
Proof.
  unfold is_control.
  rewrite orb_false_iff, andb_false_iff, !N.leb_gt. lia.
Qed.

Lemma sanitizeText_strings (l : list JsVal) :
  forallb is_string l = true ->
  mapM sanitizeText l = Normal (map clean_string l).
Proof.
  intros H. rewrite <- mapM_pure. apply mapM_ext. intros x Hx.
  rewrite forallb_forall in H. specialize (H x Hx).
  destruct x; try discriminate H. apply sanitizeText_string.
Qed.

(** The sanitization of the flat-body server cannot fail: a string has its
    text. *)
Lemma sanitize_string_clean (v : JsVal) :
  FlatServer.sanitize_string v = Normal (clean_string v).
Proof.
  unfold FlatServer.sanitize_string.
  destruct v; try reflexivity. apply sanitizeText_string.
Qed.

Lemma sanitize_strings_object props :
  FlatServer.sanitize_strings (JObj props)
  = Normal (JObj (map (fun kv => (fst kv, clean_string (snd kv))) props)).
Proof.
  unfold FlatServer.sanitize_strings.
  rewrite (mapM_ext _ (fun kv => Normal (fst kv, clean_string (snd kv)))).
  - now rewrite mapM_pure.
  - intros kv _. now rewrite sanitize_string_clean.
Qed.

Lemma sanitize_strings_normal profile :
  exists p, FlatServer.sanitize_strings profile = Normal p
            /\ (forall ps, profile = JObj ps ->
                  p = JObj (map (fun kv => (fst kv, clean_string (snd kv))) ps)).
Proof.
  destruct profile as [| |b|n|r|s|l|ps];
    try (eexists; split; [reflexivity | discriminate]).
  - unfold FlatServer.sanitize_strings.
    rewrite (mapM_ext _ (fun v => Normal (clean_string v)))
      by (intros v _; apply sanitize_string_clean).
    rewrite mapM_pure. eexists. split; [reflexivity | discriminate].
  - rewrite sanitize_strings_object. eexists. split; [reflexivity|].
    intros ps' E. now injection E as <-.
Qed.

(** ** Conversion to text *)

Lemma JsVal_induction (P : JsVal -> Prop) :
  P JUndefined -> P JNull -> (forall b, P (JBool b)) ->
  (forall n, P (JNum n)) -> (forall t, P (JReal t)) ->
  (forall s, P (JStr s)) ->
  (forall l, Forall P l -> P (JArr l)) ->
  (forall ps, Forall (fun kv => P (snd kv)) ps -> P (JObj ps)) ->
  forall v, P v.
Proof.
  intros Hu Hn Hb Hnum Hr Hs Ha Ho. fix IH 1.
  intros [| |b|n|r|s|l|ps];
    [exact Hu | exact Hn | apply Hb | apply Hnum | apply Hr | apply Hs | |].
  - apply Ha. revert l. fix IHl 1. intros [|x l]; constructor;
      [apply IH | apply IHl].
  - apply Ho. revert ps. fix IHps 1. intros [|[k x] ps]; constructor;
      [apply IH | apply IHps].
Qed.

Lemma ToString_array (l : list JsVal) :
  ToString (JArr l) = join (js ",") l.
Proof.
  unfold join. cbn [ToString]. f_equal.
  induction l as [|x l IH]; [reflexivity|].
  cbn [mapM]. rewrite <- IH. destruct x; reflexivity.
Qed.

(** The conversion to text is answered on every value: it returns or
    throws. *)
Lemma ToString_modelled (v : JsVal) : ToString v <> Unmodelled.
Proof.
  induction v as [| |b|n|r|s|l IH|ps _] using JsVal_induction;
    try discriminate.
  - destruct b; discriminate.
  - rewrite ToString_array. unfold join.
    apply bind_modelled; [|discriminate].
    apply mapM_modelled. intros x Hx. rewrite Forall_forall in IH.
    specialize (IH x Hx). destruct x; try discriminate; exact IH.
  - cbn [ToString]. destruct (has_own "toString" ps); discriminate.
Qed.

Lemma ToString_cases (v : JsVal) :
  (exists t, ToString v = Normal t) \/ ToString v = Throw TypeErr.
Proof.
  induction v as [| |b|n|r|s|l IH|ps _] using JsVal_induction;
    try (left; eexists; reflexivity).
  - destruct b; left; eexists; reflexivity.
  - rewrite ToString_array. unfold join.
    induction IH as [|x l Hx _ IHl]; [left; eexists; reflexivity|].
    cbn [mapM].
    assert (Hx' : (exists t, element_text x = Normal t)
                  \/ element_text x = Throw TypeErr).
    { destruct x; try exact Hx; left; eexists; reflexivity. }
    destruct Hx' as [[t ->] | ->]; [|now right]. cbn [bind].
    destruct (mapM element_text l) as [ts| |]; cbn [bind] in *.
    + left. eexists. reflexivity.
    + destruct IHl as [[t' H] | H]; [discriminate H|].
      injection H as ->. now right.
    + destruct IHl as [[t' H] | H]; discriminate H.
  - cbn [ToString]. destruct (has_own "toString" ps);
      [now right | left; eexists; reflexivity].
Qed.

Lemma element_text_string (x : JsVal) :
  is_string x = true -> exists s, x = JStr s /\ element_text x = Normal s.
Proof. destruct x; try discriminate. intros _. now eexists. Qed.

Lemma join_strings sep (l : list JsVal) :
  forallb is_string l = true -> exists t, join sep l = Normal t.
Proof.
  intros H. unfold join.
  assert (E : exists ts, mapM element_text l = Normal ts).
  { induction l as [|x l IH]; [eexists; reflexivity|].
    cbn [forallb] in H. apply andb_true_iff in H. destruct H as [Hx Hl].
    destruct (element_text_string x Hx) as (s & -> & Es).
    destruct (IH Hl) as [ts E]. cbn [mapM]. rewrite Es. cbn [bind].
    rewrite E. eexists. reflexivity. }
  destruct E as [ts ->]. eexists. reflexivity.
Qed.

Lemma forallb_firstn {A} (f : A -> bool) n (l : list A) :
  forallb f l = true -> forallb f (firstn n l) = true.
Proof.
  revert n. induction l as [|x l IH]; intros [|n] H; try reflexivity.
  cbn [forallb firstn] in *. apply andb_true_iff in H.
  destruct H as [-> H]. now rewrite IH.
Qed.

Lemma sanitizeText_modelled (v : JsVal) : sanitizeText v <> Unmodelled.
Proof.
  unfold sanitizeText. destruct (negb (truthy v)); [discriminate|].
  apply bind_modelled; [apply ToString_modelled | discriminate].
Qed.

Lemma ToString_clean_string (v : JsVal) t :
  ToString v = Normal t -> exists t', ToString (clean_string v) = Normal t'.
Proof.
  destruct v; try (intros H; exists t; exact H).
  intros _. eexists. reflexivity.
Qed.

(** ** Objects *)

Lemma str_eqb_refl a : str_eqb a a = true.
Proof. induction a as [|x a IH]; simpl; [|rewrite N.eqb_refl]; auto. Qed.

Lemma str_eqb_eq a : forall b, str_eqb a b = true -> a = b.
Proof.
  induction a as [|x a IH]; intros [|y b] H; simpl in H; try discriminate;
    [reflexivity|].
  apply andb_true_iff in H. destruct H as [H1 H2].
  apply N.eqb_eq in H1. subst. f_equal. auto.
Qed.

Lemma str_eqb_neq a b : str_eqb a b = false -> a <> b.
Proof. intros H ->. now rewrite str_eqb_refl in H. Qed.

Lemma lookup_assign k k' v props :
  lookup k (assign k' v props)
  = if str_eqb k k' then v else lookup k props.
Proof.
  induction props as [|[k0 v0] rest IH]; simpl.
  - destruct (str_eqb k k'); reflexivity.
  - destruct (str_eqb k' k0) eqn:E; simpl.
    + apply str_eqb_eq in E. subst k0.
      destruct (str_eqb k k'); reflexivity.
    + rewrite IH. destruct (str_eqb k k0) eqn:E0; [|reflexivity].
      apply str_eqb_eq in E0. subst k0.
      destruct (str_eqb k k') eqn:E1; [|reflexivity].
      apply str_eqb_eq in E1. subst k'. now rewrite str_eqb_refl in E.
Qed.

Lemma lookup_map (f : JsVal -> JsVal) k props :
  f JUndefined = JUndefined ->
  lookup k (map (fun kv => (fst kv, f (snd kv))) props) = f (lookup k props).
Proof.
  intros Hf. induction props as [|[k0 v0] rest IH]; simpl; [auto|].
  destruct (str_eqb k k0); auto.
Qed.

Lemma truthy_field_object v k :
  truthy (field v k) = true -> exists ps, v = JObj ps.
Proof.
  destruct v as [| |b|n|r|s|l|ps]; try discriminate. intros _. now exists ps.
Qed.

Lemma truthy_object_field body k :
  truthy (field body k) = true -> truthy body = true.
Proof.
  intros H. destruct (truthy_field_object _ _ H) as [ps ->]. reflexivity.
Qed.

Lemma lookup_clean k props :
  lookup k (map (fun kv => (fst kv, clean_string (snd kv))) props)
  = clean_string (lookup k props).
Proof. now apply (lookup_map clean_string). Qed.

(** ** Requests turned away *)

Lemma flat_invalid_request parse env world req profile :
  FlatServer.request_profile (FlatServer.body req) = Normal profile ->
  truthy (field profile "age") = false
    \/ truthy (field profile "reading_level") = false ->
  FlatServer.api_recommend parse env world req
  = Some {| response := FlatServer.invalid_request;
            calls := [];
            body_after := FlatServer.body req |}.
Proof.
  intros Hp Hmiss.
  unfold FlatServer.api_recommend, FlatServer.recommend_try. rewrite Hp.
  destruct Hmiss as [H | H]; rewrite H; simpl;
    rewrite ?orb_true_r; reflexivity.
Qed.

Lemma nested_rejects_without_profile parse env world body :
  truthy (field body "profile") = false ->
  NestedServer.api_recommend parse env world body
  = Some {| response := {| status := 400;
                           payload := Text (js "profile required") |};
            calls := []; body_after := body |}.
Proof.
  intros H. unfold NestedServer.api_recommend. rewrite H.
  now rewrite orb_true_r.
Qed.

Lemma flat_profile_of_flat_body props :
  lookup (js "profile") props = JUndefined ->
  FlatServer.request_profile (JObj props) = Normal (JObj props).
Proof.
  intros H. unfold FlatServer.request_profile. simpl. now rewrite H.
Qed.

(** ** The flat handler past its checks *)

Lemma flat_inputs_object world req props :
  FlatServer.recommend_inputs world req (JObj props)
  = Normal {| in_profile :=
                JObj (map (fun kv => (fst kv, clean_string (snd kv))) props);
              in_max := FlatServer.max_per_category (FlatServer.query req);
              in_exclude := FlatServer.exclude_titles (FlatServer.query req);
              in_seed := JStr (FlatServer.param_or
                                 (FlatServer.q_seed (FlatServer.query req))
                                 (uuidv4 world)) |}.
Proof.
  unfold FlatServer.recommend_inputs. now rewrite sanitize_strings_object.
Qed.

(** What the handler does with a request whose profile has a truthy age and
    reading_level. *)
Lemma flat_valid_request parse env world req profile :
  FlatServer.request_profile (FlatServer.body req) = Normal profile ->
  truthy (field profile "age") = true ->
  truthy (field profile "reading_level") = true ->
  exists props i,
    profile = JObj props
    /\ FlatServer.recommend_inputs world req profile = Normal i
    /\ in_profile i
       = JObj (map (fun kv => (fst kv, clean_string (snd kv))) props)
    /\ in_max i = FlatServer.max_per_category (FlatServer.query req)
    /\ in_exclude i = FlatServer.exclude_titles (FlatServer.query req)
    /\ FlatServer.api_recommend parse env world req
       = match
           (let '(called, result) :=
              if USE_MOCK env
              then ([MockCall],
                    FlatServer.mockLLMResponse (in_profile i) (in_max i))
              else FlatServer.callGemini parse env world (in_profile i)
                     (in_max i) (in_exclude i) (in_seed i) in
            (called,
             FlatServer.store_profile (FlatServer.body req) (in_profile i),
             result <- result ;;
             Normal {| status := 200; payload := Json result |}))
         with
         | (called, after, Normal r) =>
             Some {| response := r; calls := called; body_after := after |}
         | (called, after, Throw e) =>
             Some {| response := {| status := 500; payload := Failure e |};
                     calls := called; body_after := after |}
         | (_, _, Unmodelled) => None
         end.
Proof.
  intros Hp Ha Hl. destruct (truthy_field_object _ _ Ha) as [props ->].
  exists props. eexists. split; [reflexivity|].
  split; [apply flat_inputs_object|]. repeat (split; [reflexivity|]).
  unfold FlatServer.api_recommend, FlatServer.recommend_try.
  rewrite Hp, Ha, Hl, flat_inputs_object. reflexivity.
Qed.

Lemma flat_mock_returns props (cap : JsNum) :
  match ToString (lookup (js "name") props) with
  | Normal _ => exists r, FlatServer.mockLLMResponse (JObj props) cap = Normal r
  | Throw e => FlatServer.mockLLMResponse (JObj props) cap = Throw e
  | Unmodelled => False
  end.
Proof.
  pose proof (ToString_modelled (lookup (js "name") props)) as Hm.
  unfold FlatServer.mockLLMResponse. cbn [get bind].
  destruct (ToString (lookup (js "name") props)); cbn [bind];
    [eexists; reflexivity | reflexivity | congruence].
Qed.

Lemma flat_mock_answers parse env world req profile :
  FlatServer.request_profile (FlatServer.body req) = Normal profile ->
  truthy (field profile "age") = true ->
  truthy (field profile "reading_level") = true ->
  USE_MOCK env = true ->
  exists h, FlatServer.api_recommend parse env world req = Some h
            /\ calls h = [MockCall]
            /\ (status (response h) = 200 \/ status (response h) = 500)
            /\ (forall t, ToString (field profile "name") = Normal t ->
                          status (response h) = 200).
Proof.
  intros Hp Ha Hl Hm.
  destruct (flat_valid_request parse env world req profile Hp Ha Hl)
    as (props & i & -> & _ & Pi & _ & _ & ->).
  rewrite Hm, Pi.
  pose proof (flat_mock_returns
                (map (fun kv => (fst kv, clean_string (snd kv))) props)
                (in_max i)) as H.
  rewrite lookup_clean in H. unfold field. cbn [get].
  destruct (ToString (clean_string (lookup (js "name") props))) as [t| |] eqn:E;
    [| |contradiction].
  - destruct H as [r ->]. cbn [bind]. eexists. split; [reflexivity|].
    split; [reflexivity|]. split; [now left | reflexivity].
  - rewrite H. cbn [bind]. eexists. split; [reflexivity|].
    split; [reflexivity|]. split; [now right|].
    intros t Ht. destruct (ToString_clean_string _ _ Ht) as [t' Ht'].
    congruence.
Qed.

(** ** Decimal text and parseInt *)

Lemma digits_go_S f n acc :
  digits_go (S f) n acc
  = if (n <? 10)%N then (48 + n mod 10)%N :: acc
    else digits_go f (n / 10)%N ((48 + n mod 10)%N :: acc).
Proof. reflexivity. Qed.

Lemma digits_go_spec (fuel : nat) : forall n acc,
  (N.to_nat n < fuel)%nat ->
  exists ds, digits_go fuel n acc = ds ++ acc
             /\ ds <> []
             /\ Forall (fun c => is_digit c = true) ds
             /\ fold_left dec_step ds 0 = Z.of_N n.
Proof.
  induction fuel as [|f IH]; intros n acc Hf; [lia|].
  rewrite digits_go_S. destruct (n <? 10)%N eqn:E.
  - apply N.ltb_lt in E. exists [(48 + n mod 10)%N].
    rewrite N.mod_small by assumption.
    repeat split; try discriminate.
    + constructor; [|constructor]. unfold is_digit.
      apply andb_true_iff; split; apply N.leb_le; lia.
    + cbn [fold_left]. unfold dec_step. lia.
  - apply N.ltb_ge in E.
    destruct (IH (n / 10)%N ((48 + n mod 10)%N :: acc)) as (ds & H1 & H2 & H3 & H4).
    { assert (n / 10 < n)%N by (apply N.div_lt; lia). lia. }
    exists (ds ++ [(48 + n mod 10)%N]). rewrite H1, <- app_assoc.
    repeat split.
    + destruct ds; discriminate.
    + apply Forall_app; split; [assumption|].
      constructor; [|constructor]. unfold is_digit.
      assert (Hm : (n mod 10 < 10)%N) by (apply N.mod_lt; discriminate).
      revert Hm. generalize (n mod 10)%N. intros m Hm.
      apply andb_true_iff; split; apply N.leb_le; lia.
    + rewrite fold_left_app. cbn [fold_left]. rewrite H4. unfold dec_step.
      assert (Hn : (n = 10 * (n / 10) + n mod 10)%N)
        by (apply N.div_mod; discriminate).
      revert Hn. generalize (n mod 10)%N (n / 10)%N. intros m q Hn. lia.
Qed.

Lemma read_radix_decimal (ds : jsstring) : forall seen a,
  Forall (fun c => is_digit c = true) ds ->
  (seen = true \/ ds <> []) ->
  read_radix false seen a ds = Some (fold_left dec_step ds a).
Proof.
  induction ds as [|d ds IH]; intros seen a Hd Hs.
  - destruct Hs as [-> | Hs]; [reflexivity | congruence].
  - inversion Hd as [|? ? Hd1 Hd2]; subst. simpl. rewrite Hd1.
    apply IH; auto.
Qed.

Lemma digit_facts (c : N) :
  is_digit c = true ->
  is_space c = false /\ (c =? 45)%N = false /\ (c =? 43)%N = false
  /\ (c =? 120)%N = false /\ (c =? 88)%N = false.
Proof.
  unfold is_digit, is_space. rewrite andb_true_iff, !N.leb_le. intros [H1 H2].
  repeat split;
    repeat (apply orb_false_iff; split);
    try (apply N.eqb_neq; lia);
    try (apply andb_false_iff; rewrite !N.leb_gt; lia).
Qed.

Lemma parseInt_digits (n : N) : parseInt (digits n) = Int (Z.of_N n).
Proof.
  unfold digits.
  destruct (digits_go_spec (S (N.to_nat n)) n []) as (ds & H1 & H2 & H3 & H4);
    [lia|].
  rewrite H1, app_nil_r.
  assert (R : read_radix false false 0 ds = Some (Z.of_N n)).
  { rewrite <- H4. apply read_radix_decimal; auto. }
  destruct ds as [|d ds]; [congruence|].
  inversion H3 as [|? ? Hd Hds]; subst.
  destruct (digit_facts d Hd) as (S1 & S2 & S3 & _).
  unfold parseInt. simpl trimStart. rewrite S1, S2, S3.
  destruct ds as [|e ds].
  - rewrite R. reflexivity.
  - inversion Hds as [|? ? He _]; subst.
    destruct (digit_facts e He) as (_ & _ & _ & S4 & S5).
    rewrite S4, S5, andb_false_r. rewrite R. reflexivity.
Qed.

Lemma flat_max_default q :
  FlatServer.q_max q = None \/ FlatServer.q_max q = Some [] ->
  FlatServer.max_per_category q = Int 3.
Proof.
  intros [H | H]; unfold FlatServer.max_per_category; rewrite H; reflexivity.
Qed.

Lemma digits_nonempty n : exists c s, digits n = c :: s.
Proof.
  unfold digits.
  destruct (digits_go_spec (S (N.to_nat n)) n []) as (ds & H1 & H2 & _);
    [lia|].
  rewrite H1, app_nil_r. destruct ds as [|c s]; [congruence|]. eauto.
Qed.

Lemma flat_max_capped q (n : N) :
  FlatServer.q_max q = Some (digits n) ->
  FlatServer.max_per_category q = Int (Z.min (Z.of_N n) 5).
Proof.
  intros H. unfold FlatServer.max_per_category. rewrite H.
  destruct (digits_nonempty n) as (c & s & E).
  unfold FlatServer.param_or. rewrite E, <- E, parseInt_digits. reflexivity.
Qed.

(** ** Sanitization before the prompt *)

Lemma mapM_sanitizeText_modelled (l : list JsVal) :
  mapM sanitizeText l <> Unmodelled.
Proof. apply mapM_modelled. intros x _. apply sanitizeText_modelled. Qed.

Lemma sanitize_field_spec props k :
  match NestedServer.sanitize_field (JObj props) k with
  | Normal p =>
      exists props',
        p = JObj props'
        /\ (forall k0, str_eqb k0 (js k) = false ->
                       lookup k0 props' = lookup k0 props)
        /\ match lookup (js k) props with
           | JArr l => exists l', lookup (js k) props' = JArr l'
                                  /\ sanitized l l'
           | v => lookup (js k) props' = v
           end
  | Throw e =>
      exists l, lookup (js k) props = JArr l /\ mapM sanitizeText l = Throw e
  | Unmodelled => False
  end.
Proof.
  unfold NestedServer.sanitize_field.
  destruct (lookup (js k) props) as [| |b|n|r|s|l|ps] eqn:E;
    try (exists props; split; [reflexivity|]; split; [reflexivity | exact E]).
  pose proof (mapM_sanitizeText_modelled l) as Hm.
  destruct (mapM sanitizeText l) as [l'| |] eqn:El; cbn [bind];
    [|now exists l|congruence].
  eexists. split; [reflexivity|]. split.
  - intros k0 H. now rewrite lookup_assign, H.
  - exists l'. split.
    + now rewrite lookup_assign, str_eqb_refl.
    + now apply mapM_Forall2.
Qed.

Lemma sanitize_fields_spec (ks : list string) :
  distinct (map js ks) = true ->
  forall props,
  exists props',
    fst (NestedServer.sanitize_fields ks (JObj props)) = JObj props'
    /\ (forall k0, existsb (str_eqb k0) (map js ks) = false ->
                   lookup k0 props' = lookup k0 props)
    /\ (forall k0, isArray (lookup k0 props) = false ->
                   lookup k0 props' = lookup k0 props)
    /\ snd (NestedServer.sanitize_fields ks (JObj props)) <> Unmodelled
    /\ (snd (NestedServer.sanitize_fields ks (JObj props)) = Normal tt ->
        forall k l, In k ks -> lookup (js k) props = JArr l ->
                    exists l', lookup (js k) props' = JArr l'
                               /\ sanitized l l')
    /\ ((forall k l, In k ks -> lookup (js k) props = JArr l ->
                     exists l', mapM sanitizeText l = Normal l') ->
        snd (NestedServer.sanitize_fields ks (JObj props)) = Normal tt).
Proof.
  induction ks as [|k ks IH]; intros Hd props.
  - exists props. cbn. repeat split; try discriminate; intros; contradiction.
  - cbn [map distinct] in Hd. apply andb_true_iff in Hd.
    destruct Hd as [Hk Hd]. apply negb_true_iff in Hk.
    cbn [NestedServer.sanitize_fields].
    pose proof (sanitize_field_spec props k) as Hf.
    destruct (NestedServer.sanitize_field (JObj props) k) as [p| |] eqn:Ef;
      [|clear IH|contradiction].
    + destruct Hf as (props1 & -> & Hother & Hthis).
      destruct (IH Hd props1) as (props' & E & K & A & M & S & T).
      exists props'. split; [exact E|].
      assert (Hlater : forall k', In k' ks ->
                 lookup (js k') props1 = lookup (js k') props).
      { intros k' Hin. apply Hother.
        destruct (str_eqb (js k') (js k)) eqn:Ek; [|reflexivity].
        apply str_eqb_eq in Ek. rewrite <- Hk. symmetry.
        apply existsb_exists. exists (js k'). split.
        - now apply in_map.
        - rewrite Ek. apply str_eqb_refl. }
      split; [|split; [|split; [exact M|split]]].
      * intros k0 H. cbn [map existsb] in H. apply orb_false_iff in H.
        destruct H as [H0 H]. rewrite (K k0 H). now apply Hother.
      * intros k0 H. destruct (str_eqb k0 (js k)) eqn:E0.
        -- apply str_eqb_eq in E0. subst k0.
           destruct (lookup (js k) props) eqn:El; try discriminate H;
             rewrite (K (js k) Hk); exact Hthis.
        -- rewrite A; [now apply Hother|]. now rewrite (Hother k0 E0).
      * intros Hn k' l [<- | Hin] Hl.
        -- rewrite Hl in Hthis. destruct Hthis as (l' & L & Sl).
           exists l'. split; [|exact Sl]. now rewrite (K (js k) Hk).
        -- apply (S Hn k' l Hin). now rewrite (Hlater k' Hin).
      * intros Hall. apply T. intros k' l Hin Hl.
        apply (Hall k' l (or_intror Hin)). now rewrite <- (Hlater k' Hin).
    + destruct Hf as (l & Hl & Hthrow). exists props. cbn [fst snd].
      repeat split; try discriminate.
      intros Hall. destruct (Hall k l (or_introl eq_refl) Hl) as [l' H].
      congruence.
Qed.

Lemma sanitize_arrays_spec props :
  exists props',
    fst (NestedServer.sanitize_arrays (JObj props)) = JObj props'
    /\ (forall k0,
           existsb (str_eqb k0) (map js NestedServer.array_fields) = false ->
           lookup k0 props' = lookup k0 props)
    /\ (forall k0, isArray (lookup k0 props) = false ->
                   lookup k0 props' = lookup k0 props)
    /\ snd (NestedServer.sanitize_arrays (JObj props)) <> Unmodelled
    /\ (snd (NestedServer.sanitize_arrays (JObj props)) = Normal tt ->
        forall k l, In k NestedServer.array_fields ->
                    lookup (js k) props = JArr l ->
                    exists l', lookup (js k) props' = JArr l'
                               /\ sanitized l l')
    /\ ((forall k l, In k NestedServer.array_fields ->
                     lookup (js k) props = JArr l ->
                     exists l', mapM sanitizeText l = Normal l') ->
        snd (NestedServer.sanitize_arrays (JObj props)) = Normal tt).
Proof. apply sanitize_fields_spec. reflexivity. Qed.

Lemma sanitize_fields_scalar (ks : list string) (v : JsVal) :
  (forall ps, v <> JObj ps) ->
  NestedServer.sanitize_fields ks v = (v, Normal tt).
Proof.
  intros H. induction ks as [|k ks IH]; [reflexivity|].
  cbn [NestedServer.sanitize_fields].
  replace (NestedServer.sanitize_field v k) with (Normal v : Completion JsVal);
    [exact IH|].
  destruct v; try reflexivity. now destruct (H props).
Qed.

(** Sanitization leaves a profile what it was: an object stays an object,
    any other value stays itself. *)
Lemma sanitize_arrays_kind (v : JsVal) :
  (exists ps ps', v = JObj ps
                  /\ fst (NestedServer.sanitize_arrays v) = JObj ps')
  \/ ((forall ps, v <> JObj ps)
      /\ NestedServer.sanitize_arrays v = (v, Normal tt)).
Proof.
  destruct v as [| | | | | | |ps];
    try (right; split; [discriminate|];
         apply sanitize_fields_scalar; discriminate).
  left. destruct (sanitize_arrays_spec ps) as (ps' & E & _).
  now exists ps, ps'.
Qed.

Lemma sanitize_arrays_nullish v :
  nullish (fst (NestedServer.sanitize_arrays v)) = nullish v.
Proof.
  destruct (sanitize_arrays_kind v) as [(ps & ps' & -> & ->) | [_ ->]];
    reflexivity.
Qed.

Lemma sanitize_arrays_modelled v :
  snd (NestedServer.sanitize_arrays v) <> Unmodelled.
Proof.
  destruct (sanitize_arrays_kind v) as [(ps & ps' & -> & _) | [_ ->]];
    [|discriminate].
  now destruct (sanitize_arrays_spec ps) as (? & _ & _ & _ & M & _).
Qed.

Lemma sanitize_exclude_spec (exclude : JsVal) :
  match NestedServer.sanitize_exclude exclude with
  | Normal x =>
      match exclude with
      | JArr l => exists l', x = JArr l' /\ sanitized l l'
      | _ => x = JArr []
      end
  | Throw e => exists l, exclude = JArr l /\ mapM sanitizeText l = Throw e
  | Unmodelled => False
  end.
Proof.
  destruct exclude as [| | | | | |l|]; try reflexivity.
  cbn [NestedServer.sanitize_exclude].
  pose proof (mapM_sanitizeText_modelled l) as Hm.
  destruct (mapM sanitizeText l) as [l'| |] eqn:E; cbn [bind];
    [|now exists l|congruence].
  exists l'. split; [reflexivity|]. now apply mapM_Forall2.
Qed.

(** ** The statements of the nested handler before the prompt *)

Lemma nested_inputs_profile body :
  fst (NestedServer.recommend_inputs body)
  = fst (NestedServer.sanitize_arrays (field body "profile")).
Proof.
  unfold NestedServer.recommend_inputs.
  now destruct (NestedServer.sanitize_arrays (field body "profile")).
Qed.

Lemma nested_inputs_unfold body :
  snd (NestedServer.recommend_inputs body)
  = (_ <- snd (NestedServer.sanitize_arrays (field body "profile")) ;;
     exclude <- get body "exclude_titles" ;;
     exclude_titles <- NestedServer.sanitize_exclude exclude ;;
     max <- get body "max_results_per_category" ;;
     n <- ToNumber max ;;
     seed <- get body "seed" ;;
     Normal {| in_profile :=
                 fst (NestedServer.sanitize_arrays (field body "profile"));
               in_exclude := exclude_titles;
               in_max := if truthy (JNum n) then n else Int 5;
               in_seed := js_or seed JNull |}).
Proof.
  unfold NestedServer.recommend_inputs.
  now destruct (NestedServer.sanitize_arrays (field body "profile")).
Qed.

(** What the handler has computed when its preparation completes. *)
Lemma nested_inputs_normal body i :
  snd (NestedServer.recommend_inputs body) = Normal i ->
  snd (NestedServer.sanitize_arrays (field body "profile")) = Normal tt
  /\ in_profile i = fst (NestedServer.sanitize_arrays (field body "profile"))
  /\ NestedServer.sanitize_exclude (field body "exclude_titles")
     = Normal (in_exclude i)
  /\ (exists n, ToNumber (field body "max_results_per_category") = Normal n
                /\ in_max i = if truthy (JNum n) then n else Int 5)
  /\ in_seed i = js_or (field body "seed") JNull.
Proof.
  rewrite nested_inputs_unfold. intros H.
  apply bind_normal in H. destruct H as ([] & Hs & H).
  apply bind_normal in H. destruct H as (exclude & Hx & H).
  apply bind_normal in H. destruct H as (x & Hx' & H).
  apply bind_normal in H. destruct H as (max & Hm & H).
  apply bind_normal in H. destruct H as (n & Hn & H).
  apply bind_normal in H. destruct H as (seed & Hseed & H).
  injection H as <-. cbn [in_profile in_exclude in_max in_seed].
  unfold field. rewrite Hx, Hm, Hseed.
  split; [exact Hs|]. split; [reflexivity|]. split; [exact Hx'|].
  split; [now exists n | reflexivity].
Qed.

(** The preparation completes as soon as the body is an object, the arrays
    are sanitized without a throw and the cap converts. *)
Lemma nested_inputs_complete bprops x n :
  snd (NestedServer.sanitize_arrays (lookup (js "profile") bprops))
  = Normal tt ->
  NestedServer.sanitize_exclude (lookup (js "exclude_titles") bprops)
  = Normal x ->
  ToNumber (lookup (js "max_results_per_category") bprops) = Normal n ->
  exists i, snd (NestedServer.recommend_inputs (JObj bprops)) = Normal i.
Proof.
  intros Hs Hx Hn. rewrite nested_inputs_unfold. unfold field.
  cbn [get bind]. rewrite Hs, Hx. cbn [bind]. rewrite Hn. cbn [bind].
  eexists. reflexivity.
Qed.

Lemma nested_inputs_modelled body :
  ToNumber (field body "max_results_per_category") <> Unmodelled ->
  snd (NestedServer.recommend_inputs body) <> Unmodelled.
Proof.
  intros Hn. rewrite nested_inputs_unfold.
  apply bind_modelled; [apply sanitize_arrays_modelled|]. intros _.
  assert (Hx : forall e, NestedServer.sanitize_exclude e <> Unmodelled).
  { intros e. pose proof (sanitize_exclude_spec e) as H.
    destruct (NestedServer.sanitize_exclude e); try discriminate.
    contradiction. }
  unfold field in Hn.
  destruct body; cbn [get bind] in *; try discriminate;
    (apply bind_modelled; [apply Hx|]; intros ?;
     apply bind_modelled; [exact Hn | discriminate]).
Qed.

(** ** The mock gateways *)

Lemma well_formed_inv profile :
  well_formed profile = true ->
  exists props, profile = JObj props
    /\ optional is_integer (lookup (js "age") props) = true
    /\ optional is_integer (lookup (js "minutes_per_week") props) = true
    /\ optional strings (lookup (js "interests") props) = true
    /\ optional is_string (lookup (js "name") props) = true.
Proof.
  destruct profile as [| | | | | | |props]; try discriminate.
  unfold well_formed, field, get. rewrite !andb_true_iff.
  intros [[[H1 H2] H3] H4]. exists props. auto.
Qed.

Lemma interests_text_normal props n sep :
  optional strings (lookup (js "interests") props) = true ->
  exists t, NestedServer.interests_text (JObj props) n sep = Normal t.
Proof.
  intros H. unfold NestedServer.interests_text. cbn [get bind].
  destruct (lookup (js "interests") props) as [| | | | | |l|];
    try discriminate H.
  - unfold js_or. cbn [truthy]. rewrite firstn_nil.
    apply (join_strings sep []). reflexivity.
  - unfold js_or. cbn [truthy]. apply join_strings.
    now apply forallb_firstn.
Qed.

(** The numbers of an entry, for the age and the minutes of the data
    model. *)
Lemma age_bounds_normal (age : JsVal) :
  optional is_integer age = true ->
  exists younger high,
    (age_n <- ToNumber age ;; num_sub age_n (Int 2)) = Normal younger
    /\ (older <- plus_lit age 3 ;; ToString older) = Normal high.
Proof.
  destruct age as [| | |[|z]| | | |]; try discriminate.
  - intros _. eexists. eexists. split; reflexivity.
  - cbn [optional is_integer]. intros Hz.
    cbn [ToNumber plus_lit bind num_sub num_add]. rewrite Hz.
    cbn [andb bind ToString]. eexists. eexists. split; reflexivity.
Qed.

Lemma fifth_normal (minutes_per_week : JsVal) :
  optional is_integer minutes_per_week = true ->
  exists fifth,
    (minutes <- ToNumber (js_or minutes_per_week (JNum (Int 60))) ;;
     round_div5 minutes) = Normal fifth.
Proof.
  destruct minutes_per_week as [| | |[|z]| | | |]; try discriminate.
  - intros _. eexists. reflexivity.
  - cbn [optional is_integer]. intros Hz. unfold js_or. cbn [truthy].
    destruct (z =? 0); cbn [negb ToNumber bind round_div5];
      [|rewrite Hz]; eexists; reflexivity.
Qed.

(** What [make] has computed when it returns. *)
Lemma make_made props title tags fiction e :
  NestedServer.make (JObj props) title tags fiction = Normal e ->
  field e "title" = JStr title /\ field e "tags" = tags /\ made props e.
Proof.
  unfold NestedServer.make. intros H.
  apply bind_normal in H. destruct H as (about & _ & H).
  cbn [get bind] in H.
  apply bind_normal in H. destruct H as (age_n & Ha & H).
  apply bind_normal in H. destruct H as (younger & Hy & H).
  apply bind_normal in H. destruct H as (older & Ho & H).
  apply bind_normal in H. destruct H as (high & Hh & H).
  apply bind_normal in H. destruct H as (matches & _ & H).
  apply bind_normal in H. destruct H as (minutes & Hm & H).
  apply bind_normal in H. destruct H as (fifth & Hf & H).
  apply Normal_inj in H. subst e.
  split; [reflexivity|]. split; [reflexivity|].
  unfold made.
  match goal with
  | |- context [JStr (firstn 250%nat ?l)] =>
      exists younger, high, fifth, (firstn 250%nat l)
  end.
  rewrite Ha, Ho, Hm. cbn [bind].
  repeat split; try assumption; try reflexivity.
  apply firstn_le_length.
Qed.

(** [make] returns as soon as the interests are strings and the three
    computations on the age and the minutes do. *)
Lemma make_returns props title tags fiction younger high fifth :
  optional strings (lookup (js "interests") props) = true ->
  (age_n <- ToNumber (lookup (js "age") props) ;;
   num_sub age_n (Int 2)) = Normal younger ->
  (older <- plus_lit (lookup (js "age") props) 3 ;; ToString older)
  = Normal high ->
  (minutes <- ToNumber (js_or (lookup (js "minutes_per_week") props)
                          (JNum (Int 60))) ;;
   round_div5 minutes) = Normal fifth ->
  exists e, NestedServer.make (JObj props) title tags fiction = Normal e
            /\ made props e.
Proof.
  intros Hi Hy Hh Hf.
  assert (Hn : exists e,
             NestedServer.make (JObj props) title tags fiction = Normal e).
  { unfold NestedServer.make.
    destruct (interests_text_normal props 2 (js " and ") Hi) as [about ->].
    destruct (interests_text_normal props 3 (js ", ") Hi) as [matches ->].
    cbn [bind get].
    destruct (ToNumber (lookup (js "age") props)) as [age_n| |];
      cbn [bind] in Hy |- *; try discriminate Hy.
    rewrite Hy. cbn [bind].
    destruct (plus_lit (lookup (js "age") props) 3) as [older| |];
      cbn [bind] in Hh |- *; try discriminate Hh.
    rewrite Hh. cbn [bind].
    destruct (ToNumber (js_or (lookup (js "minutes_per_week") props)
                          (JNum (Int 60)))) as [minutes| |];
      cbn [bind] in Hf |- *; try discriminate Hf.
    rewrite Hf. cbn [bind]. eexists. reflexivity. }
  destruct Hn as [e He]. exists e. split; [exact He|].
  now apply make_made in He.
Qed.

Lemma make_normal props title tags fiction :
  well_formed (JObj props) = true ->
  exists e, NestedServer.make (JObj props) title tags fiction = Normal e
            /\ made props e.
Proof.
  intros H. apply well_formed_inv in H.
  destruct H as (props' & E & Ha & Hm & Hi & _). injection E as <-.
  destruct (age_bounds_normal _ Ha) as (younger & high & Hy & Hh).
  destruct (fifth_normal _ Hm) as (fifth & Hf).
  exact (make_returns props title tags fiction younger high fifth Hi Hy Hh Hf).
Qed.

(** The computed fields of an entry are those of the three computations. *)
Lemma made_unique props e younger high fifth :
  made props e ->
  (age_n <- ToNumber (lookup (js "age") props) ;;
   num_sub age_n (Int 2)) = Normal younger ->
  (older <- plus_lit (lookup (js "age") props) 3 ;; ToString older)
  = Normal high ->
  (minutes <- ToNumber (js_or (lookup (js "minutes_per_week") props)
                          (JNum (Int 60))) ;;
   round_div5 minutes) = Normal fifth ->
  field e "reading_time_minutes" = JNum (Math_max (Int 10) fifth)
  /\ field e "age_range"
     = JStr (num_to_string (Math_max (Int 4) younger) ++ js "-" ++ high)
  /\ exists d, field e "short_description" = JStr d
               /\ (List.length d <= 250)%nat.
Proof.
  intros (y & h & f & d & Hy' & Hh' & Hf' & R & A & D & L) Hy Hh Hf.
  rewrite Hy in Hy'. rewrite Hh in Hh'. rewrite Hf in Hf'.
  apply Normal_inj in Hy', Hh', Hf'. subst y h f.
  split; [exact R|]. split; [exact A|]. now exists d.
Qed.

Lemma mock_loop_spec (P : JsVal -> Prop) profile :
  (forall title tags fiction,
      exists e, NestedServer.make profile title tags fiction = Normal e /\ P e) ->
  forall n i fiction nonfiction,
    Forall P fiction -> Forall P nonfiction ->
    exists f g,
      NestedServer.mock_loop profile n i fiction nonfiction = Normal (f, g)
      /\ List.length f = (List.length fiction + n)%nat
      /\ List.length g = (List.length nonfiction + n)%nat
      /\ Forall P f /\ Forall P g.
Proof.
  intros Hmake. induction n as [|n IH]; intros i fiction nonfiction Hf Hg.
  - exists fiction, nonfiction. simpl. repeat split; auto.
  - cbn [NestedServer.mock_loop].
    destruct (Hmake (js "Fun Story " ++ num_to_string (Int (i + 1)))
                (JArr [JStr (js "adventure"); JStr (js "friendship")]) true)
      as (e1 & -> & P1).
    destruct (Hmake (js "Real Facts " ++ num_to_string (Int (i + 1)))
                (JArr [JStr (js "science"); JStr (js "learning")]) false)
      as (e2 & -> & P2).
    cbn [bind].
    destruct (IH (i + 1) (fiction ++ [e1]) (nonfiction ++ [e2]))
      as (f & g & E & Lf & Lg & Ff & Fg).
    { apply Forall_app; auto. }
    { apply Forall_app; auto. }
    exists f, g. rewrite E. rewrite Lf, Lg, !length_app. simpl.
    repeat split; auto; lia.
Qed.

(** What the loop has built when it ends without a throw. *)
Lemma mock_loop_made props : forall n i fiction nonfiction f g,
  Forall (made props) fiction -> Forall (made props) nonfiction ->
  NestedServer.mock_loop (JObj props) n i fiction nonfiction = Normal (f, g) ->
  List.length f = (List.length fiction + n)%nat
  /\ List.length g = (List.length nonfiction + n)%nat
  /\ Forall (made props) f /\ Forall (made props) g.
Proof.
  induction n as [|n IH]; intros i fiction nonfiction f g Hf Hg H.
  - cbn in H. injection H as <- <-. rewrite !Nat.add_0_r. auto.
  - cbn [NestedServer.mock_loop] in H.
    apply bind_normal in H. destruct H as (e1 & E1 & H).
    apply bind_normal in H. destruct H as (e2 & E2 & H).
    apply make_made in E1, E2.
    destruct E1 as (_ & _ & M1), E2 as (_ & _ & M2).
    apply IH in H; try (apply Forall_app; auto).
    rewrite !length_app in H. cbn [List.length] in H.
    destruct H as (Lf & Lg & Ff & Fg). repeat split; auto; lia.
Qed.

(** The nested mock returns as soon as [make] does and the cap converts. *)
Lemma nested_mock_returns world props prompt cap younger high fifth :
  optional strings (lookup (js "interests") props) = true ->
  (age_n <- ToNumber (lookup (js "age") props) ;;
   num_sub age_n (Int 2)) = Normal younger ->
  (older <- plus_lit (lookup (js "age") props) 3 ;; ToString older)
  = Normal high ->
  (minutes <- ToNumber (js_or (lookup (js "minutes_per_week") props)
                          (JNum (Int 60))) ;;
   round_div5 minutes) = Normal fifth ->
  ToNumber (js_or (maxPerCategory prompt) (JNum (Int 5))) = Normal cap ->
  exists r f g,
    NestedServer.mockLLMResponse world (JObj props) prompt = Normal r
    /\ entries r "fiction" = Some f
    /\ entries r "nonfiction" = Some g
    /\ Forall (made props) (f ++ g).
Proof.
  intros Hi Hy Hh Hf Hcap. unfold NestedServer.mockLLMResponse. rewrite Hcap.
  cbn [bind].
  destruct (mock_loop_spec (made props) (JObj props)
              (fun t g b => make_returns props t g b younger high fifth
                              Hi Hy Hh Hf)
              (NestedServer.iterations (Math_min (Int 5) cap)) 0 [] [])
    as (f & g & E & _ & _ & Ff & Fg); try constructor.
  rewrite E. cbn [bind fst snd].
  eexists. exists f, g. split; [reflexivity|].
  split; [reflexivity|]. split; [reflexivity|]. apply Forall_app. auto.
Qed.

Lemma nested_mock_spec world props prompt cap :
  well_formed (JObj props) = true ->
  ToNumber (js_or (maxPerCategory prompt) (JNum (Int 5))) = Normal cap ->
  exists r f g,
    NestedServer.mockLLMResponse world (JObj props) prompt = Normal r
    /\ entries r "fiction" = Some f
    /\ entries r "nonfiction" = Some g
    /\ List.length f = NestedServer.iterations (Math_min (Int 5) cap)
    /\ List.length g = NestedServer.iterations (Math_min (Int 5) cap)
    /\ Forall (made props) f /\ Forall (made props) g.
Proof.
  intros Hwf Hcap. unfold NestedServer.mockLLMResponse. rewrite Hcap.
  cbn [bind].
  destruct (mock_loop_spec (made props) (JObj props)
              (fun t g b => make_normal props t g b Hwf)
              (NestedServer.iterations (Math_min (Int 5) cap)) 0 [] [])
    as (f & g & E & Lf & Lg & Ff & Fg); try constructor.
  rewrite E. cbn [bind fst snd].
  eexists. exists f, g. split; [reflexivity|].
  repeat split; auto.
Qed.

(** Whenever the nested mock returns, it returns the entries its loop has
    made. *)
Lemma nested_mock_inv world props prompt r :
  NestedServer.mockLLMResponse world (JObj props) prompt = Normal r ->
  exists cap f g,
    ToNumber (js_or (maxPerCategory prompt) (JNum (Int 5))) = Normal cap
    /\ entries r "fiction" = Some f
    /\ entries r "nonfiction" = Some g
    /\ List.length f = NestedServer.iterations (Math_min (Int 5) cap)
    /\ List.length g = NestedServer.iterations (Math_min (Int 5) cap)
    /\ Forall (made props) (f ++ g)
    /\ NestedServer.validateSchema r = Normal true.
Proof.
  unfold NestedServer.mockLLMResponse. intros H.
  apply bind_normal in H. destruct H as (cap & Hcap & H).
  apply bind_normal in H. destruct H as ([f g] & E & H).
  injection H as <-. exists cap, f, g.
  apply mock_loop_made in E; [|constructor|constructor].
  destruct E as (Lf & Lg & Ff & Fg).
  split; [exact Hcap|]. split; [reflexivity|]. split; [reflexivity|].
  split; [exact Lf|]. split; [exact Lg|].
  split; [apply Forall_app; auto | reflexivity].
Qed.

Lemma cap_of_number N :
  1 <= N ->
  ToNumber (js_or (JNum (Int N)) (JNum (Int 5))) = Normal (Int N)
  /\ Z.of_nat (NestedServer.iterations (Math_min (Int 5) (Int N))) = Z.min 5 N.
Proof.
  intros HN. unfold js_or. simpl.
  destruct (N =? 0) eqn:E; [lia|]. split; [reflexivity | lia].
Qed.

Lemma cap_modelled v :
  optional is_number v = true ->
  exists cap, ToNumber (js_or v (JNum (Int 5))) = Normal cap.
Proof.
  destruct v as [| | |n| | | |]; try discriminate; intros _;
    unfold js_or; [|destruct (truthy (JNum n))]; eexists; reflexivity.
Qed.

(** The entries of the flat mock, whenever it returns. *)
Lemma flat_mock_lengths profile (n : JsNum) r :
  FlatServer.mockLLMResponse profile n = Normal r ->
  truthy (field r "metadata") = false
  /\ exists f g, entries r "fiction" = Some f
                 /\ entries r "nonfiction" = Some g
                 /\ List.length f = List.length g
                 /\ List.length f = match n with
                                    | Int z => if 1 <=? z then 1%nat else 0%nat
                                    | NaN => 0%nat
                                    end.
Proof.
  unfold FlatServer.mockLLMResponse. intros H.
  apply bind_normal in H. destruct H as (name & _ & H).
  apply bind_normal in H. destruct H as (based_on & _ & H).
  apply bind_normal in H. destruct H as (name' & _ & H).
  apply bind_normal in H. destruct H as (perfect_for & _ & H).
  injection H as <-. split; [reflexivity|].
  eexists. eexists. split; [reflexivity|]. split; [reflexivity|].
  split; [destruct n as [|z]; [reflexivity|]; unfold slice0;
          destruct (z <? 0); now rewrite !length_firstn|].
  destruct n as [|z]; [reflexivity|]. unfold slice0.
  destruct (z <? 0) eqn:E; rewrite !length_firstn; simpl List.length.
  - apply Z.ltb_lt in E. destruct (1 <=? z) eqn:E1; lia.
  - apply Z.ltb_ge in E. destruct (1 <=? z) eqn:E1; lia.
Qed.

(** ** Reading the response of the remote API *)

Lemma truthy_get v k :
  truthy v = true ->
  exists x, get v k = Normal x /\ opt v (fun v => get v k) = x.
Proof.
  destruct v as [| |b|n|r|s|l|ps]; try discriminate; intros _;
    eexists; split; reflexivity.
Qed.

Lemma truthy_get0 v :
  truthy v = true -> exists x, get0 v = Normal x /\ opt v get0 = x.
Proof.
  destruct v as [| |b|n|r|s|l|ps]; try discriminate; intros _;
    eexists; split; reflexivity.
Qed.

Lemma falsy_get v k :
  truthy v = false -> opt v (fun v => get v k) = JUndefined.
Proof.
  destruct v as [| |b|n|r|s|l|ps]; try discriminate; reflexivity.
Qed.

Lemma falsy_get0 v : truthy v = false -> opt v get0 = JUndefined.
Proof.
  destruct v as [| |b|n|r|[|c s]|l|ps]; try discriminate; reflexivity.
Qed.

Lemma nullish_get v k :
  get v k = Throw TypeErr
  \/ exists x, get v k = Normal x /\ opt v (fun v => get v k) = x.
Proof.
  destruct v as [| |b|n|r|s|l|ps]; auto; right; eexists; split; reflexivity.
Qed.

Lemma nullish_get0 v :
  get0 v = Throw TypeErr
  \/ exists x, get0 v = Normal x /\ opt v get0 = x.
Proof.
  destruct v as [| |b|n|r|s|l|ps]; auto; right; eexists; split; reflexivity.
Qed.

(** The strict property chain of the nested server throws a TypeError or
    ends where the optional chain does. *)
Lemma candidate_text_cases data :
  NestedServer.candidate_text data = Throw TypeErr
  \/ NestedServer.candidate_text data = Normal (first_text data).
Proof.
  unfold NestedServer.candidate_text, first_text.
  destruct (nullish_get data "candidates") as [-> | (c & -> & ->)]; [now left|].
  cbn [bind].
  destruct (nullish_get0 c) as [-> | (f & -> & ->)]; [now left|]. cbn [bind].
  destruct (nullish_get f "content") as [-> | (ct & -> & ->)]; [now left|].
  cbn [bind].
  destruct (nullish_get ct "parts") as [-> | (ps & -> & ->)]; [now left|].
  cbn [bind].
  destruct (nullish_get0 ps) as [-> | (p & -> & ->)]; [now left|]. cbn [bind].
  destruct (nullish_get p "text") as [-> | (t & -> & ->)]; [now left|].
  now right.
Qed.

Lemma nested_read_candidate_throws parse world data :
  parse [] = None ->
  no_text_content data = true ->
  exists e, NestedServer.read_candidate parse world data = Throw e.
Proof.
  intros Hp Hn. unfold NestedServer.read_candidate.
  destruct (candidate_text_cases data) as [-> | ->]; cbn [bind];
    [eexists; reflexivity|].
  unfold no_text_content in Hn.
  destruct (first_text data) as [| |b|n|r|[|c s]|l|ps]; try discriminate Hn;
    try (eexists; reflexivity).
  rewrite Hp. eexists; reflexivity.
Qed.

Lemma nested_read_response_throws parse world data :
  parse [] = None ->
  no_text_content data = true ->
  exists e, NestedServer.read_response parse world data = Throw e.
Proof.
  intros Hp Hn. unfold NestedServer.read_response.
  destruct (nested_read_candidate_throws parse world data Hp Hn) as [e ->].
  destruct (truthy data) eqn:Hd.
  - destruct (truthy_get data "candidates" Hd) as (c & -> & _). cbn [bind].
    destruct (truthy c) eqn:Hc.
    + destruct (truthy_get0 c Hc) as (f & -> & _). cbn [bind].
      destruct (truthy f); simpl; eexists; reflexivity.
    + simpl. eexists; reflexivity.
  - simpl. eexists; reflexivity.
Qed.

(** The guarded chain of the flat server throws, or hands the truthy value
    at [first_text] to [parse_text]. *)
Lemma flat_read_response_cases parse data :
  (exists e, FlatServer.read_response parse data = Throw e)
  \/ (truthy (first_text data) = true
      /\ FlatServer.read_response parse data
         = FlatServer.parse_text parse (first_text data)).
Proof.
  unfold FlatServer.read_response, first_text.
  destruct (truthy data) eqn:Hd; [|left; simpl; eexists; reflexivity].
  destruct (truthy_get data "candidates" Hd) as (c & -> & ->). cbn [bind].
  destruct (truthy c) eqn:Hc; [|left; simpl; eexists; reflexivity].
  destruct (truthy_get0 c Hc) as (f & -> & ->). cbn [bind].
  destruct (truthy f) eqn:Hf; [|left; simpl; eexists; reflexivity].
  cbn [negb].
  destruct (truthy_get f "content" Hf) as (ct & -> & ->). cbn [bind].
  destruct (truthy ct) eqn:Hct; [|left; simpl; eexists; reflexivity].
  destruct (truthy_get ct "parts" Hct) as (ps & -> & ->). cbn [bind].
  destruct (truthy ps) eqn:Hps; [|left; simpl; eexists; reflexivity].
  destruct (truthy_get0 ps Hps) as (p & -> & ->). cbn [bind].
  destruct (truthy p) eqn:Hp; [|left; simpl; eexists; reflexivity].
  destruct (truthy_get p "text" Hp) as (t & -> & ->). cbn [bind].
  destruct (truthy t) eqn:Ht; [|left; simpl; eexists; reflexivity].
  right. split; reflexivity.
Qed.

Lemma flat_read_response_throws parse data :
  no_text_content data = true ->
  isArray (first_text data) = false ->
  exists e, FlatServer.read_response parse data = Throw e.
Proof.
  intros Hn Ha.
  destruct (flat_read_response_cases parse data) as [H | [Ht ->]]; [exact H|].
  unfold no_text_content in Hn.
  destruct (first_text data) as [| |b|n|r|[|c s]|l|ps];
    try discriminate Hn; try discriminate Ht; try discriminate Ha;
    eexists; reflexivity.
Qed.

(** ** The nested handler past its check *)

Lemma canonical_profile_normal v :
  nullish v = false -> exists p, canonical_profile v = Normal p.
Proof.
  destruct v; try discriminate; intros _; eexists; reflexivity.
Qed.

Lemma canonical_profile_modelled v : canonical_profile v <> Unmodelled.
Proof. destruct v; discriminate. Qed.

Lemma truthy_not_nullish v : truthy v = true -> nullish v = false.
Proof. destruct v; try discriminate; reflexivity. Qed.

Lemma StringToNumber_no_throw s e : StringToNumber s <> Throw e.
Proof.
  unfold StringToNumber.
  repeat match goal with
         | |- context [match ?x with _ => _ end] => destruct x
         | |- context [if ?x then _ else _] => destruct x
         end; discriminate.
Qed.

(** What the handler answers when its preparation has completed: the
    prompt it has built, and the answer read off the gateway. *)
Lemma nested_answer parse env world body i :
  truthy (field body "profile") = true ->
  snd (NestedServer.recommend_inputs body) = Normal i ->
  exists prompt,
    canonical_profile (in_profile i) = Normal (instruction_profile prompt)
    /\ instruction_exclude prompt = js_or (in_exclude i) (JArr [])
    /\ maxPerCategory prompt = JNum (in_max i)
    /\ NestedServer.api_recommend parse env world body
       = match (llmResp <- snd (NestedServer.callGemini parse env world prompt
                                  (in_profile i)) ;;
                ok <- NestedServer.validateSchema llmResp ;;
                if negb ok
                then Normal {| status := 502;
                               payload := Text (js "Model returned invalid schema") |}
                else Normal {| status := 200; payload := Json llmResp |})
         with
         | Normal r =>
             Some {| response := r;
                     calls := fst (NestedServer.callGemini parse env world
                                     prompt (in_profile i));
                     body_after := NestedServer.store_profile body (in_profile i) |}
         | Throw e =>
             Some {| response := {| status := 500; payload := Failure e |};
                     calls := fst (NestedServer.callGemini parse env world
                                     prompt (in_profile i));
                     body_after := NestedServer.store_profile body (in_profile i) |}
         | Unmodelled => None
         end.
Proof.
  intros Hp Hi.
  destruct (nested_inputs_normal body i Hi) as (_ & Pi & _).
  destruct (canonical_profile_normal (in_profile i)) as [p Ep].
  { rewrite Pi, sanitize_arrays_nullish. now apply truthy_not_nullish. }
  unfold NestedServer.api_recommend, NestedServer.recommend_try.
  rewrite Hp, (truthy_object_field _ _ Hp). cbn [negb orb].
  pose proof (nested_inputs_profile body) as Hfst.
  destruct (NestedServer.recommend_inputs body) as [profile inputs].
  cbn [fst snd] in Hi, Hfst. subst inputs. rewrite <- Pi in Hfst. subst profile.
  unfold NestedServer.buildPrompt. rewrite Ep. cbn [bind].
  match goal with
  | |- context [NestedServer.callGemini _ _ _ ?P _] => exists P
  end.
  split; [reflexivity|]. split; [reflexivity|]. split; [reflexivity|].
  destruct (NestedServer.callGemini _ _ _ _ _) as [called r]. cbn [fst snd].
  destruct r as [v| |]; cbn [bind]; reflexivity.
Qed.

(** What the handler answers when its preparation throws. *)
Lemma nested_preparation_throws parse env world body e :
  truthy (field body "profile") = true ->
  snd (NestedServer.recommend_inputs body) = Throw e ->
  NestedServer.api_recommend parse env world body
  = Some {| response := {| status := 500; payload := Failure e |};
            calls := [];
            body_after :=
              NestedServer.store_profile body
                (fst (NestedServer.recommend_inputs body)) |}.
Proof.
  intros Hp He.
  unfold NestedServer.api_recommend, NestedServer.recommend_try.
  rewrite Hp, (truthy_object_field _ _ Hp). cbn [negb orb].
  destruct (NestedServer.recommend_inputs body) as [profile inputs].
  cbn [fst snd] in *. now subst inputs.
Qed.

Lemma nested_preparation_unmodelled parse env world body :
  truthy (field body "profile") = true ->
  snd (NestedServer.recommend_inputs body) = Unmodelled ->
  NestedServer.api_recommend parse env world body = None.
Proof.
  intros Hp He.
  unfold NestedServer.api_recommend, NestedServer.recommend_try.
  rewrite Hp, (truthy_object_field _ _ Hp). cbn [negb orb].
  destruct (NestedServer.recommend_inputs body) as [profile inputs].
  cbn [fst snd] in *. now subst inputs.
Qed.

(** An answered request with a profile has passed the preparation or has
    been answered with the error the preparation threw. *)
Lemma nested_answer_cases parse env world body h :
  truthy (field body "profile") = true ->
  NestedServer.api_recommend parse env world body = Some h ->
  (exists i, snd (NestedServer.recommend_inputs body) = Normal i)
  \/ (exists e, snd (NestedServer.recommend_inputs body) = Throw e
                /\ response h = {| status := 500; payload := Failure e |}
                /\ calls h = []).
Proof.
  intros Hp H.
  destruct (snd (NestedServer.recommend_inputs body)) as [i|e|] eqn:E.
  - left. now exists i.
  - right. exists e. rewrite (nested_preparation_throws _ _ _ _ _ Hp E) in H.
    injection H as <-. auto.
  - rewrite (nested_preparation_unmodelled _ _ _ _ Hp E) in H. discriminate H.
Qed.

Lemma nested_gateway_calls parse env world prompt profile :
  fst (NestedServer.callGemini parse env world prompt profile) = []
  \/ (if USE_MOCK env
      then fst (NestedServer.callGemini parse env world prompt profile)
           = [MockCall]
      else fst (NestedServer.callGemini parse env world prompt profile)
           = [RemoteCall prompt]).
Proof.
  unfold NestedServer.callGemini. destruct (USE_MOCK env); [now right|].
  destruct (GEMINI_API_KEY env) as [k|]; [|now left].
  destruct (trim k); [now left | now right].
Qed.

(** The nested gateway in live mode with a credential. *)
Lemma nested_gateway_live parse env world prompt profile :
  USE_MOCK env = false ->
  configured env = true ->
  NestedServer.callGemini parse env world prompt profile
  = ([RemoteCall prompt],
     match axios_post world with
     | Rejects msg => Throw (Rejected msg)
     | Resolves data => NestedServer.read_response parse world data
     end).
Proof.
  intros Hm Hc. unfold NestedServer.callGemini. rewrite Hm.
  unfold configured in Hc.
  destruct (GEMINI_API_KEY env) as [k|]; [destruct (trim k)|];
    try discriminate Hc; reflexivity.
Qed.

Lemma nested_gateway_unconfigured parse env world prompt profile :
  USE_MOCK env = false ->
  configured env = false ->
  NestedServer.callGemini parse env world prompt profile
  = ([], Throw (Err (js "GEMINI_API_KEY not set - check your .env file"))).
Proof.
  intros Hm Hc. unfold NestedServer.callGemini. rewrite Hm.
  unfold configured in Hc.
  destruct (GEMINI_API_KEY env) as [k|]; [destruct (trim k)|];
    try discriminate Hc; reflexivity.
Qed.

(** ** The nested handler in live mode *)

Lemma nested_gateway_no_text parse env world prompt profile data :
  parse [] = None ->
  USE_MOCK env = false ->
  axios_post world = Resolves data ->
  no_text_content data = true ->
  exists e, snd (NestedServer.callGemini parse env world prompt profile)
            = Throw e.
Proof.
  intros Hp Hm Ha Hn. unfold NestedServer.callGemini. rewrite Hm, Ha.
  destruct (nested_read_response_throws parse world data Hp Hn) as [e ->].
  destruct (GEMINI_API_KEY env) as [k|]; [destruct (trim k)|];
    eexists; reflexivity.
Qed.

Lemma nested_live_no_text parse env world body data :
  parse [] = None ->
  USE_MOCK env = false ->
  axios_post world = Resolves data ->
  no_text_content data = true ->
  in_fragment body = true ->
  exists h, NestedServer.api_recommend parse env world body = Some h
            /\ (status (response h) = 400 \/ status (response h) = 500).
Proof.
  intros Hp Hm Ha Hn Hf.
  destruct (truthy (field body "profile")) eqn:Hprof.
  - unfold in_fragment in Hf.
    destruct (snd (NestedServer.recommend_inputs body)) as [i|e|] eqn:E;
      [| |discriminate Hf].
    + destruct (nested_answer parse env world body i Hprof E)
        as (prompt & _ & _ & _ & ->).
      destruct (nested_gateway_no_text parse env world prompt (in_profile i)
                  data Hp Hm Ha Hn) as [e ->].
      cbn [bind]. eexists. split; [reflexivity|]. now right.
    + rewrite (nested_preparation_throws _ _ _ _ _ Hprof E).
      eexists. split; [reflexivity|]. now right.
  - rewrite (nested_rejects_without_profile _ _ _ _ Hprof).
    eexists. split; [reflexivity|]. now left.
Qed.

(** ** The flat handler in live mode *)

Lemma flat_request_profile_cases (body : JsVal) :
  (exists profile, FlatServer.request_profile body = Normal profile)
  \/ FlatServer.request_profile body = Throw TypeErr.
Proof.
  unfold FlatServer.request_profile.
  destruct body; cbn [get bind]; try (now right); left; eexists; reflexivity.
Qed.

Lemma flat_request_throws parse env world req e :
  FlatServer.request_profile (FlatServer.body req) = Throw e ->
  FlatServer.api_recommend parse env world req
  = Some {| response := {| status := 500; payload := Failure e |};
            calls := []; body_after := FlatServer.body req |}.
Proof.
  intros H. unfold FlatServer.api_recommend, FlatServer.recommend_try.
  now rewrite H.
Qed.

(** A request is turned away, or its profile is an object with a truthy age
    and reading_level. *)
Lemma flat_request_cases parse env world req :
  (exists h, FlatServer.api_recommend parse env world req = Some h
             /\ calls h = []
             /\ body_after h = FlatServer.body req
             /\ (response h = FlatServer.invalid_request
                 \/ response h = {| status := 500;
                                    payload := Failure TypeErr |}))
  \/ (exists profile,
        FlatServer.request_profile (FlatServer.body req) = Normal profile
        /\ truthy (field profile "age") = true
        /\ truthy (field profile "reading_level") = true).
Proof.
  destruct (flat_request_profile_cases (FlatServer.body req)) as [[p Hp] | Hp].
  - destruct (truthy (field p "age")) eqn:Ha;
      [destruct (truthy (field p "reading_level")) eqn:Hl|].
    + right. now exists p.
    + left. rewrite (flat_invalid_request parse env world req p Hp)
        by now right.
      eexists. split; [reflexivity|]. repeat split. now left.
    + left. rewrite (flat_invalid_request parse env world req p Hp)
        by now left.
      eexists. split; [reflexivity|]. repeat split. now left.
  - left. rewrite (flat_request_throws parse env world req TypeErr Hp).
    eexists. split; [reflexivity|]. repeat split. now right.
Qed.

Lemma flat_gateway_cases parse env world profile max excl seed :
  FlatServer.callGemini parse env world profile max excl seed
  = ([], Throw (Err (js "GEMINI_API_KEY is not configured")))
  \/ (exists e, FlatServer.callGemini parse env world profile max excl seed
                = ([], Throw e)
                /\ canonical_profile profile = Throw e)
  \/ (exists prompt,
        flat_configured env = true
        /\ canonical_profile profile = Normal (instruction_profile prompt)
        /\ instruction_max prompt = max
        /\ instruction_exclude prompt = excl
        /\ instruction_seed prompt = Some seed
        /\ FlatServer.callGemini parse env world profile max excl seed
           = ([RemoteCall prompt],
              match axios_post world with
              | Rejects msg => Throw (Rejected msg)
              | Resolves data => FlatServer.read_response parse data
              end)).
Proof.
  unfold FlatServer.callGemini, FlatServer.buildPrompt, flat_configured.
  destruct (GEMINI_API_KEY env) as [[|c k]|]; try (now left).
  pose proof (canonical_profile_modelled profile) as Hm.
  destruct (canonical_profile profile) as [p|e|]; cbn [bind];
    [|right; left; now exists e|congruence].
  right. right.
  match goal with
  | |- context [RemoteCall ?P] => exists P
  end.
  repeat split.
Qed.

Lemma flat_gateway_unconfigured parse env world profile max excl seed :
  flat_configured env = false ->
  FlatServer.callGemini parse env world profile max excl seed
  = ([], Throw (Err (js "GEMINI_API_KEY is not configured"))).
Proof.
  unfold FlatServer.callGemini, flat_configured.
  destruct (GEMINI_API_KEY env) as [[|c k]|]; try discriminate; reflexivity.
Qed.

(** The flat gateway with a credential, on the profile of a valid request. *)
Lemma flat_gateway_live parse env world props max excl seed :
  flat_configured env = true ->
  exists prompt,
    canonical_profile (JObj props) = Normal (instruction_profile prompt)
    /\ instruction_max prompt = max
    /\ instruction_exclude prompt = excl
    /\ instruction_seed prompt = Some seed
    /\ FlatServer.callGemini parse env world (JObj props) max excl seed
       = ([RemoteCall prompt],
          match axios_post world with
          | Rejects msg => Throw (Rejected msg)
          | Resolves data => FlatServer.read_response parse data
          end).
Proof.
  intros Hc. unfold FlatServer.callGemini, FlatServer.buildPrompt.
  unfold flat_configured in Hc.
  destruct (GEMINI_API_KEY env) as [[|c k]|]; try discriminate Hc.
  destruct (canonical_profile_normal (JObj props) eq_refl) as [p ->].
  cbn [bind].
  match goal with
  | |- context [RemoteCall ?P] => exists P
  end.
  repeat split.
Qed.

Lemma flat_gateway_no_text parse env world profile max excl seed data :
  axios_post world = Resolves data ->
  no_text_content data = true ->
  isArray (first_text data) = false ->
  exists e, snd (FlatServer.callGemini parse env world profile max excl seed)
            = Throw e.
Proof.
  intros Ha Hn Harr.
  destruct (flat_gateway_cases parse env world profile max excl seed)
    as [-> | [(e & -> & _) | (prompt & _ & _ & _ & _ & _ & ->)]];
    try (eexists; reflexivity).
  rewrite Ha. cbn [snd].
  apply (flat_read_response_throws parse data Hn Harr).
Qed.

Lemma flat_live_no_text parse env world req data :
  USE_MOCK env = false ->
  axios_post world = Resolves data ->
  no_text_content data = true ->
  isArray (first_text data) = false ->
  exists h, FlatServer.api_recommend parse env world req = Some h
            /\ (status (response h) = 400 \/ status (response h) = 500).
Proof.
  intros Hm Ha Hn Harr.
  destruct (flat_request_cases parse env world req)
    as [(h & E & _ & _ & [R | R]) | (profile & Hp & Hage & Hl)].
  - exists h. split; [exact E|]. rewrite R. now left.
  - exists h. split; [exact E|]. rewrite R. now right.
  - destruct (flat_valid_request parse env world req profile Hp Hage Hl)
      as (props & i & _ & _ & _ & _ & _ & ->).
    rewrite Hm.
    destruct (flat_gateway_no_text parse env world (in_profile i) (in_max i)
                (in_exclude i) (in_seed i) data Ha Hn Harr) as [e He].
    destruct (FlatServer.callGemini parse env world (in_profile i) (in_max i)
                (in_exclude i) (in_seed i)) as [called r].
    cbn [snd] in He. subst r. cbn [bind].
    eexists. split; [reflexivity|]. now right.
Qed.

(** ** What the nested handler answers to the text of the model *)

Lemma first_text_links data t :
  first_text data = JStr t ->
  exists c f,
    truthy data = true /\ get data "candidates" = Normal c
    /\ truthy c = true /\ get0 c = Normal f
    /\ truthy f = true
    /\ NestedServer.candidate_text data = Normal (JStr t).
Proof.
  unfold first_text, NestedServer.candidate_text. intros H.
  destruct (truthy data) eqn:Hd;
    [|rewrite (falsy_get data) in H by assumption; discriminate H].
  destruct (truthy_get data "candidates" Hd) as (c & Gc & Oc).
  rewrite Oc in H. rewrite Gc. cbn [bind].
  destruct (truthy c) eqn:Hc;
    [|rewrite (falsy_get0 c) in H by assumption; discriminate H].
  destruct (truthy_get0 c Hc) as (f & Gf & Of).
  rewrite Of in H. rewrite Gf. cbn [bind].
  destruct (truthy f) eqn:Hf;
    [|rewrite (falsy_get f) in H by assumption; discriminate H].
  destruct (truthy_get f "content" Hf) as (ct & Gct & Oct).
  rewrite Oct in H. rewrite Gct. cbn [bind].
  destruct (truthy ct) eqn:Hct;
    [|rewrite (falsy_get ct) in H by assumption; discriminate H].
  destruct (truthy_get ct "parts" Hct) as (ps & Gps & Ops).
  rewrite Ops in H. rewrite Gps. cbn [bind].
  destruct (truthy ps) eqn:Hps;
    [|rewrite (falsy_get0 ps) in H by assumption; discriminate H].
  destruct (truthy_get0 ps Hps) as (p & Gp & Op).
  rewrite Op in H. rewrite Gp. cbn [bind].
  destruct (truthy p) eqn:Hp;
    [|rewrite (falsy_get p) in H by assumption; discriminate H].
  destruct (truthy_get p "text" Hp) as (x & Gx & Ox).
  rewrite Ox in H. rewrite Gx. subst x.
  exists c, f. auto 10.
Qed.



(** ** Searching and splitting strings *)

Lemma prefix_app (p s : jsstring) : prefix p (p ++ s) = true.
Proof.
  induction p as [|c q IH]; simpl; [reflexivity|].
  now rewrite N.eqb_refl.
Qed.

Lemma includes_app (p s : jsstring) : includes p (p ++ s) = true.
Proof.
  destruct (p ++ s) eqn:E; simpl; rewrite <- E, prefix_app; reflexivity.
Qed.

Lemma includes_cons p c s :
  includes p (c :: s) = prefix p (c :: s) || includes p s.
Proof. reflexivity. Qed.

Lemma split_go_cons p c s cur :
  split_go p O cur (c :: s)
  = if prefix p (c :: s)
    then rev cur :: split_go p (Nat.pred (List.length p)) [] s
    else split_go p O (c :: cur) s.
Proof. reflexivity. Qed.

Lemma split_go_none p : forall s cur,
  includes p s = false -> split_go p O cur s = [rev cur ++ s].
Proof.
  induction s as [|c s IH]; intros cur H.
  - simpl. now rewrite app_nil_r.
  - rewrite includes_cons in H. apply orb_false_iff in H.
    destruct H as [H1 H2]. rewrite split_go_cons, H1, IH by assumption.
    simpl. now rewrite <- app_assoc.
Qed.

Lemma split_go_skip p : forall u s cur,
  split_go p (List.length u) cur (u ++ s) = split_go p O cur s.
Proof.
  induction u as [|c u IH]; intros s cur; [reflexivity|].
  simpl. apply IH.
Qed.

Lemma split_go_app p s cur :
  p <> [] -> split_go p O cur (p ++ s) = rev cur :: split_go p O [] s.
Proof.
  intros Hp. destruct p as [|c q] eqn:E; [congruence|].
  change ((c :: q) ++ s) with (c :: (q ++ s)).
  rewrite <- E, split_go_cons, E.
  change (c :: q ++ s) with ((c :: q) ++ s). rewrite <- E, prefix_app, E.
  simpl List.length. simpl Nat.pred. f_equal.
  rewrite <- E. apply split_go_skip.
Qed.

Lemma split_go_whole p cur :
  p <> [] -> split_go p O cur p = [rev cur; []].
Proof.
  intros Hp. rewrite <- (app_nil_r p) at 2. now rewrite split_go_app.
Qed.

(** A code unit that does not occur in the separator stops every match that
    has begun before it. *)
Section Stop.

Variable p : jsstring.
Variable x : N.
Hypothesis x_fresh : forallb (fun c => negb (c =? x)%N) p = true.

Lemma prefix_app_stop : forall a b,
  prefix p a = false -> prefix p (a ++ x :: b) = false.
Proof.
  revert x_fresh. induction p as [|y q IH]; intros Hx a b; [discriminate|].
  simpl in Hx. apply andb_true_iff in Hx. destruct Hx as [Hy Hq].
  apply negb_true_iff in Hy.
  destruct a as [|z a]; simpl; intros H.
  - now rewrite Hy.
  - destruct (y =? z)%N; [|reflexivity]. simpl in *. now apply IH.
Qed.

Lemma includes_app_stop : forall a b,
  includes p a = false -> includes p (a ++ x :: b) = includes p (x :: b).
Proof.
  induction a as [|c a IH]; intros b H; [reflexivity|].
  rewrite includes_cons in H. apply orb_false_iff in H. destruct H as [H1 H2].
  change ((c :: a) ++ x :: b) with (c :: (a ++ x :: b)).
  rewrite includes_cons.
  change (c :: a ++ x :: b) with ((c :: a) ++ x :: b).
  rewrite prefix_app_stop by assumption. simpl. now apply IH.
Qed.

Lemma split_go_stop : forall a b cur,
  includes p a = false ->
  split_go p O cur (a ++ x :: b) = split_go p O (x :: rev a ++ cur) b.
Proof.
  induction a as [|c a IH]; intros b cur H.
  - simpl app. rewrite split_go_cons.
    change (x :: b) with ([] ++ x :: b).
    rewrite prefix_app_stop; [reflexivity|].
    revert H. clear. destruct p; [discriminate | reflexivity].
  - rewrite includes_cons in H. apply orb_false_iff in H.
    destruct H as [H1 H2].
    change ((c :: a) ++ x :: b) with (c :: (a ++ x :: b)).
    rewrite split_go_cons.
    change (c :: a ++ x :: b) with ((c :: a) ++ x :: b).
    rewrite prefix_app_stop by assumption.
    rewrite IH by assumption. simpl. now rewrite <- app_assoc.
Qed.

End Stop.

Lemma prefix_app_l (p q : jsstring) : forall s,
  prefix (p ++ q) s = true -> prefix p s = true.
Proof.
  induction p as [|c p IH]; intros s H; [reflexivity|].
  destruct s as [|d s]; simpl in *; [discriminate|].
  apply andb_true_iff in H. destruct H as [H1 H2].
  rewrite H1. simpl. now apply IH.
Qed.

Lemma includes_app_l (p q s : jsstring) :
  includes p s = false -> includes (p ++ q) s = false.
Proof.
  induction s as [|c s IH]; intros H.
  - destruct p; [discriminate H | reflexivity].
  - rewrite includes_cons in *. apply orb_false_iff in H.
    destruct H as [H1 H2]. rewrite IH by assumption.
    destruct (prefix (p ++ q) (c :: s)) eqn:E; [|reflexivity].
    apply prefix_app_l in E. congruence.
Qed.

(** ** Trimming *)

Lemma trimStart_spaces s : forallb is_space s = true -> trimStart s = [].
Proof.
  induction s as [|c s IH]; simpl; [reflexivity|].
  intros H. apply andb_true_iff in H. destruct H as [-> H]. auto.
Qed.

Lemma trimStart_app_space s c :
  forallb is_space s = false -> trimStart (s ++ [c]) = trimStart s ++ [c].
Proof.
  induction s as [|d s IH]; simpl; [discriminate|].
  destruct (is_space d); simpl; auto.
Qed.

Lemma trimStart_head s :
  forallb is_space s = false ->
  exists c t, trimStart s = c :: t /\ is_space c = false.
Proof.
  induction s as [|d s IH]; simpl; [discriminate|].
  destruct (is_space d) eqn:E; simpl; eauto.
Qed.

Lemma trim_between_lines j :
  trim (10%N :: j ++ [10%N]) = trim j.
Proof.
  unfold trim, trimEnd. change (trimStart (10%N :: j ++ [10%N]))
    with (trimStart (j ++ [10%N])).
  destruct (forallb is_space j) eqn:E.
  - rewrite (trimStart_spaces j E).
    rewrite (trimStart_spaces (j ++ [10%N])); [reflexivity|].
    rewrite forallb_app, E. reflexivity.
  - rewrite trimStart_app_space by assumption.
    rewrite rev_app_distr. reflexivity.
Qed.

(** ** Fenced text in the flat gateway *)

Lemma no_json_fence j :
  includes (js "```") j = false -> includes (js "```json") j = false.
Proof. apply (includes_app_l (js "```") (js "json")). Qed.

Lemma includes_ten j :
  includes (js "```") j = false -> includes (js "```") (10%N :: j) = false.
Proof. intros H. rewrite includes_cons, H. reflexivity. Qed.

Lemma between_json_fence j :
  includes (js "```") j = false ->
  FlatServer.between_fences (JStr (fence_json j)) (js "```json")
  = Normal (JStr (trim j)).
Proof.
  intros H. unfold FlatServer.between_fences, fence_json.
  unfold split at 1. rewrite split_go_app by discriminate.
  rewrite (split_go_none (js "```json") (10%N :: j ++ 10%N :: js "```")).
  - cbn [nth_error rev app].
    change (10%N :: j ++ 10%N :: js "```")
      with ((10%N :: j) ++ 10%N :: js "```").
    unfold split.
    rewrite (split_go_stop (js "```") 10%N);
      [|reflexivity|exact (includes_ten j H)].
    rewrite split_go_whole by discriminate.
    rewrite app_nil_r. cbn [rev]. rewrite rev_app_distr, rev_involutive.
    cbn [rev app].
    change ((10%N :: j) ++ [10%N]) with (10%N :: j ++ [10%N]).
    now rewrite trim_between_lines.
  - change (10%N :: j ++ 10%N :: js "```")
      with ((10%N :: j) ++ 10%N :: js "```").
    rewrite (includes_app_stop (js "```json") 10%N); try reflexivity.
    apply no_json_fence. exact H.
Qed.

Lemma between_plain_fence j :
  includes (js "```") j = false ->
  FlatServer.between_fences (JStr (fence_plain j)) (js "```")
  = Normal (JStr (trim j)).
Proof.
  intros H. unfold FlatServer.between_fences, fence_plain.
  unfold split at 1. rewrite split_go_app by discriminate.
  change (10%N :: j ++ 10%N :: js "```")
    with ((10%N :: j) ++ 10%N :: js "```").
  rewrite (split_go_stop (js "```") 10%N);
    [|reflexivity|exact (includes_ten j H)].
  rewrite split_go_whole by discriminate.
  rewrite app_nil_r. cbn [rev nth_error].
  rewrite rev_app_distr, rev_involutive. cbn [rev app].
  unfold split. rewrite split_go_none.
  - cbn [rev app]. now rewrite trim_between_lines.
  - change (10%N :: j ++ [10%N]) with ((10%N :: j) ++ 10%N :: []).
    rewrite (includes_app_stop (js "```") 10%N);
      [reflexivity|reflexivity|exact (includes_ten j H)].
Qed.

Lemma plain_fence_not_json j :
  includes (js "```") j = false ->
  includes (js "```json") (fence_plain j) = false.
Proof.
  intros H. unfold fence_plain.
  change (js "```" ++ 10%N :: j ++ 10%N :: js "```")
    with (96%N :: 96%N :: 96%N :: (10%N :: j) ++ 10%N :: js "```").
  rewrite !includes_cons.
  rewrite (includes_app_stop (js "```json") 10%N);
    [reflexivity|reflexivity|].
  apply no_json_fence. exact (includes_ten j H).
Qed.

(** What the flat gateway hands to JSON.parse. *)
Lemma parse_text_unfenced parse j :
  includes (js "```") j = false ->
  FlatServer.parse_text parse (JStr j)
  = match parse j with
    | Some v => Normal v
    | None => Throw (Err (js "Invalid JSON response from Gemini"))
    end.
Proof.
  intros H. unfold FlatServer.parse_text, FlatServer.text_includes.
  rewrite (no_json_fence j H), H. cbn [bind ToString].
  now destruct (parse j).
Qed.

Lemma parse_text_json_fence parse j :
  includes (js "```") j = false ->
  FlatServer.parse_text parse (JStr (fence_json j))
  = match parse (trim j) with
    | Some v => Normal v
    | None => Throw (Err (js "Invalid JSON response from Gemini"))
    end.
Proof.
  intros H. unfold FlatServer.parse_text, FlatServer.text_includes.
  unfold fence_json at 1. rewrite includes_app. cbn [bind].
  rewrite (between_json_fence j H). cbn [bind ToString].
  now destruct (parse (trim j)).
Qed.

Lemma parse_text_plain_fence parse j :
  includes (js "```") j = false ->
  FlatServer.parse_text parse (JStr (fence_plain j))
  = match parse (trim j) with
    | Some v => Normal v
    | None => Throw (Err (js "Invalid JSON response from Gemini"))
    end.
Proof.
  intros H. unfold FlatServer.parse_text, FlatServer.text_includes.
  rewrite (plain_fence_not_json j H). cbn [bind].
  unfold fence_plain at 1. rewrite includes_app. cbn [bind].
  rewrite (between_plain_fence j H). cbn [bind ToString].
  now destruct (parse (trim j)).
Qed.

Lemma flat_read_response_with parse c t :
  FlatServer.read_response parse (response_with (c :: t))
  = FlatServer.parse_text parse (JStr (c :: t)).
Proof. reflexivity. Qed.

(** ** Requests as the data model declares them *)

Lemma strings_sanitize (v : JsVal) l :
  strings_if_array v = true -> v = JArr l ->
  exists l', mapM sanitizeText l = Normal l'.
Proof.
  intros H ->. cbn in H. rewrite (sanitizeText_strings l H). now eexists.
Qed.

Lemma string_arrays_sanitized profile :
  forallb (fun k => strings_if_array (field profile k))
    NestedServer.array_fields = true ->
  snd (NestedServer.sanitize_arrays profile) = Normal tt.
Proof.
  intros H.
  destruct (sanitize_arrays_kind profile) as [(ps & ps' & -> & _) | [_ ->]];
    [|reflexivity].
  destruct (sanitize_arrays_spec ps) as (ps1 & _ & _ & _ & _ & _ & T).
  apply T. intros k l Hk Hl. rewrite forallb_forall in H.
  apply (strings_sanitize (lookup (js k) ps)); [|exact Hl].
  exact (H k Hk).
Qed.

(** The preparation of the nested handler completes on a body whose arrays
    hold strings and whose cap converts to a number. *)
Lemma string_arrays_prepared bprops n :
  string_arrays (JObj bprops) = true ->
  ToNumber (lookup (js "max_results_per_category") bprops) = Normal n ->
  exists i,
    snd (NestedServer.recommend_inputs (JObj bprops)) = Normal i
    /\ in_max i = if truthy (JNum n) then n else Int 5.
Proof.
  unfold string_arrays. intros H Hn. apply andb_true_iff in H.
  destruct H as [Hp Hx].
  assert (Ex : exists x,
             NestedServer.sanitize_exclude (lookup (js "exclude_titles") bprops)
             = Normal x).
  { unfold field in Hx. cbn [get] in Hx.
    destruct (lookup (js "exclude_titles") bprops) as [| | | | | |l|];
      try (eexists; reflexivity).
    cbn [NestedServer.sanitize_exclude].
    destruct (strings_sanitize (JArr l) l Hx eq_refl) as [l' ->].
    eexists. reflexivity. }
  destruct Ex as [x Ex].
  pose proof (string_arrays_sanitized _ Hp) as Hs.
  unfold field in Hs. cbn [get] in Hs.
  destruct (nested_inputs_complete bprops x n Hs Ex Hn) as [i Hi].
  exists i. split; [exact Hi|].
  destruct (nested_inputs_normal _ i Hi) as (_ & _ & _ & (n' & Hn' & M) & _).
  unfold field in Hn'. cbn [get] in Hn'. rewrite Hn in Hn'.
  apply Normal_inj in Hn'. now subst n'.
Qed.

(** What Number(v) makes of the values that are no number. *)
Lemma no_number_cases (v : JsVal) :
  v = JUndefined \/ v = JNull \/ v = JNum (Int 0) \/ v = JNum NaN
  \/ v = JStr [] \/ v = JBool false
  \/ (exists ps, v = JObj ps /\ has_own "toString" ps = false) ->
  no_number v.
Proof.
  unfold no_number.
  intros [-> | [-> | [-> | [-> | [-> | [-> | (ps & -> & H)]]]]]]; cbn;
    try rewrite H; auto.
Qed.

(** ** Properties of the specification *)

(** C5.  For every string s, sanitizeText(sanitizeText(s)) equals
    sanitizeText(s), the result holds no code unit in U+0000..U+001F or
    U+007F..U+009F, and null and undefined are passed through unchanged. *)
Theorem sanitizeText_idempotent_and_clean (s : jsstring) :
  (r <- sanitizeText (JStr s) ;; sanitizeText r) = sanitizeText (JStr s)
  /\ (exists t, sanitizeText (JStr s) = Normal (JStr t)
        /\ Forall (fun c => (31 < c /\ (c < 127 \/ 159 < c))%N) t)
  /\ sanitizeText JNull = Normal JNull
  /\ sanitizeText JUndefined = Normal JUndefined.
Proof.
  repeat split.
  - rewrite sanitizeText_string. cbn [bind].
    rewrite sanitizeText_string. now rewrite filter_twice.
  - exists (filter (fun c => negb (is_control c)) s). split.
    + apply sanitizeText_string.
    + apply Forall_forall. intros c Hc. apply filter_In in Hc.
      destruct Hc as [_ Hc]. apply negb_true_iff in Hc.
      now apply is_control_ranges.
Qed.

(** C10.  In the flat-body server a request whose profile (req.body.profile,
    or req.body itself) lacks a truthy age or a truthy reading_level is
    answered with status 400; no gateway is invoked and req.body is left as
    it came, so nothing has been sanitized. *)
Theorem flat_rejects_missing_required parse env world req profile :
  FlatServer.request_profile (FlatServer.body req) = Normal profile ->
  truthy (field profile "age") = false
    \/ truthy (field profile "reading_level") = false ->
  exists h,
    FlatServer.api_recommend parse env world req = Some h
    /\ status (response h) = 400
    /\ calls h = []
    /\ body_after h = FlatServer.body req.
Proof.
  intros Hp Hmiss. eexists. split.
  - exact (flat_invalid_request parse env world req profile Hp Hmiss).
  - repeat split.
Qed.

(** Age 0 and an empty reading_level are both turned away, in live mode
    too. *)
Lemma flat_rejects_missing_required_witness :
  let zero_age :=
    {| FlatServer.body :=
         obj [("age", JNum (Int 0)); ("reading_level", JStr (js "grade 3"))]%string;
       FlatServer.query := no_query |} in
  let no_level :=
    {| FlatServer.body :=
         obj [("profile",
               obj [("age", JNum (Int 8)); ("reading_level", JStr [])])]%string;
       FlatServer.query := no_query |} in
  (exists h,
      FlatServer.api_recommend parse_json live_env (world_answering JNull)
        zero_age = Some h
      /\ status (response h) = 400 /\ calls h = []
      /\ body_after h = FlatServer.body zero_age)
  /\ (exists h,
      FlatServer.api_recommend parse_json live_env (world_answering JNull)
        no_level = Some h
      /\ status (response h) = 400 /\ calls h = []
      /\ body_after h = FlatServer.body no_level).
Proof.
  split.
  - apply (flat_rejects_missing_required parse_json live_env
             (world_answering JNull) _
             (obj [("age", JNum (Int 0));
                   ("reading_level", JStr (js "grade 3"))]%string));
      [reflexivity | left; reflexivity].
  - apply (flat_rejects_missing_required parse_json live_env
             (world_answering JNull) _
             (obj [("age", JNum (Int 8)); ("reading_level", JStr [])]%string));
      [reflexivity | right; reflexivity].
Defined.

(** C4, as the code has it.  In the nested-body server a body without a
    truthy profile is answered with 400 and no gateway is invoked.  In the
    flat-body server a body without a profile field is itself the profile:
    it is answered with 400, no gateway invoked, when it lacks a truthy age
    or reading_level, and otherwise it reaches the gateway: in mock mode the
    mock is called once and the answer is 200, or 500 when the mock throws,
    which it does not when profile.name has a text. *)
Theorem profile_required parse env world :
  (forall body,
      truthy (field body "profile") = false ->
      exists h, NestedServer.api_recommend parse env world body = Some h
                /\ status (response h) = 400 /\ calls h = [])
  /\ (forall props q,
        lookup (js "profile") props = JUndefined ->
        let req := {| FlatServer.body := JObj props; FlatServer.query := q |} in
        (truthy (lookup (js "age") props) = false
           \/ truthy (lookup (js "reading_level") props) = false ->
         exists h, FlatServer.api_recommend parse env world req = Some h
                   /\ status (response h) = 400 /\ calls h = [])
        /\ (truthy (lookup (js "age") props) = true ->
            truthy (lookup (js "reading_level") props) = true ->
            USE_MOCK env = true ->
            exists h, FlatServer.api_recommend parse env world req = Some h
                      /\ calls h = [MockCall]
                      /\ (status (response h) = 200
                          \/ status (response h) = 500)
                      /\ (forall t,
                             ToString (lookup (js "name") props) = Normal t ->
                             status (response h) = 200))).
Proof.
  split.
  - intros body H. eexists. split.
    + exact (nested_rejects_without_profile parse env world body H).
    + split; reflexivity.
  - intros props q H req. split.
    + intros Hmiss. eexists. split.
      * apply (flat_invalid_request parse env world req (JObj props)).
        -- now apply flat_profile_of_flat_body.
        -- exact Hmiss.
      * split; reflexivity.
    + intros Ha Hl Hm.
      apply (flat_mock_answers parse env world req (JObj props)); auto.
      now apply flat_profile_of_flat_body.
Qed.

Lemma profile_required_witness :
  (exists h, NestedServer.api_recommend parse_json live_env
               (world_answering JNull) flat_profile = Some h
             /\ status (response h) = 400 /\ calls h = [])
  /\ (exists h, FlatServer.api_recommend parse_json live_env
                  (world_answering JNull)
                  {| FlatServer.body := obj [("age", JNum (Int 8))]%string;
                     FlatServer.query := no_query |} = Some h
                /\ status (response h) = 400 /\ calls h = [])
  /\ (exists h, FlatServer.api_recommend parse_json mock_env
                  (world_answering JNull)
                  {| FlatServer.body := flat_profile;
                     FlatServer.query := no_query |} = Some h
                /\ status (response h) = 200 /\ calls h = [MockCall]).
Proof.
  split; [|split].
  - apply (proj1 (profile_required parse_json live_env (world_answering JNull))).
    reflexivity.
  - refine (proj1 (proj2 (profile_required parse_json live_env
                            (world_answering JNull))
                     (map (fun kv => (js (fst kv), snd kv))
                        [("age", JNum (Int 8))]%string) no_query _) _);
      [reflexivity | right; reflexivity].
  - destruct (proj2 (proj2 (profile_required parse_json mock_env
                              (world_answering JNull))
                       (map (fun kv => (js (fst kv), snd kv))
                          [("age", JNum (Int 8));
                           ("reading_level", JStr (js "grade 3"))]%string)
                       no_query eq_refl) eq_refl eq_refl eq_refl)
      as (h & E & C & _ & S).
    exists h. split; [exact E|]. split; [|exact C].
    apply (S (js "undefined")). reflexivity.
Defined.

(** C4 as stated fails in the flat-body server: a body with no profile
    field, but with age and reading_level, is answered with 200 after the
    mock gateway has been invoked. *)
Lemma flat_body_reaches_mock :
  field flat_profile "profile" = JUndefined
  /\ exists h,
      FlatServer.api_recommend parse_json mock_env (world_answering JNull)
        {| FlatServer.body := flat_profile; FlatServer.query := no_query |}
      = Some h
      /\ status (response h) = 200
      /\ calls h = [MockCall].
Proof.
  split; [reflexivity|]. eexists. split; [vm_compute; reflexivity|].
  split; reflexivity.
Qed.

Lemma flat_inputs_normal world req profile :
  exists i,
    FlatServer.recommend_inputs world req profile = Normal i
    /\ FlatServer.sanitize_strings profile = Normal (in_profile i)
    /\ in_max i = FlatServer.max_per_category (FlatServer.query req)
    /\ in_exclude i = FlatServer.exclude_titles (FlatServer.query req).
Proof.
  unfold FlatServer.recommend_inputs.
  destruct (sanitize_strings_normal profile) as (p & -> & _).
  cbn [bind]. eexists. repeat split.
Qed.

(** C7, as the code has it.  In the nested-body server, on a request whose
    arrays hold strings, a positive integer sent as
    max_results_per_category is the value used, and 5 is used when the
    field is absent or no number (Number of it is NaN or 0: null, the empty
    string, text that is no numeral, an object).  In the flat-body server
    the value is min(parseInt(max), 5) of the query string: 3 when the
    query names no max, and min(n, 5) when max is the decimal text of a
    positive integer n. *)
Theorem max_per_category_used :
  (forall bprops,
      string_arrays (JObj bprops) = true ->
      (forall z,
          lookup (js "max_results_per_category") bprops = JNum (Int z) ->
          1 <= z ->
          exists i,
            snd (NestedServer.recommend_inputs (JObj bprops)) = Normal i
            /\ in_max i = Int z)
      /\ (no_number (lookup (js "max_results_per_category") bprops) ->
          exists i,
            snd (NestedServer.recommend_inputs (JObj bprops)) = Normal i
            /\ in_max i = Int 5))
  /\ (forall world req profile,
        exists i,
          FlatServer.recommend_inputs world req profile = Normal i
          /\ (FlatServer.q_max (FlatServer.query req) = None ->
              in_max i = Int 3)
          /\ (forall n : N,
                 (1 <= n)%N ->
                 FlatServer.q_max (FlatServer.query req) = Some (digits n) ->
                 in_max i = Int (Z.min (Z.of_N n) 5))).
Proof.
  split.
  - intros bprops Hs. split.
    + intros z Hz Hpos.
      destruct (string_arrays_prepared bprops (Int z) Hs) as (i & Ei & Mi);
        [now rewrite Hz|].
      exists i. split; [exact Ei|]. rewrite Mi. cbn [truthy].
      destruct (z =? 0) eqn:E; [lia | reflexivity].
    + intros [Hn | Hn];
        destruct (string_arrays_prepared bprops _ Hs Hn) as (i & Ei & Mi);
        exists i; (split; [exact Ei | exact Mi]).
  - intros world req profile.
    destruct (flat_inputs_normal world req profile) as (i & Ei & _ & Mi & _).
    exists i. split; [exact Ei|]. rewrite Mi. split.
    + intros H. apply flat_max_default. now left.
    + intros n _ H. now apply flat_max_capped.
Qed.

Lemma max_per_category_used_witness :
  (exists i, snd (NestedServer.recommend_inputs test_body) = Normal i
             /\ in_max i = Int 2)
  /\ (exists i,
        snd (NestedServer.recommend_inputs
               (obj [("profile", flat_profile);
                     ("max_results_per_category", JStr (js "abc"))]%string))
        = Normal i
        /\ in_max i = Int 5)
  /\ (exists i,
        snd (NestedServer.recommend_inputs
               (obj [("profile", flat_profile);
                     ("max_results_per_category", JObj [])]%string))
        = Normal i
        /\ in_max i = Int 5)
  /\ (exists i,
        snd (NestedServer.recommend_inputs
               (obj [("profile", flat_profile);
                     ("max_results_per_category", JStr [])]%string))
        = Normal i
        /\ in_max i = Int 5)
  /\ (exists i,
        FlatServer.recommend_inputs (world_answering JNull)
          {| FlatServer.body := flat_profile;
             FlatServer.query :=
               {| FlatServer.q_max := Some (digits 4);
                  FlatServer.q_exclude := None;
                  FlatServer.q_seed := None |} |} flat_profile = Normal i
        /\ in_max i = Int 4).
Proof.
  split; [|split; [|split; [|split]]].
  - refine (proj1 (proj1 max_per_category_used
                     (map (fun kv => (js (fst kv), snd kv))
                        [("profile",
                          obj [("age", JNum (Int 8));
                               ("fiction_preference", JStr (js "both"));
                               ("interests", JArr [JStr (js "space")])]);
                         ("exclude_titles", JArr []);
                         ("max_results_per_category", JNum (Int 2))]%string)
                     _) 2 _ _);
      [reflexivity | reflexivity | lia].
  - refine (proj2 (proj1 max_per_category_used
                     (map (fun kv => (js (fst kv), snd kv))
                        [("profile", flat_profile);
                         ("max_results_per_category",
                          JStr (js "abc"))]%string) _) _);
      [reflexivity | left; reflexivity].
  - refine (proj2 (proj1 max_per_category_used
                     (map (fun kv => (js (fst kv), snd kv))
                        [("profile", flat_profile);
                         ("max_results_per_category", JObj [])]%string) _) _);
      [reflexivity | left; reflexivity].
  - refine (proj2 (proj1 max_per_category_used
                     (map (fun kv => (js (fst kv), snd kv))
                        [("profile", flat_profile);
                         ("max_results_per_category", JStr [])]%string) _) _);
      [reflexivity | right; reflexivity].
  - destruct (proj2 max_per_category_used (world_answering JNull)
                {| FlatServer.body := flat_profile;
                   FlatServer.query :=
                     {| FlatServer.q_max := Some (digits 4);
                        FlatServer.q_exclude := None;
                        FlatServer.q_seed := None |} |} flat_profile)
      as (i & Ei & _ & H).
    exists i. split; [exact Ei|]. apply (H 4%N); [lia | reflexivity].
Defined.

(** C7 as stated fails in the flat-body server: it uses 3, not 5, when the
    request names no maximum, and 5, not 7, when the request asks for 7. *)
Lemma flat_max_three_and_capped :
  (exists i,
      FlatServer.recommend_inputs (world_answering JNull)
        {| FlatServer.body := flat_profile; FlatServer.query := no_query |}
        flat_profile = Normal i
      /\ in_max i = Int 3)
  /\ (exists i,
        FlatServer.recommend_inputs (world_answering JNull)
          {| FlatServer.body := flat_profile;
             FlatServer.query :=
               {| FlatServer.q_max := Some (js "7");
                  FlatServer.q_exclude := None;
                  FlatServer.q_seed := None |} |}
          flat_profile = Normal i
        /\ in_max i = Int 5).
Proof. split; eexists; split; reflexivity. Qed.

(** The conversion Number(x) || 5 of the nested-body server lets a negative
    number through. *)
Example nested_max_negative :
  exists i,
    snd (NestedServer.recommend_inputs
           (obj [("profile", flat_profile);
                 ("max_results_per_category", JNum (Int (-3)))]%string))
    = Normal i
    /\ in_max i = Int (-3).
Proof. eexists. split; reflexivity. Qed.

(** C1, as the code has it.  For a profile as the data model declares it
    and N >= 1 the mock of the nested-body server answers exactly min(5, N)
    fiction and min(5, N) nonfiction entries; the mock of the flat-body
    server answers exactly one entry of each. *)
Theorem mock_entry_counts world profile N :
  1 <= N ->
  well_formed profile = true ->
  (forall prompt,
      maxPerCategory prompt = JNum (Int N) ->
      exists r f g,
        NestedServer.mockLLMResponse world profile prompt = Normal r
        /\ entries r "fiction" = Some f
        /\ entries r "nonfiction" = Some g
        /\ Z.of_nat (List.length f) = Z.min 5 N
        /\ Z.of_nat (List.length g) = Z.min 5 N)
  /\ (exists r f g,
        FlatServer.mockLLMResponse profile (Int N) = Normal r
        /\ entries r "fiction" = Some f
        /\ entries r "nonfiction" = Some g
        /\ List.length f = 1%nat
        /\ List.length g = 1%nat).
Proof.
  intros HN Hwf.
  destruct (well_formed_inv profile Hwf) as (props & -> & _ & _ & _ & Hname).
  split.
  - intros prompt Hmax.
    destruct (cap_of_number N HN) as [Hcap Hn].
    rewrite <- Hmax in Hcap.
    destruct (nested_mock_spec world props prompt (Int N) Hwf Hcap)
      as (r & f & g & E & Ef & Eg & Lf & Lg & _).
    exists r, f, g. rewrite Lf, Lg. auto.
  - pose proof (flat_mock_returns props (Int N)) as H.
    assert (Ht : exists t, ToString (lookup (js "name") props) = Normal t).
    { destruct (lookup (js "name") props); try discriminate Hname;
        eexists; reflexivity. }
    destruct Ht as [t Ht]. rewrite Ht in H. destruct H as [r E].
    destruct (flat_mock_lengths _ _ _ E) as (_ & f & g & Ef & Eg & L & Lf).
    exists r, f, g. repeat split; auto; try congruence.
    + rewrite Lf. now destruct (1 <=? N) eqn:E1; [|lia].
    + rewrite <- L, Lf. now destruct (1 <=? N) eqn:E1; [|lia].
Qed.

Lemma mock_entry_counts_witness :
  (exists r f g,
      NestedServer.mockLLMResponse (world_answering JNull) flat_profile
        (test_prompt 7) = Normal r
      /\ entries r "fiction" = Some f
      /\ entries r "nonfiction" = Some g
      /\ Z.of_nat (List.length f) = Z.min 5 7
      /\ Z.of_nat (List.length g) = Z.min 5 7)
  /\ (exists r f g,
        FlatServer.mockLLMResponse flat_profile (Int 7) = Normal r
        /\ entries r "fiction" = Some f
        /\ entries r "nonfiction" = Some g
        /\ List.length f = 1%nat
        /\ List.length g = 1%nat).
Proof.
  assert (H1 : 1 <= 7) by lia.
  assert (H2 : well_formed flat_profile = true) by reflexivity.
  destruct (mock_entry_counts (world_answering JNull) flat_profile 7 H1 H2)
    as [Hn Hf].
  split; [apply Hn; reflexivity | exact Hf].
Defined.

(** C1 as stated fails in the flat-body server: asked for two entries per
    category, its mock answers one.  And not every profile will do: the
    nested mock throws a TypeError on interests that are a string. *)
Lemma flat_mock_one_entry :
  (exists r f,
      FlatServer.mockLLMResponse flat_profile (Int 2) = Normal r
      /\ entries r "fiction" = Some f
      /\ Z.of_nat (List.length f) = 1
      /\ Z.of_nat (List.length f) <> Z.min 5 2)
  /\ NestedServer.mockLLMResponse (world_answering JNull)
       (obj [("interests", JStr (js "space"))]%string) (test_prompt 2)
     = Throw TypeErr.
Proof.
  split; [|reflexivity].
  eexists. eexists. split; [reflexivity|]. split; [reflexivity|].
  split; [reflexivity | discriminate].
Qed.

(** C8 fails on the code by a missed case.  The claim gives a reader with
    minutes_per_week 0 the reading time max(10, round(0/5)) = 10; the mock
    reads (profile.minutes_per_week||60)/5, takes 0 for a missing value and
    answers 12, the fifth part of the default of 60 minutes. *)
Theorem zero_minutes_reads_twelve :
  exists r f e,
    NestedServer.mockLLMResponse (world_answering JNull)
      (obj [("age", JNum (Int 8)); ("minutes_per_week", JNum (Int 0))]%string)
      (test_prompt 1) = Normal r
    /\ entries r "fiction" = Some f
    /\ In e f
    /\ field e "reading_time_minutes" = JNum (Int 12)
    /\ field e "reading_time_minutes"
       <> JNum (Int (Z.max 10 ((2 * 0 + 5) / 10))).
Proof.
  eexists. eexists. eexists. split; [vm_compute; reflexivity|].
  split; [reflexivity|]. split; [left; reflexivity|].
  split; [reflexivity | discriminate].
Qed.

Lemma array_field_listed k :
  In k NestedServer.array_fields ->
  existsb (str_eqb (js k)) (map js NestedServer.array_fields) = true.
Proof.
  intros H. apply existsb_exists. exists (js k). split.
  - now apply in_map.
  - apply str_eqb_refl.
Qed.

(** What the preparation of the nested handler has made of the profile. *)
Lemma nested_sanitized_fields body i :
  truthy (field body "profile") = true ->
  snd (NestedServer.recommend_inputs body) = Normal i ->
  (forall k l, In k NestedServer.array_fields ->
               field (field body "profile") k = JArr l ->
               exists l', field (in_profile i) k = JArr l'
                          /\ sanitized l l')
  /\ (forall k v, isArray v = false ->
                  field (field body "profile") k = v ->
                  field (in_profile i) k = v)
  /\ (forall l, field body "exclude_titles" = JArr l ->
                exists l', in_exclude i = JArr l' /\ sanitized l l').
Proof.
  intros Hp Hi.
  destruct (nested_inputs_normal body i Hi) as (Hs & Pi & Hx & _).
  rewrite Pi. split; [|split].
  - intros k l Hk Hl.
    destruct (sanitize_arrays_kind (field body "profile"))
      as [(ps & ps' & E & E') | [N E]].
    + rewrite E in Hs, Hl. rewrite E'.
      destruct (sanitize_arrays_spec ps) as (ps1 & E1 & _ & _ & _ & S & _).
      rewrite E in E'. rewrite E' in E1. injection E1 as <-.
      apply (S Hs k l Hk). exact Hl.
    + destruct (field body "profile") as [| | | | | | |ps];
        try discriminate Hl.
      now destruct (N ps).
  - intros k v Hv Hl.
    destruct (sanitize_arrays_kind (field body "profile"))
      as [(ps & ps' & E & E') | [_ E]].
    + rewrite E in Hl. rewrite E'.
      destruct (sanitize_arrays_spec ps) as (ps1 & E1 & _ & A & _).
      rewrite E in E'. rewrite E' in E1. injection E1 as <-.
      unfold field in *. cbn [get] in *. rewrite A; [exact Hl|].
      now rewrite Hl.
    + now rewrite E.
  - intros l Hl. rewrite Hl in Hx.
    pose proof (sanitize_exclude_spec (JArr l)) as H. rewrite Hx in H.
    exact H.
Qed.

Lemma flat_sanitized_fields profile p :
  FlatServer.sanitize_strings profile = Normal p ->
  (forall k s, field profile k = JStr s ->
               sanitizeText (JStr s) = Normal (field p k))
  /\ (forall k l, field profile k = JArr l -> field p k = JArr l).
Proof.
  intros H. destruct profile as [| |b|n|r|s|l|props];
    try (split; intros; discriminate).
  rewrite sanitize_strings_object in H. apply Normal_inj in H. subst p.
  unfold field, get. split; intros k x Hx; rewrite lookup_clean, Hx.
  - apply sanitizeText_string.
  - reflexivity.
Qed.

(** C6, as the code has it.  Before the prompt is built the nested-body
    server replaces each of the seven array fields of the profile and
    exclude_titles by the array of what sanitizeText returns on its
    elements, and passes the string fields of the profile on as they are;
    it gets that far on every request whose arrays hold strings and whose
    cap converts.  The flat-body server replaces each string field of the
    profile by its sanitizeText and passes the array fields on as they
    are. *)
Theorem sanitized_inputs :
  (forall body i,
      truthy (field body "profile") = true ->
      snd (NestedServer.recommend_inputs body) = Normal i ->
      (forall k l, In k NestedServer.array_fields ->
                   field (field body "profile") k = JArr l ->
                   exists l', field (in_profile i) k = JArr l'
                              /\ sanitized l l')
      /\ (forall l, field body "exclude_titles" = JArr l ->
                    exists l', in_exclude i = JArr l' /\ sanitized l l')
      /\ (forall k s, field (field body "profile") k = JStr s ->
                      field (in_profile i) k = JStr s))
  /\ (forall bprops n,
        string_arrays (JObj bprops) = true ->
        ToNumber (lookup (js "max_results_per_category") bprops) = Normal n ->
        exists i, snd (NestedServer.recommend_inputs (JObj bprops)) = Normal i)
  /\ (forall world req profile,
        exists i,
          FlatServer.recommend_inputs world req profile = Normal i
          /\ (forall k s, field profile k = JStr s ->
                          sanitizeText (JStr s)
                          = Normal (field (in_profile i) k))
          /\ (forall k l, field profile k = JArr l ->
                          field (in_profile i) k = JArr l)).
Proof.
  split; [|split].
  - intros body i Hp Hi.
    destruct (nested_sanitized_fields body i Hp Hi) as (A & S & X).
    split; [exact A|]. split; [exact X|].
    intros k s Hs. now apply (S k (JStr s)).
  - intros bprops n Hs Hn.
    destruct (string_arrays_prepared bprops n Hs Hn) as (i & Hi & _).
    now exists i.
  - intros world req profile.
    destruct (flat_inputs_normal world req profile) as (i & Ei & Si & _).
    exists i. split; [exact Ei|]. now apply flat_sanitized_fields.
Qed.

Lemma sanitized_inputs_witness :
  let body :=
    obj [("profile",
          obj [("gender", JStr dirty); ("interests", JArr [JStr dirty])]);
         ("exclude_titles", JArr [JStr dirty])]%string in
  exists i,
    snd (NestedServer.recommend_inputs body) = Normal i
    /\ field (in_profile i) "interests" = JArr [JStr (js "Anna")]
    /\ in_exclude i = JArr [JStr (js "Anna")]
    /\ field (in_profile i) "gender" = JStr dirty.
Proof.
  intros body.
  destruct (snd (NestedServer.recommend_inputs body)) as [i| |] eqn:Ei;
    try (vm_compute in Ei; discriminate Ei).
  destruct (proj1 sanitized_inputs body i eq_refl Ei) as (A & X & S).
  exists i. split; [reflexivity|]. split; [|split].
  - destruct (A "interests"%string [JStr dirty]
                (or_intror (or_intror (or_intror (or_introl eq_refl))))
                eq_refl) as (l' & -> & H).
    inversion H as [|? y ? ys Hy Hys]; subst. inversion Hys; subst.
    vm_compute in Hy. now injection Hy as <-.
  - destruct (X [JStr dirty] eq_refl) as (l' & -> & H).
    inversion H as [|? y ? ys Hy Hys]; subst. inversion Hys; subst.
    vm_compute in Hy. now injection Hy as <-.
  - exact (S "gender"%string dirty eq_refl).
Defined.

(** C6 as stated fails: the nested-body server hands a string field of the
    profile to the prompt with its control character, and the flat-body
    server does so with an array field and with the excluded titles of the
    query. *)
Lemma unsanitized_inputs :
  sanitizeText (JStr dirty) = Normal (JStr (js "Anna"))
  /\ (exists i,
        snd (NestedServer.recommend_inputs
               (obj [("profile", obj [("gender", JStr dirty)])]%string))
        = Normal i
        /\ field (in_profile i) "gender" = JStr dirty)
  /\ (exists i,
        FlatServer.recommend_inputs (world_answering JNull)
          {| FlatServer.body := flat_profile;
             FlatServer.query :=
               {| FlatServer.q_max := None;
                  FlatServer.q_exclude := Some dirty;
                  FlatServer.q_seed := None |} |}
          (obj [("interests", JArr [JStr dirty])]%string) = Normal i
        /\ field (in_profile i) "interests" = JArr [JStr dirty]
        /\ in_exclude i = JArr [JStr dirty]).
Proof.
  split; [reflexivity|]. split.
  - eexists. split; reflexivity.
  - eexists. split; [reflexivity|]. split; reflexivity.
Qed.




(** C9 fails on the code by a missed case.  In the flat-body server a
    first candidate whose text is the array [7] carries no text content,
    yet the check !text lets the array through: the live gateway returns
    the number 7, which JSON.parse reads off the array, where the claim has
    it raise an error, and the handler answers 200, where the claim has a
    status other than 200. *)
Theorem array_text_is_relayed :
  let data :=
    obj [("candidates",
          JArr [obj [("content",
                      obj [("parts",
                            JArr [obj [("text",
                                        JArr [JNum (Int 7)])]])])]])]%string in
  no_text_content data = true
  /\ snd (FlatServer.callGemini parse_json live_env (world_answering data)
            flat_profile (Int 3) (JArr []) JNull) = Normal (JNum (Int 7))
  /\ exists h,
      FlatServer.api_recommend parse_json live_env (world_answering data)
        {| FlatServer.body := flat_profile; FlatServer.query := no_query |}
      = Some h
      /\ response h = {| status := 200; payload := Json (JNum (Int 7)) |}.
Proof.
  intros data. split; [reflexivity|]. split; [vm_compute; reflexivity|].
  eexists. split; [vm_compute; reflexivity | reflexivity].
Qed.

Lemma flat_gateway_fenced parse env fenced bare profile max excl seed j wrapped :
  j <> [] ->
  includes (js "```") j = false ->
  parse (trim j) = parse j ->
  axios_post bare = Resolves (response_with j) ->
  axios_post fenced = Resolves (response_with wrapped) ->
  wrapped = fence_json j \/ wrapped = fence_plain j ->
  FlatServer.callGemini parse env fenced profile max excl seed
  = FlatServer.callGemini parse env bare profile max excl seed.
Proof.
  intros Hj Ht Hp Hb Hf Hw. unfold FlatServer.callGemini. rewrite Hb, Hf.
  destruct j as [|c j]; [congruence|].
  rewrite (flat_read_response_with parse c j).
  rewrite (parse_text_unfenced parse (c :: j) Ht), <- Hp.
  destruct Hw as [-> | ->].
  - change (fence_json (c :: j))
      with (96%N :: 96%N :: 96%N :: js "json" ++ 10%N :: (c :: j) ++ 10%N :: js "```").
    rewrite flat_read_response_with.
    change (96%N :: 96%N :: 96%N :: js "json" ++ 10%N :: (c :: j) ++ 10%N :: js "```")
      with (fence_json (c :: j)).
    now rewrite (parse_text_json_fence parse (c :: j) Ht).
  - change (fence_plain (c :: j))
      with (96%N :: 96%N :: 96%N :: 10%N :: (c :: j) ++ 10%N :: js "```").
    rewrite flat_read_response_with.
    change (96%N :: 96%N :: 96%N :: 10%N :: (c :: j) ++ 10%N :: js "```")
      with (fence_plain (c :: j)).
    now rewrite (parse_text_plain_fence parse (c :: j) Ht).
Qed.

(** C3, as the code has it.  In the flat-body server, for every non-empty
    text j that holds no triple backtick and that JSON.parse reads the same
    trimmed or not (every JSON document without a triple backtick is such a
    text), the live gateway yields the same result for a remote response
    whose candidate text is j between a json fence or a bare fence as for
    one whose candidate text is j. *)
Theorem fenced_text_parses_alike
    parse env fenced bare profile max excl seed j :
  j <> [] ->
  includes (js "```") j = false ->
  parse (trim j) = parse j ->
  axios_post bare = Resolves (response_with j) ->
  axios_post fenced = Resolves (response_with (fence_json j))
    \/ axios_post fenced = Resolves (response_with (fence_plain j)) ->
  FlatServer.callGemini parse env fenced profile max excl seed
  = FlatServer.callGemini parse env bare profile max excl seed.
Proof.
  intros Hj Ht Hp Hb [Hf | Hf].
  - apply (flat_gateway_fenced parse env fenced bare profile max excl seed
             j (fence_json j)); auto.
  - apply (flat_gateway_fenced parse env fenced bare profile max excl seed
             j (fence_plain j)); auto.
Qed.

Lemma fenced_text_parses_alike_witness :
  let j := js " {} " in
  FlatServer.callGemini parse_json live_env
    (world_answering (response_with (fence_json j)))
    flat_profile (Int 3) (JArr []) JNull
  = FlatServer.callGemini parse_json live_env
      (world_answering (response_with j))
      flat_profile (Int 3) (JArr []) JNull.
Proof.
  intros j.
  apply (fenced_text_parses_alike parse_json live_env
           (world_answering (response_with (fence_json j)))
           (world_answering (response_with j))
           flat_profile (Int 3) (JArr []) JNull j);
    [discriminate | reflexivity | reflexivity | reflexivity
    | left; reflexivity].
Defined.

(** C3 as stated fails.  The nested-body server hands the text to
    JSON.parse with its fence: the fenced document is an error where the
    bare one is read.  The flat-body server splits a document at the
    backticks inside one of its strings: the bare document is read as 1 and
    the fenced one is an error. *)
Lemma fence_changes_result :
  (parse_json (js "{}") = Some (JObj [])
   /\ (exists v, snd (NestedServer.callGemini parse_json live_env
                        (world_answering (response_with (js "{}")))
                        (test_prompt 2) flat_profile) = Normal v)
   /\ (exists e, snd (NestedServer.callGemini parse_json live_env
                        (world_answering (response_with (fence_json (js "{}"))))
                        (test_prompt 2) flat_profile) = Throw e))
  /\ (parse_json quoted_fence = Some (JStr (js "```1```"))
      /\ snd (FlatServer.callGemini parse_json live_env
                (world_answering (response_with quoted_fence))
                flat_profile (Int 3) (JArr []) JNull)
         = Normal (JNum (Int 1))
      /\ snd (FlatServer.callGemini parse_json live_env
                (world_answering (response_with (fence_json quoted_fence)))
                flat_profile (Int 3) (JArr []) JNull)
         = Throw (Err (js "Invalid JSON response from Gemini"))).
Proof.
  split; split; try reflexivity; split;
    try (eexists; vm_compute; reflexivity); vm_compute; reflexivity.
Qed.

(** ** The end-to-end scenario

    The body of the repository's test, posted to the nested-body server in
    mock mode, is answered with 200 and a body that carries the request
    identifier and two entries per category. *)
Example end_to_end_mock :
  exists h r f g,
    NestedServer.api_recommend parse_json mock_env (world_answering JNull)
      test_body = Some h
    /\ response h = {| status := 200; payload := Json r |}
    /\ calls h = [MockCall]
    /\ field (field r "metadata") "request_id"
       = JStr (uuidv4 (world_answering JNull))
    /\ entries r "fiction" = Some f /\ List.length f = 2%nat
    /\ entries r "nonfiction" = Some g /\ List.length g = 2%nat.
Proof.
  eexists. eexists. eexists. eexists.
  split; [vm_compute; reflexivity|].
  split; [reflexivity|]. split; [reflexivity|]. split; [reflexivity|].
  split; [reflexivity|]. split; [reflexivity|]. split; reflexivity.
Qed.

(** * Further properties of the code *)

(** ** sanitizeText on every value *)

Lemma filter_printable (s : jsstring) :
  Forall printable (filter (fun c => negb (is_control c)) s).
Proof.
  apply Forall_forall. intros c Hc. apply filter_In in Hc.
  destruct Hc as [_ Hc]. apply negb_true_iff in Hc.
  now apply is_control_ranges.
Qed.

Lemma filter_keeps_printable (s : jsstring) :
  Forall printable s -> filter (fun c => negb (is_control c)) s = s.
Proof.
  induction 1 as [|c s Hc _ IH]; simpl; [reflexivity|].
  apply is_control_ranges in Hc. now rewrite Hc, IH.
Qed.

(** X1.  What sanitizeText does on every JavaScript value, not only on
    strings.  A falsy value (undefined, null, false, 0, NaN, the empty
    string) comes back as it is.  A truthy value is converted with String:
    when the conversion gives the text t, the result is the string of the
    code units of t outside the two control ranges; when the conversion
    throws, as on an object whose own toString is not a function,
    sanitizeText throws the same.  And sanitizeText changes nothing on a
    value that it has returned. *)
Theorem sanitizeText_every_value (v : JsVal) :
  (truthy v = false -> sanitizeText v = Normal v)
  /\ (forall t,
         truthy v = true -> ToString v = Normal t ->
         sanitizeText v
         = Normal (JStr (filter (fun c => negb (is_control c)) t))
         /\ Forall printable (filter (fun c => negb (is_control c)) t))
  /\ (forall e,
         truthy v = true -> ToString v = Throw e -> sanitizeText v = Throw e)
  /\ (forall r, sanitizeText v = Normal r -> sanitizeText r = Normal r)
  /\ sanitizeText v <> Unmodelled.
Proof.
  split; [|split; [|split; [|split]]].
  - intros E. unfold sanitizeText. now rewrite E.
  - intros t E Ht. unfold sanitizeText. rewrite E, Ht. cbn [negb bind].
    split; [reflexivity | apply filter_printable].
  - intros e E He. unfold sanitizeText. now rewrite E, He.
  - intros r. unfold sanitizeText at 1. destruct (truthy v) eqn:E; cbn [negb].
    + intros H. apply bind_normal in H. destruct H as (t & _ & H).
      apply Normal_inj in H. subst r. rewrite sanitizeText_string.
      now rewrite filter_twice.
    + intros H. apply Normal_inj in H. subst r. unfold sanitizeText.
      now rewrite E.
  - apply sanitizeText_modelled.
Qed.

Lemma sanitizeText_every_value_witness :
  sanitizeText (JNum (Int 0)) = Normal (JNum (Int 0))
  /\ sanitizeText (JArr [JNum (Int 12); JNull; JStr dirty])
     = Normal (JStr (js "12,,Anna"))
  /\ sanitizeText (obj [("toString", JNull)]%string) = Throw TypeErr.
Proof.
  split; [|split].
  - apply (proj1 (sanitizeText_every_value (JNum (Int 0)))).
    reflexivity.
  - apply (proj1 (proj2 (sanitizeText_every_value
                           (JArr [JNum (Int 12); JNull; JStr dirty])))
             (js "12," ++ 44%N :: dirty) eq_refl eq_refl).
  - apply (proj1 (proj2 (proj2 (sanitizeText_every_value
                                  (obj [("toString", JNull)]%string))))
             TypeErr eq_refl eq_refl).
Defined.

(** X2.  sanitizeText only removes: the result of a string is never longer
    than the string, and a string of printable code units comes back
    unchanged. *)
Theorem sanitizeText_only_removes (s : jsstring) :
  (exists t, sanitizeText (JStr s) = Normal (JStr t)
             /\ (List.length t <= List.length s)%nat)
  /\ (Forall printable s -> sanitizeText (JStr s) = Normal (JStr s)).
Proof.
  rewrite sanitizeText_string. split.
  - eexists. split; [reflexivity|]. apply filter_length_le.
  - intros H. now rewrite filter_keeps_printable.
Qed.

Lemma sanitizeText_only_removes_witness :
  sanitizeText (JStr (js "Harry Potter & the Goblet"))
  = Normal (JStr (js "Harry Potter & the Goblet")).
Proof.
  apply (proj2 (sanitizeText_only_removes (js "Harry Potter & the Goblet"))).
  repeat constructor; vm_compute; reflexivity.
Defined.

(** ** The canonical profile of buildPrompt *)

Lemma js_or_twice a b : js_or (js_or a b) b = js_or a b.
Proof.
  unfold js_or. destruct (truthy a) eqn:E; [now rewrite E|].
  now destruct (truthy b).
Qed.

Lemma canonical_profile_object props :
  canonical_profile (JObj props)
  = Normal (JObj [
      (js "age", lookup (js "age") props);
      (js "gender", lookup (js "gender") props);
      (js "favorite_video_games",
        js_or (lookup (js "favorite_video_games") props) (JArr []));
      (js "favorite_board_games",
        js_or (lookup (js "favorite_board_games") props) (JArr []));
      (js "fiction_preference",
        js_or (lookup (js "fiction_preference") props) (JStr (js "both")));
      (js "movie_genres", js_or (lookup (js "movie_genres") props) (JArr []));
      (js "reading_level", lookup (js "reading_level") props);
      (js "interests", js_or (lookup (js "interests") props) (JArr []));
      (js "preferred_format", lookup (js "preferred_format") props);
      (js "minutes_per_week", lookup (js "minutes_per_week") props);
      (js "language", lookup (js "language") props);
      (js "accessibility_needs",
        js_or (lookup (js "accessibility_needs") props) (JArr []));
      (js "max_price", js_or (lookup (js "max_price") props) JNull);
      (js "favorite_authors",
        js_or (lookup (js "favorite_authors") props) (JArr []));
      (js "disliked_themes",
        js_or (lookup (js "disliked_themes") props) (JArr []));
      (js "surprise", JBool (truthy (lookup (js "surprise") props)))]).
Proof. reflexivity. Qed.

Lemma canonical_profile_shape profile p :
  canonical_profile profile = Normal p ->
  exists props, canonical_profile (JObj props) = Normal p.
Proof.
  destruct profile as [| |b|n|r|s|l|props]; try discriminate; intros H;
    try (exists []; exact H).
  exists props. exact H.
Qed.

(** X3.  The profile that buildPrompt writes into the prompt has exactly the
    sixteen properties of its object literal, in that order, whatever else
    the request's profile holds, and it is canonical: building it again from
    itself gives the same object. *)
Theorem canonical_profile_canonical profile p :
  canonical_profile profile = Normal p ->
  canonical_profile p = Normal p
  /\ exists props, p = JObj props /\ map fst props = map js canonical_keys.
Proof.
  intros H. destruct (canonical_profile_shape profile p H) as [props E].
  rewrite canonical_profile_object in E. injection E as <-. split.
  - rewrite canonical_profile_object. cbn [lookup].
    repeat match goal with
           | |- context [str_eqb (js ?a) (js ?b)] =>
               let r := eval vm_compute in (str_eqb (js a) (js b)) in
               change (str_eqb (js a) (js b)) with r
           end.
    cbv iota. rewrite !js_or_twice. reflexivity.
  - eexists. split; reflexivity.
Qed.

Lemma canonical_profile_canonical_witness :
  exists p,
    canonical_profile
      (obj [("age", JNum (Int 8)); ("name", JStr (js "Ann"));
            ("surprise", JNum (Int 1))]%string) = Normal p
    /\ canonical_profile p = Normal p
    /\ field p "name" = JUndefined
    /\ field p "surprise" = JBool true.
Proof.
  eexists. split; [reflexivity|]. split; [|split; reflexivity].
  apply (proj1 (canonical_profile_canonical
                  (obj [("age", JNum (Int 8)); ("name", JStr (js "Ann"));
                        ("surprise", JNum (Int 1))]%string) _ eq_refl)).
Defined.

(** ** Both handlers, whatever the remote API does *)

Lemma flat_gateway_calls parse env world profile max excl seed :
  fst (FlatServer.callGemini parse env world profile max excl seed) = []
  \/ exists p,
      fst (FlatServer.callGemini parse env world profile max excl seed)
      = [RemoteCall p].
Proof.
  unfold FlatServer.callGemini.
  destruct (GEMINI_API_KEY env) as [[|c k]|]; try (now left).
  destruct (FlatServer.buildPrompt _ _ _ _); try (now left).
  right. eexists. reflexivity.
Qed.

Lemma validateSchema_true v :
  NestedServer.validateSchema v = Normal true ->
  truthy (field v "metadata") = true /\ truthy (field v "results") = true.
Proof.
  unfold NestedServer.validateSchema, field.
  destruct (truthy v) eqn:Ev; cbn [negb]; [|discriminate].
  destruct (get v "metadata") as [m| |]; cbn [bind]; try discriminate.
  destruct (truthy m); cbn [negb]; [|discriminate].
  destruct (get v "results") as [r| |]; cbn [bind]; try discriminate.
  destruct (truthy r); cbn [negb]; [auto | discriminate].
Qed.

Lemma validateSchema_answers v :
  exists ok, NestedServer.validateSchema v = Normal ok.
Proof.
  unfold NestedServer.validateSchema.
  destruct v as [| |b|n|r|s|l|ps]; cbn [truthy negb get bind];
    try (eexists; reflexivity).
  - destruct b; eexists; reflexivity.
  - destruct n as [|z]; [|destruct (z =? 0)]; eexists; reflexivity.
  - destruct s; eexists; reflexivity.
  - destruct (truthy (lookup (js "metadata") ps)); cbn [negb];
      [|eexists; reflexivity].
    destruct (truthy (lookup (js "results") ps)); eexists; reflexivity.
Qed.

(** X4.  A 200 of the nested-body server always carries a JSON body with a
    truthy metadata and a truthy results: nothing that validateSchema would
    reject is ever relayed, in mock mode or live. *)
Theorem nested_ok_is_validated parse env world body h :
  NestedServer.api_recommend parse env world body = Some h ->
  status (response h) = 200 ->
  exists r, payload (response h) = Json r
            /\ truthy (field r "metadata") = true
            /\ truthy (field r "results") = true.
Proof.
  intros H Hs.
  destruct (truthy (field body "profile")) eqn:Hp.
  - destruct (nested_answer_cases parse env world body h Hp H)
      as [[i Hi] | (e & _ & R & _)]; [|rewrite R in Hs; discriminate Hs].
    destruct (nested_answer parse env world body i Hp Hi)
      as (prompt & _ & _ & _ & E).
    rewrite E in H. clear E.
    destruct (snd (NestedServer.callGemini parse env world prompt (in_profile i)))
      as [v|e|]; cbn [bind] in H.
    + destruct (NestedServer.validateSchema v) as [[|]|e|] eqn:V;
        cbn [bind negb] in H; try discriminate H; injection H as <-;
        try discriminate Hs.
      exists v. split; [reflexivity|]. now apply validateSchema_true.
    + injection H as <-. discriminate Hs.
    + discriminate H.
  - rewrite (nested_rejects_without_profile _ _ _ _ Hp) in H.
    injection H as <-. discriminate Hs.
Qed.

Lemma nested_ok_is_validated_witness :
  exists h r,
    NestedServer.api_recommend parse_json mock_env (world_answering JNull)
      test_body = Some h
    /\ payload (response h) = Json r
    /\ truthy (field r "metadata") = true
    /\ truthy (field r "results") = true.
Proof.
  destruct (NestedServer.api_recommend parse_json mock_env
              (world_answering JNull) test_body) as [h|] eqn:H;
    [|vm_compute in H; discriminate H].
  assert (Hs : status (response h) = 200).
  { vm_compute in H. injection H as <-. reflexivity. }
  destruct (nested_ok_is_validated _ _ _ _ _ H Hs) as (r & P & M & R).
  exists h, r. auto.
Defined.

(** ** What the gateways never do *)

Lemma between_fences_modelled text fence :
  FlatServer.between_fences text fence <> Unmodelled.
Proof.
  unfold FlatServer.between_fences.
  destruct text; try discriminate.
  destruct (nth_error _ 1); [|discriminate].
  destruct (split _ _); discriminate.
Qed.

Lemma parse_text_modelled parse text :
  FlatServer.parse_text parse text <> Unmodelled.
Proof.
  unfold FlatServer.parse_text.
  apply bind_modelled; [destruct text; discriminate|]. intros fenced.
  apply bind_modelled.
  - destruct fenced; [apply between_fences_modelled|].
    apply bind_modelled; [destruct text; discriminate|]. intros plain.
    destruct plain; [apply between_fences_modelled | discriminate].
  - intros jsonStr. unfold try_catch.
    destruct (ToString_cases jsonStr) as [[t ->] | ->]; cbn [bind];
      [destruct (parse t)|]; discriminate.
Qed.

Lemma flat_read_response_modelled parse data :
  FlatServer.read_response parse data <> Unmodelled.
Proof.
  destruct (flat_read_response_cases parse data) as [[e ->] | [_ ->]];
    [discriminate | apply parse_text_modelled].
Qed.

Lemma flat_gateway_modelled parse env world profile max excl seed :
  snd (FlatServer.callGemini parse env world profile max excl seed)
  <> Unmodelled.
Proof.
  unfold FlatServer.callGemini, FlatServer.buildPrompt.
  destruct (GEMINI_API_KEY env) as [[|c k]|]; try discriminate.
  destruct (canonical_profile profile) eqn:E; cbn [bind snd];
    try discriminate; [|now apply canonical_profile_modelled in E].
  destruct (axios_post world); [apply flat_read_response_modelled|discriminate].
Qed.

Lemma flat_mock_modelled profile n :
  FlatServer.mockLLMResponse profile n <> Unmodelled.
Proof.
  unfold FlatServer.mockLLMResponse.
  apply bind_modelled; [destruct profile; discriminate|]. intros name.
  apply bind_modelled; [apply ToString_modelled|]. intros based_on.
  apply bind_modelled; [destruct profile; discriminate|]. intros name'.
  apply bind_modelled; [apply ToString_modelled|]. intros perfect_for.
  discriminate.
Qed.

Lemma flat_calls_by_mode parse env world req h :
  FlatServer.api_recommend parse env world req = Some h ->
  calls h = []
  \/ (if USE_MOCK env then calls h = [MockCall]
      else exists prompt, calls h = [RemoteCall prompt]).
Proof.
  intros H.
  destruct (flat_request_cases parse env world req)
    as [(h' & E & C & _) | (profile & Hp & Ha & Hl)].
  - rewrite E in H. injection H as <-. now left.
  - destruct (flat_valid_request parse env world req profile Hp Ha Hl)
      as (props & i & _ & _ & _ & _ & _ & E).
    rewrite E in H. clear E.
    pose proof (flat_gateway_calls parse env world (in_profile i)
                  (in_max i) (in_exclude i) (in_seed i)) as Hc.
    destruct (USE_MOCK env).
    + destruct (FlatServer.mockLLMResponse (in_profile i) (in_max i));
        cbn [bind] in H; try discriminate H; injection H as <-; now right.
    + destruct (FlatServer.callGemini parse env world (in_profile i)
                  (in_max i) (in_exclude i) (in_seed i)) as [called r].
      cbn [fst] in Hc.
      destruct r; cbn [bind] in H; try discriminate H; injection H as <-;
        exact Hc.
Qed.

Lemma nested_read_candidate_modelled parse world data :
  NestedServer.read_candidate parse world data <> Unmodelled.
Proof.
  unfold NestedServer.read_candidate.
  destruct (candidate_text_cases data) as [-> | ->]; cbn [bind];
    [discriminate|].
  destruct (first_text data); try discriminate.
  destruct (parse s) as [v|]; [|discriminate].
  destruct v; discriminate.
Qed.

Lemma nested_read_response_modelled parse world data :
  NestedServer.read_response parse world data <> Unmodelled.
Proof.
  unfold NestedServer.read_response.
  pose proof (nested_read_candidate_modelled parse world data) as H.
  destruct (truthy data) eqn:Hd.
  - destruct (truthy_get data "candidates" Hd) as (c & -> & _). cbn [bind].
    destruct (truthy c) eqn:Hc.
    + destruct (truthy_get0 c Hc) as (f & -> & _). cbn [bind].
      destruct (truthy f); cbn [negb]; [|discriminate].
      destruct (NestedServer.read_candidate parse world data);
        try discriminate. congruence.
    + discriminate.
  - discriminate.
Qed.

(** ** Without a credential, and when the remote API cannot be reached *)

(** X5.  In live mode a server without a usable credential answers a valid
    request, once the handler has prepared it, with 500 and the
    configuration error, and the remote API is not contacted.  For the
    nested-body server a key of blanks is no key.  For the flat-body server
    only a missing or empty key is none: with any other key, a key of
    blanks too, it calls the remote API. *)
Theorem no_credential_no_call parse env world :
  USE_MOCK env = false ->
  (forall body i,
      configured env = false ->
      truthy (field body "profile") = true ->
      snd (NestedServer.recommend_inputs body) = Normal i ->
      exists h,
        NestedServer.api_recommend parse env world body = Some h
        /\ response h
           = {| status := 500;
                payload := Failure (Err (js "GEMINI_API_KEY not set - check your .env file")) |}
        /\ calls h = [])
  /\ (forall req profile,
        FlatServer.request_profile (FlatServer.body req) = Normal profile ->
        truthy (field profile "age") = true ->
        truthy (field profile "reading_level") = true ->
        (flat_configured env = false ->
         exists h,
           FlatServer.api_recommend parse env world req = Some h
           /\ response h
              = {| status := 500;
                   payload := Failure (Err (js "GEMINI_API_KEY is not configured")) |}
           /\ calls h = [])
        /\ (flat_configured env = true ->
            exists h prompt,
              FlatServer.api_recommend parse env world req = Some h
              /\ calls h = [RemoteCall prompt])).
Proof.
  intros Hm. split.
  - intros body i Hc Hp Hi.
    destruct (nested_answer parse env world body i Hp Hi)
      as (prompt & _ & _ & _ & ->).
    rewrite (nested_gateway_unconfigured parse env world _ _ Hm Hc).
    cbn [fst snd bind]. eexists. repeat split.
  - intros req profile Hp Ha Hl.
    destruct (flat_valid_request parse env world req profile Hp Ha Hl)
      as (props & i & _ & _ & Pi & _ & _ & ->).
    rewrite Hm. split; intros Hc.
    + rewrite (flat_gateway_unconfigured parse env world _ _ _ _ Hc).
      cbn [bind]. eexists. repeat split.
    + rewrite Pi.
      destruct (flat_gateway_live parse env world
                  (map (fun kv => (fst kv, clean_string (snd kv))) props)
                  (in_max i) (in_exclude i) (in_seed i) Hc)
        as (prompt & _ & _ & _ & _ & ->).
      destruct (axios_post world) as [data|msg].
      * destruct (FlatServer.read_response parse data) as [r|e|] eqn:R;
          cbn [bind].
        -- eexists. exists prompt. split; reflexivity.
        -- eexists. exists prompt. split; reflexivity.
        -- now destruct (flat_read_response_modelled parse data).
      * cbn [bind]. eexists. exists prompt. split; reflexivity.
Qed.

Lemma no_credential_no_call_witness :
  let blank := {| MOCK_MODE := None; GEMINI_API_KEY := Some (js "   ") |} in
  let unset := {| MOCK_MODE := None; GEMINI_API_KEY := None |} in
  let req := {| FlatServer.body := flat_profile;
                FlatServer.query := no_query |} in
  (exists h,
      NestedServer.api_recommend parse_json blank (world_answering JNull)
        test_body = Some h
      /\ response h
         = {| status := 500;
              payload := Failure (Err (js "GEMINI_API_KEY not set - check your .env file")) |}
      /\ calls h = [])
  /\ (exists h,
        FlatServer.api_recommend parse_json unset (world_answering JNull) req
        = Some h
        /\ response h
           = {| status := 500;
                payload := Failure (Err (js "GEMINI_API_KEY is not configured")) |}
        /\ calls h = [])
  /\ (exists h prompt,
        FlatServer.api_recommend parse_json blank (world_answering JNull) req
        = Some h
        /\ calls h = [RemoteCall prompt]).
Proof.
  intros blank unset req.
  destruct (snd (NestedServer.recommend_inputs test_body)) as [i| |] eqn:Ei;
    try (vm_compute in Ei; discriminate Ei).
  split; [|split].
  - apply (proj1 (no_credential_no_call parse_json blank
                    (world_answering JNull) eq_refl) test_body i);
      [reflexivity | reflexivity | exact Ei].
  - apply (proj1 (proj2 (no_credential_no_call parse_json unset
                           (world_answering JNull) eq_refl)
                    req flat_profile eq_refl eq_refl eq_refl)).
    reflexivity.
  - apply (proj2 (proj2 (no_credential_no_call parse_json blank
                           (world_answering JNull) eq_refl)
                    req flat_profile eq_refl eq_refl eq_refl)).
    reflexivity.
Defined.

(** X6.  When the call to the remote API is rejected (transport failure or
    a status outside 2xx), each server in live mode answers the valid
    request that its handler has prepared with 500 and the rejection
    itself; the remote API has been called once, and no second time. *)
Theorem rejected_call_is_500 parse env world msg :
  USE_MOCK env = false ->
  axios_post world = Rejects msg ->
  (forall body i,
      configured env = true ->
      truthy (field body "profile") = true ->
      snd (NestedServer.recommend_inputs body) = Normal i ->
      exists h prompt,
        NestedServer.api_recommend parse env world body = Some h
        /\ response h = {| status := 500; payload := Failure (Rejected msg) |}
        /\ calls h = [RemoteCall prompt])
  /\ (forall req profile,
        flat_configured env = true ->
        FlatServer.request_profile (FlatServer.body req) = Normal profile ->
        truthy (field profile "age") = true ->
        truthy (field profile "reading_level") = true ->
        exists h prompt,
          FlatServer.api_recommend parse env world req = Some h
          /\ response h = {| status := 500; payload := Failure (Rejected msg) |}
          /\ calls h = [RemoteCall prompt]).
Proof.
  intros Hm Hr. split.
  - intros body i Hc Hp Hi.
    destruct (nested_answer parse env world body i Hp Hi)
      as (prompt & _ & _ & _ & ->).
    rewrite (nested_gateway_live parse env world _ _ Hm Hc), Hr.
    cbn [fst snd bind]. eexists. exists prompt. repeat split.
  - intros req profile Hc Hp Ha Hl.
    destruct (flat_valid_request parse env world req profile Hp Ha Hl)
      as (props & i & _ & _ & Pi & _ & _ & ->).
    rewrite Hm, Pi.
    destruct (flat_gateway_live parse env world
                (map (fun kv => (fst kv, clean_string (snd kv))) props)
                (in_max i) (in_exclude i) (in_seed i) Hc)
      as (prompt & _ & _ & _ & _ & ->).
    rewrite Hr. cbn [bind]. eexists. exists prompt. repeat split.
Qed.

Lemma rejected_call_is_500_witness :
  let down := {| uuidv4 := js "u"; now := js "t";
                 axios_post := Rejects (js "connect ECONNREFUSED") |} in
  (exists h prompt,
      NestedServer.api_recommend parse_json live_env down test_body = Some h
      /\ response h
         = {| status := 500;
              payload := Failure (Rejected (js "connect ECONNREFUSED")) |}
      /\ calls h = [RemoteCall prompt])
  /\ (exists h prompt,
        FlatServer.api_recommend parse_json live_env down
          {| FlatServer.body := flat_profile; FlatServer.query := no_query |}
        = Some h
        /\ response h
           = {| status := 500;
                payload := Failure (Rejected (js "connect ECONNREFUSED")) |}
        /\ calls h = [RemoteCall prompt]).
Proof.
  intros down.
  destruct (snd (NestedServer.recommend_inputs test_body)) as [i| |] eqn:Ei;
    try (vm_compute in Ei; discriminate Ei).
  split.
  - apply (proj1 (rejected_call_is_500 parse_json live_env down
                    (js "connect ECONNREFUSED") eq_refl eq_refl) test_body i);
      [reflexivity | reflexivity | exact Ei].
  - apply (proj2 (rejected_call_is_500 parse_json live_env down
                    (js "connect ECONNREFUSED") eq_refl eq_refl)
             _ flat_profile); reflexivity.
Defined.

(** ** The answers of the handlers *)

(** X7.  An answer of the handler of the flat-body server, to a request
    whose query parameters are single texts and once the remote call, when
    there is one, has settled, has the status 200, 400 or 500 and never
    502; it follows at most one gateway call, which in mock mode is never a
    call of the remote API and in live mode never a call of the mock. *)
Theorem flat_always_answers parse env world req h :
  FlatServer.api_recommend parse env world req = Some h ->
  (status (response h) = 200 \/ status (response h) = 400
   \/ status (response h) = 500)
  /\ (calls h = []
      \/ (if USE_MOCK env then calls h = [MockCall]
          else exists prompt, calls h = [RemoteCall prompt])).
Proof.
  intros H. split; [|exact (flat_calls_by_mode parse env world req h H)].
  destruct (flat_request_cases parse env world req)
    as [(h' & E & _ & _ & [R | R]) | (profile & Hp & Ha & Hl)].
  - rewrite E in H. injection H as <-. rewrite R. right. now left.
  - rewrite E in H. injection H as <-. rewrite R. right. now right.
  - destruct (flat_valid_request parse env world req profile Hp Ha Hl)
      as (props & i & _ & _ & _ & _ & _ & E).
    rewrite E in H. clear E.
    destruct (USE_MOCK env).
    + destruct (FlatServer.mockLLMResponse (in_profile i) (in_max i));
        cbn [bind] in H; try discriminate H; injection H as <-; auto.
    + destruct (FlatServer.callGemini parse env world (in_profile i)
                  (in_max i) (in_exclude i) (in_seed i)) as [called r].
      destruct r; cbn [bind] in H; try discriminate H; injection H as <-;
        auto.
Qed.

Lemma flat_always_answers_witness :
  exists h,
    FlatServer.api_recommend parse_json live_env
      (world_answering (JStr (js "<html>Bad gateway</html>")))
      {| FlatServer.body := flat_profile; FlatServer.query := no_query |}
    = Some h
    /\ status (response h) = 500
    /\ exists prompt, calls h = [RemoteCall prompt].
Proof.
  destruct (FlatServer.api_recommend parse_json live_env
              (world_answering (JStr (js "<html>Bad gateway</html>")))
              {| FlatServer.body := flat_profile;
                 FlatServer.query := no_query |}) as [h|] eqn:H;
    [|vm_compute in H; discriminate H].
  destruct (flat_always_answers _ _ _ _ _ H) as [_ [C | C]].
  - exfalso. vm_compute in H. injection H as <-. discriminate C.
  - exists h. split; [reflexivity|]. split; [|exact C].
    vm_compute in H. injection H as <-. reflexivity.
Defined.

(** X8.  An answer of the handler of the nested-body server in live mode,
    once the remote call, when there is one, has settled, has the status
    200, 400, 500 or 502; it follows at most one call of the remote API and
    none of the mock. *)
Theorem nested_live_always_answers parse env world body h :
  USE_MOCK env = false ->
  NestedServer.api_recommend parse env world body = Some h ->
  (status (response h) = 200 \/ status (response h) = 400
   \/ status (response h) = 500 \/ status (response h) = 502)
  /\ (calls h = [] \/ exists prompt, calls h = [RemoteCall prompt]).
Proof.
  intros Hm H.
  destruct (truthy (field body "profile")) eqn:Hp.
  - destruct (nested_answer_cases parse env world body h Hp H)
      as [[i Hi] | (e & _ & R & C)]; [|rewrite R; auto].
    destruct (nested_answer parse env world body i Hp Hi)
      as (prompt & _ & _ & _ & E).
    rewrite E in H. clear E.
    pose proof (nested_gateway_calls parse env world prompt (in_profile i))
      as Hc.
    rewrite Hm in Hc.
    destruct (NestedServer.callGemini parse env world prompt (in_profile i))
      as [called r]. cbn [fst snd] in *.
    assert (Hc' : called = [] \/ exists p, called = [RemoteCall p]).
    { destruct Hc as [-> | ->]; [now left | right; now exists prompt]. }
    destruct r as [v|e|]; cbn [bind] in H; try discriminate H.
    + destruct (validateSchema_answers v) as [[|] V]; rewrite V in H;
        cbn [bind negb] in H; injection H as <-; auto 6.
    + injection H as <-. auto.
  - rewrite (nested_rejects_without_profile _ _ _ _ Hp) in H.
    injection H as <-. auto.
Qed.

Lemma nested_live_always_answers_witness :
  exists h,
    NestedServer.api_recommend parse_json live_env
      (world_answering (JStr (js "<html>Bad gateway</html>"))) test_body
    = Some h
    /\ (status (response h) = 200 \/ status (response h) = 400
        \/ status (response h) = 500 \/ status (response h) = 502)
    /\ (calls h = [] \/ exists prompt, calls h = [RemoteCall prompt]).
Proof.
  destruct (NestedServer.api_recommend parse_json live_env
              (world_answering (JStr (js "<html>Bad gateway</html>")))
              test_body) as [h|] eqn:H;
    [|vm_compute in H; discriminate H].
  exists h. split; [reflexivity|].
  exact (nested_live_always_answers parse_json live_env _ test_body h
           eq_refl H).
Defined.

(** ** Mock mode and the repository's test *)

Lemma sanitized_strings (l l' : list JsVal) :
  forallb is_string l = true -> sanitized l l' ->
  forallb is_string l' = true.
Proof.
  intros H S. apply mapM_Forall2 in S.
  rewrite (sanitizeText_strings l H) in S. apply Normal_inj in S. subst l'.
  rewrite forallb_forall in *. intros y Hy. apply in_map_iff in Hy.
  destruct Hy as (x & <- & Hx). specialize (H x Hx).
  now destruct x.
Qed.

Lemma well_formed_sanitized props :
  well_formed (JObj props) = true ->
  snd (NestedServer.sanitize_arrays (JObj props)) = Normal tt ->
  well_formed (fst (NestedServer.sanitize_arrays (JObj props))) = true.
Proof.
  intros H Hs.
  destruct (sanitize_arrays_spec props) as (props' & -> & L & A & _ & S & _).
  revert H. unfold well_formed, field, get.
  rewrite (L (js "age")), (L (js "minutes_per_week")), (L (js "name"))
    by reflexivity.
  intros H. apply andb_true_iff in H. destruct H as [H Hn].
  apply andb_true_iff in H. destruct H as [H Hi]. rewrite H, Hn.
  rewrite andb_true_r. cbn [andb].
  destruct (lookup (js "interests") props) as [| | | | | |l|] eqn:E;
    try (rewrite (A (js "interests")), E by (now rewrite E); exact Hi).
  destruct (S Hs "interests"%string l) as (l' & -> & Hl);
    [cbn; tauto | exact E |].
  cbn in Hi |- *. exact (sanitized_strings l l' Hi Hl).
Qed.

Lemma inputs_cap_modelled i prompt :
  maxPerCategory prompt = JNum (in_max i) ->
  exists cap, ToNumber (js_or (maxPerCategory prompt) (JNum (Int 5)))
              = Normal cap.
Proof.
  intros ->. unfold js_or. destruct (truthy (JNum (in_max i)));
    eexists; reflexivity.
Qed.

(** X9.  In mock mode the nested-body server answers every request made as
    the data model declares it (a well-formed profile, arrays that hold
    strings, a cap that Number converts) with 200, after one call of the
    mock and none of the remote API, and the answer passes the assertions
    of the repository's test: a body with metadata and results. *)
Theorem nested_mock_passes_test parse env world bprops props n :
  USE_MOCK env = true ->
  lookup (js "profile") bprops = JObj props ->
  well_formed (JObj props) = true ->
  string_arrays (JObj bprops) = true ->
  ToNumber (lookup (js "max_results_per_category") bprops) = Normal n ->
  exists h,
    NestedServer.api_recommend parse env world (JObj bprops) = Some h
    /\ status (response h) = 200
    /\ calls h = [MockCall]
    /\ runTest_passes (response h) = true.
Proof.
  intros Hm Hb Hw Hs Hn.
  assert (Hp : truthy (field (JObj bprops) "profile") = true).
  { unfold field. cbn [get]. now rewrite Hb. }
  destruct (string_arrays_prepared bprops n Hs Hn) as (i & Hi & _).
  destruct (nested_answer parse env world (JObj bprops) i Hp Hi)
    as (prompt & _ & _ & Mi & ->).
  destruct (nested_inputs_normal _ i Hi) as (Ss & Pi & _).
  unfold field in Ss, Pi. cbn [get] in Ss, Pi. rewrite Hb in Ss, Pi.
  unfold NestedServer.callGemini. rewrite Hm. cbn [fst snd].
  pose proof (well_formed_sanitized props Hw Ss) as Hw'. rewrite <- Pi in Hw'.
  destruct (well_formed_inv _ Hw') as (ps & Eps & _).
  destruct (inputs_cap_modelled i prompt Mi) as [cap Hcap].
  rewrite Eps in Hw'.
  destruct (nested_mock_spec world ps prompt cap Hw' Hcap)
    as (r & f & g & E & _).
  rewrite Eps, E. cbn [bind].
  destruct (nested_mock_inv world ps prompt r E)
    as (cap' & f' & g' & _ & _ & _ & _ & _ & _ & V).
  rewrite V. cbn [bind negb].
  destruct (validateSchema_true r V) as [M R].
  eexists. split; [reflexivity|]. repeat split.
  unfold runTest_passes. cbn. now rewrite M, R.
Qed.

Lemma nested_mock_passes_test_witness :
  exists h,
    NestedServer.api_recommend parse_json mock_env (world_answering JNull)
      test_body = Some h
    /\ status (response h) = 200
    /\ calls h = [MockCall]
    /\ runTest_passes (response h) = true.
Proof.
  apply (nested_mock_passes_test parse_json mock_env (world_answering JNull)
           (map (fun kv => (js (fst kv), snd kv))
              [("profile",
                obj [("age", JNum (Int 8));
                     ("fiction_preference", JStr (js "both"));
                     ("interests", JArr [JStr (js "space")])]);
               ("exclude_titles", JArr []);
               ("max_results_per_category", JNum (Int 2))]%string)
           (map (fun kv => (js (fst kv), snd kv))
              [("age", JNum (Int 8));
               ("fiction_preference", JStr (js "both"));
               ("interests", JArr [JStr (js "space")])]%string)
           (Int 2));
    reflexivity.
Defined.

(** X10.  In mock mode the flat-body server never passes the assertions of
    the repository's test, whatever the request: its mock answers results
    without metadata, and a request it turns away is no 200. *)
Theorem flat_mock_fails_test parse env world req :
  USE_MOCK env = true ->
  exists h,
    FlatServer.api_recommend parse env world req = Some h
    /\ runTest_passes (response h) = false.
Proof.
  intros Hm.
  destruct (flat_request_cases parse env world req)
    as [(h & E & _ & _ & [R | R]) | (profile & Hp & Ha & Hl)].
  - exists h. split; [exact E|]. now rewrite R.
  - exists h. split; [exact E|]. now rewrite R.
  - destruct (flat_valid_request parse env world req profile Hp Ha Hl)
      as (props & i & _ & _ & _ & _ & _ & ->).
    rewrite Hm.
    destruct (FlatServer.mockLLMResponse (in_profile i) (in_max i))
      as [r|e|] eqn:E; cbn [bind].
    + destruct (flat_mock_lengths _ _ _ E) as [M _].
      eexists. split; [reflexivity|]. unfold runTest_passes.
      cbn [response status payload]. now rewrite M, andb_false_r.
    + eexists. split; reflexivity.
    + now apply flat_mock_modelled in E.
Qed.

Lemma flat_mock_fails_test_witness :
  exists h,
    FlatServer.api_recommend parse_json mock_env (world_answering JNull)
      {| FlatServer.body := test_body; FlatServer.query := no_query |}
    = Some h
    /\ runTest_passes (response h) = false.
Proof.
  apply flat_mock_fails_test. reflexivity.
Defined.

(** ** What the live gateways relay *)

Lemma flat_read_response_text parse data :
  truthy (first_text data) = true ->
  FlatServer.read_response parse data
  = FlatServer.parse_text parse (first_text data).
Proof.
  unfold FlatServer.read_response, first_text. intros H.
  destruct (truthy data) eqn:Hd;
    [|rewrite (falsy_get data) in H by assumption; discriminate H].
  destruct (truthy_get data "candidates" Hd) as (c & -> & Oc).
  rewrite Oc in *. cbn [bind].
  destruct (truthy c) eqn:Hc;
    [|rewrite (falsy_get0 c) in H by assumption; discriminate H].
  destruct (truthy_get0 c Hc) as (f & -> & Of).
  rewrite Of in *. cbn [bind].
  destruct (truthy f) eqn:Hf;
    [|rewrite (falsy_get f) in H by assumption; discriminate H].
  cbn [negb].
  destruct (truthy_get f "content" Hf) as (ct & -> & Oct).
  rewrite Oct in *. cbn [bind].
  destruct (truthy ct) eqn:Hct;
    [|rewrite (falsy_get ct) in H by assumption; discriminate H].
  destruct (truthy_get ct "parts" Hct) as (ps & -> & Ops).
  rewrite Ops in *. cbn [bind].
  destruct (truthy ps) eqn:Hps;
    [|rewrite (falsy_get0 ps) in H by assumption; discriminate H].
  destruct (truthy_get0 ps Hps) as (p & -> & Op).
  rewrite Op in *. cbn [bind].
  destruct (truthy p) eqn:Hp;
    [|rewrite (falsy_get p) in H by assumption; discriminate H].
  destruct (truthy_get p "text" Hp) as (x & -> & Ox).
  rewrite Ox in *. cbn [bind]. now rewrite H.
Qed.

(** X11.  The flat-body server relays what the model wrote without looking at
    it: in live mode, when the first candidate carries a non-empty text
    without backticks that JSON.parse reads as v, the valid request is
    answered with 200 and v itself, be it null, a number or an object
    without results. *)
Theorem flat_relays_unvalidated parse env world req profile data t v :
  USE_MOCK env = false ->
  flat_configured env = true ->
  FlatServer.request_profile (FlatServer.body req) = Normal profile ->
  truthy (field profile "age") = true ->
  truthy (field profile "reading_level") = true ->
  axios_post world = Resolves data ->
  first_text data = JStr t ->
  t <> [] ->
  includes (js "```") t = false ->
  parse t = Some v ->
  exists h prompt,
    FlatServer.api_recommend parse env world req = Some h
    /\ response h = {| status := 200; payload := Json v |}
    /\ calls h = [RemoteCall prompt].
Proof.
  intros Hm Hc Hp Ha Hl Hx Ht Hne Hi Hv.
  destruct (flat_valid_request parse env world req profile Hp Ha Hl)
    as (props & i & _ & _ & Pi & _ & _ & ->).
  rewrite Hm, Pi.
  destruct (flat_gateway_live parse env world
              (map (fun kv => (fst kv, clean_string (snd kv))) props)
              (in_max i) (in_exclude i) (in_seed i) Hc)
    as (prompt & _ & _ & _ & _ & ->).
  rewrite Hx, flat_read_response_text, Ht.
  - rewrite (parse_text_unfenced parse t Hi), Hv. cbn [bind].
    eexists. exists prompt. repeat split.
  - rewrite Ht. destruct t; [congruence | reflexivity].
Qed.

Lemma flat_relays_unvalidated_witness :
  exists h prompt,
    FlatServer.api_recommend parse_json live_env
      (world_answering (response_with (js "null")))
      {| FlatServer.body := flat_profile; FlatServer.query := no_query |}
    = Some h
    /\ response h = {| status := 200; payload := Json JNull |}
    /\ calls h = [RemoteCall prompt].
Proof.
  apply (flat_relays_unvalidated parse_json live_env
           (world_answering (response_with (js "null")))
           {| FlatServer.body := flat_profile; FlatServer.query := no_query |}
           flat_profile (response_with (js "null")) (js "null") JNull);
    try reflexivity. discriminate.
Defined.

(** X12.  When the nested-body server relays an object of the model, on a
    request that its handler has prepared, it has replaced the metadata of
    that object by its own (the request identifier, the model name, the
    timestamp) and left every other property as the model wrote it. *)
Theorem nested_relays_with_own_metadata parse env world body i data t props :
  USE_MOCK env = false ->
  configured env = true ->
  truthy (field body "profile") = true ->
  snd (NestedServer.recommend_inputs body) = Normal i ->
  axios_post world = Resolves data ->
  first_text data = JStr t ->
  parse t = Some (JObj props) ->
  truthy (lookup (js "results") props) = true ->
  exists h relayed,
    NestedServer.api_recommend parse env world body = Some h
    /\ response h = {| status := 200; payload := Json (JObj relayed) |}
    /\ lookup (js "metadata") relayed
       = JObj [(js "request_id", JStr (uuidv4 world));
               (js "model", JStr (js "gemini-pro"));
               (js "timestamp", JStr (now world))]
    /\ forall k, str_eqb k (js "metadata") = false ->
                 lookup k relayed = lookup k props.
Proof.
  intros Hm Hc Hp Hi Hx Ht Hv Hr.
  destruct (nested_answer parse env world body i Hp Hi)
    as (prompt & _ & _ & _ & ->).
  rewrite (nested_gateway_live parse env world _ _ Hm Hc), Hx.
  cbn [fst snd].
  destruct (first_text_links data t Ht) as (c & f & Hd & Gc & Hcc & Gf & Hff & Hct).
  unfold NestedServer.read_response, NestedServer.read_candidate.
  rewrite Hd, Gc. cbn [bind]. rewrite Hcc, Gf. cbn [bind]. rewrite Hff, Hct.
  cbn [negb bind]. rewrite Hv. cbn [set try_catch bind].
  unfold NestedServer.validateSchema. cbn [truthy negb get bind].
  rewrite !lookup_assign.
  replace (str_eqb (js "metadata") (js "metadata")) with true by reflexivity.
  replace (str_eqb (js "results") (js "metadata")) with false by reflexivity.
  cbn [truthy negb]. rewrite Hr. cbn [negb].
  eexists. eexists. split; [reflexivity|]. split; [reflexivity|]. split.
  - rewrite lookup_assign. reflexivity.
  - intros k Hk. rewrite lookup_assign, Hk. reflexivity.
Qed.

Lemma nested_relays_with_own_metadata_witness :
  exists h relayed,
    NestedServer.api_recommend parse_json live_env
      (world_answering (response_with model_text)) test_body = Some h
    /\ response h = {| status := 200; payload := Json (JObj relayed) |}
    /\ lookup (js "metadata") relayed
       = JObj [(js "request_id",
                JStr (uuidv4 (world_answering (response_with model_text))));
               (js "model", JStr (js "gemini-pro"));
               (js "timestamp",
                JStr (now (world_answering (response_with model_text))))]
    /\ forall k, str_eqb k (js "metadata") = false ->
                 lookup k relayed
                 = lookup k [(js "results", JObj []);
                             (js "metadata", JNum (Int 7))].
Proof.
  destruct (snd (NestedServer.recommend_inputs test_body)) as [i| |] eqn:Ei;
    try (vm_compute in Ei; discriminate Ei).
  apply (nested_relays_with_own_metadata parse_json live_env
           (world_answering (response_with model_text)) test_body i
           (response_with model_text) model_text);
    try reflexivity. exact Ei.
Defined.

(** ** What reaches the prompt *)

Lemma sanitizeText_clean v v' :
  sanitizeText v = Normal v' -> clean_value v'.
Proof.
  unfold clean_value, sanitizeText. destruct (truthy v) eqn:E; cbn [negb].
  - intros H. apply bind_normal in H. destruct H as (t & _ & H).
    apply Normal_inj in H. subst v'. right. eexists. split; [reflexivity|].
    apply filter_printable.
  - intros H. apply Normal_inj in H. subst v'. now left.
Qed.

Lemma sanitized_list_clean l l' : sanitized l l' -> Forall clean_value l'.
Proof.
  induction 1 as [|v v' l l' Hv _ IH]; constructor; [|exact IH].
  exact (sanitizeText_clean v v' Hv).
Qed.

Lemma canonical_array_field props k :
  In k NestedServer.array_fields ->
  exists p, canonical_profile (JObj props) = Normal (JObj p)
            /\ lookup (js k) p = js_or (lookup (js k) props) (JArr []).
Proof.
  intros Hk. rewrite canonical_profile_object. eexists. split; [reflexivity|].
  unfold NestedServer.array_fields in Hk. cbn [In] in Hk.
  repeat (destruct Hk as [<- | Hk]; [reflexivity|]). contradiction.
Qed.

(** The gateway of the nested-body server in live mode with a credential
    leads the handler to an answer after one call of the remote API. *)
Lemma nested_live_answers parse env world body i :
  USE_MOCK env = false ->
  configured env = true ->
  truthy (field body "profile") = true ->
  snd (NestedServer.recommend_inputs body) = Normal i ->
  exists h prompt,
    NestedServer.api_recommend parse env world body = Some h
    /\ calls h = [RemoteCall prompt]
    /\ canonical_profile (in_profile i) = Normal (instruction_profile prompt)
    /\ instruction_exclude prompt = js_or (in_exclude i) (JArr []).
Proof.
  intros Hm Hc Hp Hi.
  destruct (nested_answer parse env world body i Hp Hi)
    as (prompt & Cp & Xp & _ & ->).
  rewrite (nested_gateway_live parse env world _ _ Hm Hc). cbn [fst snd].
  assert (Hr : match axios_post world with
               | Rejects msg => Throw (Rejected msg)
               | Resolves data => NestedServer.read_response parse world data
               end <> Unmodelled).
  { destruct (axios_post world);
      [apply nested_read_response_modelled | discriminate]. }
  destruct (match axios_post world with
            | Rejects msg => Throw (Rejected msg)
            | Resolves data => NestedServer.read_response parse world data
            end) as [v|e|]; cbn [bind]; [| |congruence].
  - destruct (validateSchema_answers v) as [[|] ->]; cbn [bind negb];
      eexists; exists prompt; repeat split; assumption.
  - eexists. exists prompt. repeat split; assumption.
Qed.

(** X13.  In live mode the prompt that the nested-body server sends to the
    remote API for a request that its handler has prepared carries, where
    the request holds an array in an array field of the profile or as the
    excluded titles, the array of what sanitizeText returns on the
    elements, one by one: falsy values as they are and strings of printable
    code units, with no control character. *)
Theorem nested_prompt_arrays_clean parse env world body i pprops :
  USE_MOCK env = false ->
  configured env = true ->
  field body "profile" = JObj pprops ->
  snd (NestedServer.recommend_inputs body) = Normal i ->
  exists h prompt,
    NestedServer.api_recommend parse env world body = Some h
    /\ calls h = [RemoteCall prompt]
    /\ (forall k l, In k NestedServer.array_fields ->
                    lookup (js k) pprops = JArr l ->
                    exists l', field (instruction_profile prompt) k = JArr l'
                               /\ sanitized l l'
                               /\ Forall clean_value l')
    /\ (forall l, field body "exclude_titles" = JArr l ->
                  exists l', instruction_exclude prompt = JArr l'
                             /\ sanitized l l'
                             /\ Forall clean_value l').
Proof.
  intros Hm Hc Hb Hi.
  assert (Hp : truthy (field body "profile") = true) by now rewrite Hb.
  destruct (nested_live_answers parse env world body i Hm Hc Hp Hi)
    as (h & prompt & Eh & Ch & Cp & Xp).
  destruct (nested_sanitized_fields body i Hp Hi) as (A & _ & X).
  exists h, prompt. split; [exact Eh|]. split; [exact Ch|]. split.
  - intros k l Hk Hl.
    destruct (A k l Hk) as (l' & El' & Sl).
    { rewrite Hb. exact Hl. }
    exists l'. split; [|split; [exact Sl | exact (sanitized_list_clean l l' Sl)]].
    destruct (in_profile i) as [| | | | | | |sprops]; try discriminate El'.
    destruct (canonical_array_field sprops k Hk) as (p & Ep & Lp).
    rewrite Ep in Cp. apply Normal_inj in Cp. rewrite <- Cp.
    unfold field in El' |- *. cbn [get] in El' |- *. now rewrite Lp, El'.
  - intros l Hl. destruct (X l Hl) as (l' & El' & Sl).
    exists l'. split; [|split; [exact Sl | exact (sanitized_list_clean l l' Sl)]].
    now rewrite Xp, El'.
Qed.

Lemma nested_prompt_arrays_clean_witness :
  let body :=
    obj [("profile", obj [("interests", JArr [JStr dirty; JNull])]);
         ("exclude_titles", JArr [JStr dirty])]%string in
  exists h prompt,
    NestedServer.api_recommend parse_json live_env (world_answering JNull)
      body = Some h
    /\ calls h = [RemoteCall prompt]
    /\ field (instruction_profile prompt) "interests"
       = JArr [JStr (js "Anna"); JNull]
    /\ instruction_exclude prompt = JArr [JStr (js "Anna")].
Proof.
  intros body.
  destruct (snd (NestedServer.recommend_inputs body)) as [i| |] eqn:Ei;
    try (vm_compute in Ei; discriminate Ei).
  destruct (nested_prompt_arrays_clean parse_json live_env
              (world_answering JNull) body i
              (map (fun kv => (js (fst kv), snd kv))
                 [("interests", JArr [JStr dirty; JNull])]%string)
              eq_refl eq_refl eq_refl Ei)
    as (h & prompt & Eh & Ch & A & X).
  exists h, prompt. split; [exact Eh|]. split; [exact Ch|]. split.
  - destruct (A "interests"%string [JStr dirty; JNull]
                (or_intror (or_intror (or_intror (or_introl eq_refl))))
                eq_refl) as (l' & -> & H & _).
    inversion H as [|? y ? ys Hy Hys]; subst.
    inversion Hys as [|? z ? zs Hz Hzs]; subst. inversion Hzs; subst.
    vm_compute in Hy, Hz. injection Hy as <-. now injection Hz as <-.
  - destruct (X [JStr dirty] eq_refl) as (l' & -> & H & _).
    inversion H as [|? y ? ys Hy Hys]; subst. inversion Hys; subst.
    vm_compute in Hy. now injection Hy as <-.
Defined.

(** ** The entries of the nested mock *)

Lemma make_title profile title tags fiction e :
  NestedServer.make profile title tags fiction = Normal e ->
  field e "title" = JStr title /\ field e "tags" = tags.
Proof.
  unfold NestedServer.make. intros H.
  apply bind_normal in H. destruct H as (about & _ & H).
  apply bind_normal in H. destruct H as (age & _ & H).
  apply bind_normal in H. destruct H as (age_n & _ & H).
  apply bind_normal in H. destruct H as (younger & _ & H).
  apply bind_normal in H. destruct H as (older & _ & H).
  apply bind_normal in H. destruct H as (high & _ & H).
  apply bind_normal in H. destruct H as (matches & _ & H).
  apply bind_normal in H. destruct H as (mpw & _ & H).
  apply bind_normal in H. destruct H as (minutes & _ & H).
  apply bind_normal in H. destruct H as (fifth & _ & H).
  apply Normal_inj in H. subst e. split; reflexivity.
Qed.

Lemma numbered_snoc stem k :
  numbered stem (S k)
  = numbered stem k
    ++ [JStr (js stem ++ num_to_string (Int (Z.of_nat (S k))))].
Proof.
  unfold numbered. rewrite seq_S, map_app. reflexivity.
Qed.

Lemma mock_loop_titles profile : forall n k fiction nonfiction f g,
  map (fun e => field e "title") fiction = numbered "Fun Story " k ->
  map (fun e => field e "title") nonfiction = numbered "Real Facts " k ->
  NestedServer.mock_loop profile n (Z.of_nat k) fiction nonfiction
  = Normal (f, g) ->
  map (fun e => field e "title") f = numbered "Fun Story " (k + n)
  /\ map (fun e => field e "title") g = numbered "Real Facts " (k + n).
Proof.
  induction n as [|n IH]; intros k fiction nonfiction f g Hf Hg H.
  - cbn in H. injection H as <- <-. now rewrite Nat.add_0_r.
  - cbn [NestedServer.mock_loop] in H.
    apply bind_normal in H. destruct H as (e1 & E1 & H).
    apply bind_normal in H. destruct H as (e2 & E2 & H).
    apply make_title in E1, E2. destruct E1 as [T1 _], E2 as [T2 _].
    replace (Z.of_nat k + 1) with (Z.of_nat (S k)) in * by lia.
    rewrite <- Nat.add_succ_comm.
    apply (IH (S k) (fiction ++ [e1]) (nonfiction ++ [e2])); try assumption.
    + rewrite map_app, Hf, numbered_snoc. cbn [map]. now rewrite T1.
    + rewrite map_app, Hg, numbered_snoc. cbn [map]. now rewrite T2.
Qed.

(** X14.  Whenever the nested mock answers, it answers as many fiction as
    nonfiction entries, at most five of each whatever cap the prompt names,
    and they are titled Fun Story 1, Fun Story 2, ... and Real Facts 1, Real
    Facts 2, ... in that order. *)
Theorem nested_mock_numbered world profile prompt r :
  NestedServer.mockLLMResponse world profile prompt = Normal r ->
  exists f g k,
    entries r "fiction" = Some f
    /\ entries r "nonfiction" = Some g
    /\ (k <= 5)%nat
    /\ map (fun e => field e "title") f = numbered "Fun Story " k
    /\ map (fun e => field e "title") g = numbered "Real Facts " k.
Proof.
  unfold NestedServer.mockLLMResponse. intros H.
  apply bind_normal in H. destruct H as (cap & _ & H).
  apply bind_normal in H. destruct H as ([f g] & E & H).
  apply Normal_inj in H. subst r.
  exists f, g, (NestedServer.iterations (Math_min (Int 5) cap)).
  split; [reflexivity|]. split; [reflexivity|]. split.
  - destruct cap as [|z]; simpl; lia.
  - apply (mock_loop_titles profile _ 0%nat [] [] f g); try reflexivity.
    exact E.
Qed.

Lemma nested_mock_numbered_witness :
  exists r f g k,
    NestedServer.mockLLMResponse (world_answering JNull) flat_profile
      (test_prompt 40) = Normal r
    /\ entries r "fiction" = Some f
    /\ entries r "nonfiction" = Some g
    /\ (k <= 5)%nat
    /\ map (fun e => field e "title") f = numbered "Fun Story " k
    /\ map (fun e => field e "title") g = numbered "Real Facts " k.
Proof.
  destruct (NestedServer.mockLLMResponse (world_answering JNull) flat_profile
              (test_prompt 40)) as [r| |] eqn:H;
    try (vm_compute in H; discriminate H).
  destruct (nested_mock_numbered _ _ _ r H) as (f & g & k & P).
  exists r, f, g, k. split; [reflexivity | exact P].
Defined.

(** X15.  The mock of the flat-body server answers whenever the name of
    the profile has a text, which its template literals need, and throws
    the TypeError of the conversion otherwise.  Whenever it answers, it
    answers one entry per category when the cap is an integer of at least
    1, and none when the cap is zero, negative or NaN (a max that parseInt
    cannot read): never more than one. *)
Theorem flat_mock_counts props (cap : JsNum) :
  (forall t,
      ToString (lookup (js "name") props) = Normal t ->
      exists r, FlatServer.mockLLMResponse (JObj props) cap = Normal r)
  /\ (forall e,
        ToString (lookup (js "name") props) = Throw e ->
        FlatServer.mockLLMResponse (JObj props) cap = Throw e)
  /\ (forall r,
        FlatServer.mockLLMResponse (JObj props) cap = Normal r ->
        exists f g,
          entries r "fiction" = Some f
          /\ entries r "nonfiction" = Some g
          /\ List.length f = List.length g
          /\ List.length f = match cap with
                             | Int z => if 1 <=? z then 1%nat else 0%nat
                             | NaN => 0%nat
                             end).
Proof.
  pose proof (flat_mock_returns props cap) as H. split; [|split].
  - intros t Ht. now rewrite Ht in H.
  - intros e He. now rewrite He in H.
  - intros r Hr. exact (proj2 (flat_mock_lengths _ _ _ Hr)).
Qed.

Lemma flat_mock_counts_witness :
  (exists r f,
      FlatServer.mockLLMResponse flat_profile (Int 0) = Normal r
      /\ entries r "fiction" = Some f
      /\ List.length f = 0%nat)
  /\ FlatServer.mockLLMResponse
       (obj [("name", obj [("toString", JNull)])]%string) (Int 3)
     = Throw TypeErr.
Proof.
  split.
  - destruct (proj1 (flat_mock_counts
                       (map (fun kv => (js (fst kv), snd kv))
                          [("age", JNum (Int 8));
                           ("reading_level", JStr (js "grade 3"))]%string)
                       (Int 0)) (js "undefined") eq_refl) as [r Hr].
    destruct (proj2 (proj2 (flat_mock_counts
                              (map (fun kv => (js (fst kv), snd kv))
                                 [("age", JNum (Int 8));
                                  ("reading_level",
                                   JStr (js "grade 3"))]%string)
                              (Int 0))) r Hr) as (f & g & Ef & _ & _ & L).
    exists r, f. split; [exact Hr|]. split; [exact Ef | exact L].
  - apply (proj1 (proj2 (flat_mock_counts
                           (map (fun kv => (js (fst kv), snd kv))
                              [("name", obj [("toString", JNull)])]%string)
                           (Int 3))) TypeErr).
    reflexivity.
Defined.

(** The reading time of an entry for minutes that are an integer. *)
Lemma fifth_of_integer (mpw : JsVal) :
  optional is_integer mpw = true ->
  exists m,
    (minutes <- ToNumber (js_or mpw (JNum (Int 60))) ;; round_div5 minutes)
    = Normal (Int ((2 * m + 5) / 10))
    /\ (mpw = JUndefined -> m = 60)
    /\ (forall z, mpw = JNum (Int z) -> m = if z =? 0 then 60 else z).
Proof.
  destruct mpw as [| | |[|z]| | | |]; try discriminate.
  - intros _. exists 60. split; [reflexivity|]. split; [reflexivity|].
    discriminate.
  - cbn [optional is_integer]. intros Hz. unfold js_or. cbn [truthy].
    exists (if z =? 0 then 60 else z). split; [|split].
    + destruct (z =? 0); cbn [negb ToNumber bind round_div5];
        [|rewrite Hz]; reflexivity.
    + discriminate.
    + intros z' E. now injection E as <-.
Qed.

(** X16.  For a well-formed profile every entry of the nested mock has an
    integer reading_time_minutes of at least 10, and of exactly 12 when the
    profile names no minutes_per_week. *)
Theorem nested_reading_time_floor world props prompt :
  well_formed (JObj props) = true ->
  optional is_number (maxPerCategory prompt) = true ->
  exists r f g,
    NestedServer.mockLLMResponse world (JObj props) prompt = Normal r
    /\ entries r "fiction" = Some f
    /\ entries r "nonfiction" = Some g
    /\ forall e, In e (f ++ g) ->
         exists t, field e "reading_time_minutes" = JNum (Int t)
                   /\ 10 <= t
                   /\ (lookup (js "minutes_per_week") props = JUndefined ->
                       t = 12).
Proof.
  intros Hw Hp.
  destruct (well_formed_inv _ Hw) as (ps & E & Ha & Hm & Hi & _).
  injection E as <-.
  destruct (age_bounds_normal _ Ha) as (younger & high & Hy & Hh).
  destruct (fifth_of_integer _ Hm) as (m & Hf & Hdef & _).
  destruct (cap_modelled _ Hp) as [cap Hcap].
  destruct (nested_mock_returns world props prompt cap younger high _
              Hi Hy Hh Hf Hcap) as (r & f & g & E & Ef & Eg & F).
  exists r, f, g. repeat (split; [assumption|]).
  intros e He. rewrite Forall_forall in F.
  destruct (made_unique props e younger high _ (F e He) Hy Hh Hf) as [R _].
  exists (Z.max 10 ((2 * m + 5) / 10)). split; [exact R|]. split; [lia|].
  intros Hu. rewrite (Hdef Hu). reflexivity.
Qed.

Lemma nested_reading_time_floor_witness :
  let props := map (fun kv => (js (fst kv), snd kv))
                 [("age", JNum (Int 8));
                  ("minutes_per_week", JNum (Int 20))]%string in
  exists r f g,
    NestedServer.mockLLMResponse (world_answering JNull) (JObj props)
      (test_prompt 3) = Normal r
    /\ entries r "fiction" = Some f
    /\ entries r "nonfiction" = Some g
    /\ forall e, In e (f ++ g) ->
         exists t, field e "reading_time_minutes" = JNum (Int t)
                   /\ 10 <= t
                   /\ (lookup (js "minutes_per_week") props = JUndefined ->
                       t = 12).
Proof.
  intros props.
  apply (nested_reading_time_floor (world_answering JNull) props
           (test_prompt 3)); reflexivity.
Defined.

(** X23.  For a well-formed profile with the integer age a and the integer
    minutes_per_week m, neither beyond 2^52, every entry of the nested mock
    has reading_time_minutes = max(10, round(m'/5)), where m' is m, or 60
    when m is 0; age_range = L-H with L = max(4, a-2) and H = a+3; and a
    short_description of at most 250 code units. *)
Theorem mock_entry_fields world props prompt a m :
  well_formed (JObj props) = true ->
  lookup (js "age") props = JNum (Int a) ->
  lookup (js "minutes_per_week") props = JNum (Int m) ->
  optional is_number (maxPerCategory prompt) = true ->
  exists r f g,
    NestedServer.mockLLMResponse world (JObj props) prompt = Normal r
    /\ entries r "fiction" = Some f
    /\ entries r "nonfiction" = Some g
    /\ forall e, In e (f ++ g) ->
         field e "reading_time_minutes"
         = JNum (Int (Z.max 10 ((2 * (if m =? 0 then 60 else m) + 5) / 10)))
         /\ field e "age_range"
            = JStr (num_to_string (Int (Z.max 4 (a - 2))) ++ js "-"
                      ++ num_to_string (Int (a + 3)))
         /\ exists d, field e "short_description" = JStr d
                      /\ (List.length d <= 250)%nat.
Proof.
  intros Hw Ha Hm Hp.
  destruct (well_formed_inv _ Hw) as (ps & E & Wa & Wm & Hi & _).
  injection E as <-.
  destruct (fifth_of_integer _ Wm) as (m' & Hf & _ & Hm').
  rewrite (Hm' m Hm) in Hf. rewrite Ha in Wa. cbn [optional is_integer] in Wa.
  assert (Hy : (age_n <- ToNumber (lookup (js "age") props) ;;
                num_sub age_n (Int 2)) = Normal (Int (a - 2))).
  { rewrite Ha. cbn [ToNumber bind num_sub]. now rewrite Wa. }
  assert (Hh : (older <- plus_lit (lookup (js "age") props) 3 ;;
                ToString older) = Normal (num_to_string (Int (a + 3)))).
  { rewrite Ha. cbn [plus_lit num_add]. rewrite Wa. reflexivity. }
  destruct (cap_modelled _ Hp) as [cap Hcap].
  destruct (nested_mock_returns world props prompt cap _ _ _
              Hi Hy Hh Hf Hcap) as (r & f & g & E & Ef & Eg & F).
  exists r, f, g. repeat (split; [assumption|]).
  intros e He. rewrite Forall_forall in F.
  exact (made_unique props e _ _ _ (F e He) Hy Hh Hf).
Qed.

Lemma mock_entry_fields_witness :
  let props :=
    map (fun kv => (js (fst kv), snd kv))
      [("age", JNum (Int 8)); ("minutes_per_week", JNum (Int 90))]%string in
  exists r f g,
    NestedServer.mockLLMResponse (world_answering JNull) (JObj props)
      (test_prompt 2) = Normal r
    /\ entries r "fiction" = Some f
    /\ entries r "nonfiction" = Some g
    /\ forall e, In e (f ++ g) ->
         field e "reading_time_minutes"
         = JNum (Int (Z.max 10 ((2 * (if 90 =? 0 then 60 else 90) + 5) / 10)))
         /\ field e "age_range"
            = JStr (num_to_string (Int (Z.max 4 (8 - 2))) ++ js "-"
                      ++ num_to_string (Int (8 + 3)))
         /\ exists d, field e "short_description" = JStr d
                      /\ (List.length d <= 250)%nat.
Proof.
  intros props.
  apply (mock_entry_fields (world_answering JNull) props (test_prompt 2) 8 90);
    reflexivity.
Defined.

(** ** The age of the reader in the nested mock *)

Lemma read_digits_all (ds : jsstring) : forall a,
  Forall (fun c => is_digit c = true) ds ->
  read_digits a ds = (fold_left dec_step ds a, []).
Proof.
  induction ds as [|d ds IH]; intros a H; [reflexivity|].
  inversion H as [|? ? Hd Hds]; subst. cbn [read_digits]. rewrite Hd.
  apply IH. assumption.
Qed.

Lemma trimStart_digit c s :
  is_digit c = true -> trimStart (c :: s) = c :: s.
Proof.
  intros H. destruct (digit_facts c H) as (Hs & _). cbn. now rewrite Hs.
Qed.

Lemma trim_digits (ds : jsstring) :
  Forall (fun c => is_digit c = true) ds -> trim ds = ds.
Proof.
  intros H. unfold trim, trimEnd.
  destruct ds as [|c s]; [reflexivity|].
  inversion H as [|? ? Hc Hs]; subst. rewrite (trimStart_digit c s Hc).
  assert (Hr : Forall (fun c => is_digit c = true) (rev (c :: s)))
    by now apply Forall_rev.
  destruct (rev (c :: s)) as [|d t] eqn:E.
  - apply (f_equal (@rev N)) in E. rewrite rev_involutive in E. exact (eq_sym E).
  - inversion Hr as [|? ? Hd Ht]; subst. rewrite (trimStart_digit d t Hd).
    rewrite <- E. apply rev_involutive.
Qed.

Lemma StringToNumber_digits (n : N) :
  safe (Z.of_N n) = true ->
  StringToNumber (digits n) = Normal (Int (Z.of_N n)).
Proof.
  intros Hsafe. unfold digits.
  destruct (digits_go_spec (S (N.to_nat n)) n []) as (ds & H1 & H2 & H3 & H4);
    [lia|].
  rewrite H1, app_nil_r. unfold StringToNumber. rewrite (trim_digits ds H3).
  destruct ds as [|c s]; [congruence|].
  inversion H3 as [|? ? Hc Hs]; subst.
  destruct (digit_facts c Hc) as (_ & S2 & S3 & _).
  rewrite S2, S3. cbn [orb]. rewrite Hc, (read_digits_all (c :: s) 0 H3), H4.
  now rewrite Hsafe.
Qed.

(** X17.  The nested mock computes the age range with the operators of
    JavaScript as they are.  For a profile without an age every entry has
    the age_range NaN-NaN; for an age sent as the decimal text of n, as a
    form does, with n up to 2^52, the lower bound is max(4, n-2) but the
    upper bound is that text followed by the digit 3, since + concatenates. *)
Theorem nested_age_range_edges world props prompt :
  optional strings (lookup (js "interests") props) = true ->
  optional is_integer (lookup (js "minutes_per_week") props) = true ->
  optional is_number (maxPerCategory prompt) = true ->
  (lookup (js "age") props = JUndefined
   \/ exists n, exact (Z.of_N n) = true
                /\ lookup (js "age") props = JStr (digits n)) ->
  exists r f g,
    NestedServer.mockLLMResponse world (JObj props) prompt = Normal r
    /\ entries r "fiction" = Some f
    /\ entries r "nonfiction" = Some g
    /\ forall e, In e (f ++ g) ->
         (lookup (js "age") props = JUndefined ->
          field e "age_range" = JStr (js "NaN-NaN"))
         /\ (forall n : N,
                exact (Z.of_N n) = true ->
                lookup (js "age") props = JStr (digits n) ->
                field e "age_range"
                = JStr (num_to_string (Int (Z.max 4 (Z.of_N n - 2)))
                          ++ js "-" ++ digits n ++ js "3")).
Proof.
  intros Hi Hm Hp Hage.
  destruct (fifth_normal _ Hm) as (fifth & Hf).
  destruct (cap_modelled _ Hp) as [cap Hcap].
  assert (Hsafe : forall n, exact (Z.of_N n) = true ->
                            safe (Z.of_N n) = true).
  { unfold exact, safe, MAX_SAFE_INTEGER. intros n H.
    apply Z.leb_le in H. apply Z.leb_le. lia. }
  assert (Hyh : exists younger high,
             (age_n <- ToNumber (lookup (js "age") props) ;;
              num_sub age_n (Int 2)) = Normal younger
             /\ (older <- plus_lit (lookup (js "age") props) 3 ;;
                 ToString older) = Normal high
             /\ (lookup (js "age") props = JUndefined ->
                 younger = NaN /\ high = js "NaN")
             /\ (forall n : N,
                    exact (Z.of_N n) = true ->
                    lookup (js "age") props = JStr (digits n) ->
                    younger = Int (Z.of_N n - 2)
                    /\ high = digits n ++ js "3")).
  { destruct Hage as [E | (n & Hn & E)]; rewrite E.
    - exists NaN, (js "NaN"). split; [reflexivity|]. split; [reflexivity|].
      split; [auto | discriminate].
    - exists (Int (Z.of_N n - 2)), (digits n ++ js "3").
      cbn [ToNumber plus_lit ToString bind].
      rewrite (StringToNumber_digits n (Hsafe n Hn)). cbn [bind num_sub].
      rewrite Hn. cbn [andb]. split; [reflexivity|]. split; [reflexivity|].
      split; [discriminate|]. intros n' Hn' E'. injection E' as E'.
      assert (En : n' = n).
      { apply N2Z.inj.
        pose proof (StringToNumber_digits n (Hsafe n Hn)) as S1.
        pose proof (StringToNumber_digits n' (Hsafe n' Hn')) as S2.
        rewrite E' in S1. rewrite S1 in S2. now injection S2. }
      subst n'. auto. }
  destruct Hyh as (younger & high & Hy & Hh & Hu & Hd).
  destruct (nested_mock_returns world props prompt cap younger high fifth
              Hi Hy Hh Hf Hcap) as (r & f & g & E & Ef & Eg & F).
  exists r, f, g. repeat (split; [assumption|]).
  intros e He. rewrite Forall_forall in F.
  destruct (made_unique props e younger high fifth (F e He) Hy Hh Hf)
    as (_ & A & _).
  split.
  - intros U. destruct (Hu U) as [-> ->]. exact A.
  - intros n Hn U. destruct (Hd n Hn U) as [-> ->]. exact A.
Qed.

Lemma nested_age_range_edges_witness :
  let props := map (fun kv => (js (fst kv), snd kv))
                 [("age", JStr (digits 8))]%string in
  exists r f g,
    NestedServer.mockLLMResponse (world_answering JNull) (JObj props)
      (test_prompt 1) = Normal r
    /\ entries r "fiction" = Some f
    /\ entries r "nonfiction" = Some g
    /\ forall e, In e (f ++ g) -> field e "age_range" = JStr (js "6-83").
Proof.
  intros props.
  destruct (nested_age_range_edges (world_answering JNull) props
              (test_prompt 1) eq_refl eq_refl eq_refl
              (or_intror (ex_intro _ 8%N (conj eq_refl eq_refl))))
    as (r & f & g & E & Ef & Eg & H).
  exists r, f, g. repeat (split; [assumption|]).
  intros e He. exact (proj2 (H e He) 8%N eq_refl eq_refl).
Defined.

(** ** The excluded titles of the flat-body server *)

Lemma split_comma_cons c s cur :
  split_go [44%N] O cur (c :: s)
  = if (44 =? c)%N then rev cur :: split_go [44%N] O [] s
    else split_go [44%N] O (c :: cur) s.
Proof.
  rewrite split_go_cons. cbn [prefix]. rewrite andb_true_r. reflexivity.
Qed.

Lemma split_comma_piece t : forall rest cur,
  ~ In 44%N t ->
  split_go [44%N] O cur (t ++ 44%N :: rest)
  = (rev cur ++ t) :: split_go [44%N] O [] rest.
Proof.
  induction t as [|c t IH]; intros rest cur H.
  - cbn [app]. rewrite split_comma_cons, N.eqb_refl. now rewrite app_nil_r.
  - cbn [app]. rewrite split_comma_cons.
    destruct (44 =? c)%N eqn:E.
    + apply N.eqb_eq in E. destruct H. now left.
    + rewrite IH by (intros Hin; apply H; now right).
      cbn [rev]. now rewrite <- app_assoc.
Qed.

Lemma split_comma_last t : forall cur,
  ~ In 44%N t -> split_go [44%N] O cur t = [rev cur ++ t].
Proof.
  induction t as [|c t IH]; intros cur H.
  - cbn. now rewrite app_nil_r.
  - rewrite split_comma_cons. destruct (44 =? c)%N eqn:E.
    + apply N.eqb_eq in E. destruct H. now left.
    + rewrite IH by (intros Hin; apply H; now right).
      cbn [rev]. now rewrite <- app_assoc.
Qed.

Lemma split_comma_pieces s : forall cur,
  ~ In 44%N cur ->
  Forall (fun t => ~ In 44%N t) (split_go [44%N] O cur s).
Proof.
  induction s as [|c s IH]; intros cur H.
  - cbn. constructor; [|constructor]. now rewrite <- in_rev.
  - rewrite split_comma_cons. destruct (44 =? c)%N eqn:E.
    + constructor; [now rewrite <- in_rev | apply IH; intros []].
    + apply IH. intros [Hc | Hc]; [|now apply H].
      apply N.eqb_neq in E. congruence.
Qed.

Lemma split_intercalate titles :
  titles <> [] ->
  Forall (fun t => ~ In 44%N t) titles ->
  split_go [44%N] O [] (intercalate [44%N] titles) = titles.
Proof.
  induction titles as [|t rest IH]; intros Hne H; [congruence|].
  inversion H as [|? ? Ht Hrest]; subst.
  destruct rest as [|u rest].
  - cbn [intercalate]. now rewrite split_comma_last.
  - change (intercalate [44%N] (t :: u :: rest))
      with (t ++ 44%N :: intercalate [44%N] (u :: rest)).
    rewrite split_comma_piece by assumption. cbn [rev app]. f_equal.
    apply IH; [discriminate | assumption].
Qed.

Lemma filter_nonempty_all (l : list jsstring) :
  Forall (fun t => t <> []) l ->
  filter (fun s => match s with [] => false | _ => true end) l = l.
Proof.
  induction 1 as [|t l Ht _ IH]; [reflexivity|].
  cbn [filter]. destruct t; [congruence|]. now rewrite IH.
Qed.

Lemma param_or_empty s : FlatServer.param_or (Some s) [] = s.
Proof. destruct s; reflexivity. Qed.

(** X18.  The excluded titles of the flat-body server are the pieces of the
    query parameter exclude between commas, the empty ones dropped: there
    are none without the parameter, no title is empty or holds a comma, and
    a list of non-empty titles without commas, sent joined by commas, is
    read back as it was. *)
Theorem flat_exclude_titles_read (q : FlatServer.Query) :
  (FlatServer.q_exclude q = None -> FlatServer.exclude_titles q = JArr [])
  /\ (exists l, FlatServer.exclude_titles q = JArr (map JStr l)
                /\ Forall (fun t => t <> [] /\ ~ In 44%N t) l)
  /\ (forall titles,
         Forall (fun t => t <> [] /\ ~ In 44%N t) titles ->
         FlatServer.q_exclude q = Some (intercalate (js ",") titles) ->
         FlatServer.exclude_titles q = JArr (map JStr titles)).
Proof.
  unfold FlatServer.exclude_titles, split.
  change (js ",") with [44%N]. split; [|split].
  - intros ->. reflexivity.
  - eexists. split; [reflexivity|].
    apply Forall_forall. intros t Ht. apply filter_In in Ht.
    destruct Ht as [Hin Hne]. split.
    + destruct t; [discriminate | discriminate].
    + pose proof (split_comma_pieces
                    (FlatServer.param_or (FlatServer.q_exclude q) []) []
                    (fun H => H)) as P.
      rewrite Forall_forall in P. now apply P.
  - intros titles H ->. rewrite param_or_empty.
    destruct titles as [|t rest]; [reflexivity|].
    rewrite split_intercalate.
    + rewrite filter_nonempty_all; [reflexivity|].
      eapply Forall_impl; [|exact H]. now intros a [Ha _].
    + discriminate.
    + eapply Forall_impl; [|exact H]. now intros a [_ Ha].
Qed.

Lemma flat_exclude_titles_read_witness :
  FlatServer.exclude_titles
    {| FlatServer.q_max := None;
       FlatServer.q_exclude := Some (js "Matilda,The Hobbit");
       FlatServer.q_seed := None |}
  = JArr [JStr (js "Matilda"); JStr (js "The Hobbit")].
Proof.
  apply (proj2 (proj2 (flat_exclude_titles_read
                         {| FlatServer.q_max := None;
                            FlatServer.q_exclude := Some (js "Matilda,The Hobbit");
                            FlatServer.q_seed := None |}))
           [js "Matilda"; js "The Hobbit"]); [|reflexivity].
  repeat constructor; try discriminate;
    vm_compute; intuition discriminate.
Defined.

(** ** A fence amid prose *)

Lemma includes_amid (p : jsstring) : forall a s,
  includes p (a ++ p ++ s) = true.
Proof.
  induction a as [|c a IH]; intros s; [cbn [app]; apply includes_app|].
  cbn [app]. rewrite includes_cons, IH. apply orb_true_r.
Qed.

(** The first piece of a split starts with what has been read. *)
Lemma split_go_head (p : jsstring) : forall s cur,
  exists y rest, split_go p O cur s = (rev cur ++ y) :: rest.
Proof.
  induction s as [|c s IH]; intros cur.
  - exists [], []. cbn. now rewrite app_nil_r.
  - rewrite split_go_cons. destruct (prefix p (c :: s)).
    + exists []. eexists. now rewrite app_nil_r.
    + destruct (IH (c :: cur)) as (y & rest & ->).
      exists (c :: y), rest. cbn [rev]. now rewrite <- app_assoc.
Qed.

Lemma split_go_before (x : N) (p' : jsstring) : forall pre s cur,
  ~ In x pre ->
  split_go (x :: p') O cur (pre ++ (x :: p') ++ s)
  = (rev cur ++ pre) :: split_go (x :: p') O [] s.
Proof.
  induction pre as [|c pre IH]; intros s cur H.
  - change ([] ++ (x :: p') ++ s) with ((x :: p') ++ s).
    rewrite split_go_app by discriminate. now rewrite app_nil_r.
  - change ((c :: pre) ++ (x :: p') ++ s) with (c :: (pre ++ (x :: p') ++ s)).
    rewrite split_go_cons.
    assert (E : prefix (x :: p') (c :: pre ++ (x :: p') ++ s) = false).
    { cbn [prefix]. destruct (x =? c)%N eqn:E; [|reflexivity].
      apply N.eqb_eq in E. destruct H. now left. }
    rewrite E, IH by (intros Hin; apply H; now right).
    cbn [rev]. now rewrite <- app_assoc.
Qed.

Lemma prefix_cons a p b s :
  prefix (a :: p) (b :: s) = (a =? b)%N && prefix p s.
Proof. reflexivity. Qed.

Lemma after_closing_fence cur post :
  no_backtick_ahead post ->
  exists y rest,
    split_go (js "```json") O cur (js "```" ++ post)
    = (rev cur ++ y) :: rest
    /\ (y = [] \/ exists z, y = js "```" ++ z).
Proof.
  intros H.
  change (js "```" ++ post) with (96%N :: 96%N :: 96%N :: post).
  rewrite split_go_cons.
  destruct (prefix (js "```json") (96%N :: 96%N :: 96%N :: post)).
  - exists []. eexists. split; [now rewrite app_nil_r | now left].
  - rewrite split_go_cons.
    assert (E2 : prefix (js "```json") (96%N :: 96%N :: post) = false).
    { destruct post as [|c r]; [reflexivity|].
      change (js "```json") with (96%N :: 96%N :: 96%N :: js "json").
      rewrite !prefix_cons, !N.eqb_refl.
      destruct (96 =? c)%N eqn:E; [|reflexivity].
      apply N.eqb_eq in E. cbn in H. congruence. }
    rewrite E2.
    destruct post as [|c r].
    + rewrite split_go_cons.
      change (prefix (js "```json") [96%N]) with false. cbv iota.
      cbn [split_go]. exists (js "```"), [].
      split; [|right; exists []; reflexivity].
      cbn [rev]. rewrite <- !app_assoc. reflexivity.
    + rewrite split_go_cons.
      assert (E3 : prefix (js "```json") (96%N :: c :: r) = false).
      { change (js "```json") with (96%N :: 96%N :: 96%N :: js "json").
        rewrite !prefix_cons, !N.eqb_refl.
        destruct (96 =? c)%N eqn:E; [|reflexivity].
        apply N.eqb_eq in E. cbn in H. congruence. }
      rewrite E3.
      destruct (split_go_head (js "```json") (c :: r)
                  (96%N :: 96%N :: 96%N :: cur)) as (y & rest & ->).
      exists (js "```" ++ y), rest. split.
      * cbn [rev]. rewrite <- !app_assoc. reflexivity.
      * right. exists y. reflexivity.
Qed.

Lemma between_fences_amid pre j post :
  ~ In 96%N pre ->
  includes (js "```") j = false ->
  no_backtick_ahead post ->
  FlatServer.between_fences (JStr (fenced_in pre j post)) (js "```json")
  = Normal (JStr (trim j)).
Proof.
  intros Hpre Hj Hpost. unfold FlatServer.between_fences, fenced_in, split.
  change (js "```json") with (96%N :: js "``json") at 1 2.
  rewrite (split_go_before 96%N (js "``json") pre _ [] Hpre).
  change (96%N :: js "``json") with (js "```json").
  cbn [nth_error rev app].
  change (10%N :: j ++ 10%N :: js "```" ++ post)
    with ((10%N :: j) ++ 10%N :: (js "```" ++ post)).
  rewrite (split_go_stop (js "```json") 10%N);
    [|reflexivity|exact (no_json_fence _ (includes_ten j Hj))].
  destruct (after_closing_fence (10%N :: rev (10%N :: j) ++ []) post Hpost)
    as (y & rest & -> & Hy).
  cbn [hd_error nth_error].
  assert (A : rev (10%N :: rev (10%N :: j) ++ []) = (10%N :: j) ++ [10%N]).
  { rewrite app_nil_r. cbn [rev]. rewrite rev_app_distr, rev_involutive.
    reflexivity. }
  rewrite A.
  destruct Hy as [-> | [z ->]].
  - rewrite app_nil_r, split_go_none.
    + cbn [rev app]. now rewrite trim_between_lines.
    + change ((10%N :: j) ++ [10%N]) with ((10%N :: j) ++ 10%N :: []).
      rewrite (includes_app_stop (js "```") 10%N);
        [reflexivity|reflexivity|exact (includes_ten j Hj)].
  - rewrite <- app_assoc. cbn [app].
    change (10%N :: j ++ 10%N :: js "```" ++ z)
      with ((10%N :: j) ++ 10%N :: (js "```" ++ z)).
    rewrite (split_go_stop (js "```") 10%N);
      [|reflexivity|exact (includes_ten j Hj)].
    rewrite split_go_app by discriminate.
    rewrite app_nil_r. cbn [rev]. rewrite rev_app_distr, rev_involutive.
    cbn [rev app]. now rewrite trim_between_lines.
Qed.

Lemma fenced_in_text pre j post :
  exists c t, fenced_in pre j post = c :: t.
Proof.
  unfold fenced_in. destruct pre as [|c pre]; eexists; eexists; reflexivity.
Qed.

(** X19.  Prose around the fence does not disturb the flat gateway: when the
    candidate text is a json fence around j, after prose without backticks
    and before any text that does not begin with a backtick, and j holds no
    triple backtick, the gateway answers what JSON.parse makes of j
    trimmed. *)
Theorem fence_amid_prose parse pre j post :
  ~ In 96%N pre ->
  includes (js "```") j = false ->
  no_backtick_ahead post ->
  FlatServer.read_response parse (response_with (fenced_in pre j post))
  = match parse (trim j) with
    | Some v => Normal v
    | None => Throw (Err (js "Invalid JSON response from Gemini"))
    end.
Proof.
  intros Hpre Hj Hpost.
  destruct (fenced_in_text pre j post) as (c & t & E).
  rewrite E, flat_read_response_with, <- E.
  unfold FlatServer.parse_text, FlatServer.text_includes.
  unfold fenced_in at 1. rewrite includes_amid. cbn [bind].
  rewrite between_fences_amid by assumption. cbn [bind ToString try_catch].
  now destruct (parse (trim j)).
Qed.

Lemma fence_amid_prose_witness :
  FlatServer.read_response parse_json
    (response_with
       (fenced_in (js "Here are the books: ") (js "[1, 2]")
          (js " Enjoy reading!")))
  = Normal (JArr [JNum (Int 1); JNum (Int 2)]).
Proof.
  apply (fence_amid_prose parse_json (js "Here are the books: ")
           (js "[1, 2]") (js " Enjoy reading!")).
  - vm_compute. intuition discriminate.
  - reflexivity.
  - discriminate.
Defined.

(** ** What a handler leaves of the request *)

(** X20.  The handlers sanitize in place, and only the profile: whatever a
    handler answers, req.body is afterwards an object that differs from the
    one received at most in its property profile (for the flat-body server:
    when the body carries its profile in that property). *)
Theorem body_changes_only_in_profile parse env world props :
  (forall h,
      NestedServer.api_recommend parse env world (JObj props) = Some h ->
      exists props',
        body_after h = JObj props'
        /\ forall k, str_eqb k (js "profile") = false ->
                     lookup k props' = lookup k props)
  /\ (forall q h,
        truthy (lookup (js "profile") props) = true ->
        FlatServer.api_recommend parse env world
          {| FlatServer.body := JObj props; FlatServer.query := q |} = Some h ->
        exists props',
          body_after h = JObj props'
          /\ forall k, str_eqb k (js "profile") = false ->
                       lookup k props' = lookup k props).
Proof.
  split.
  - intros h H. unfold NestedServer.api_recommend in H.
    destruct (negb (truthy (JObj props))
              || negb (truthy (field (JObj props) "profile"))).
    + injection H as <-. exists props. split; [reflexivity | auto].
    + destruct (NestedServer.recommend_try parse env world (JObj props))
        as [[called profile] [r|e|]]; try discriminate H; injection H as <-;
        (eexists; split; [reflexivity|]);
        intros k Hk; rewrite lookup_assign, Hk; reflexivity.
  - intros q h Hp H.
    destruct (flat_request_cases parse env world
                {| FlatServer.body := JObj props; FlatServer.query := q |})
      as [(h' & E & _ & B & _) | (profile & Hpr & Ha & Hl)].
    + rewrite E in H. injection H as <-. exists props.
      split; [exact B | auto].
    + destruct (flat_valid_request parse env world _ profile Hpr Ha Hl)
        as (ps & i & _ & _ & _ & _ & _ & E).
      rewrite E in H. clear E. cbn [FlatServer.body] in H.
      match type of H with
      | context [if ?c then ?a else ?b] =>
          destruct (if c then a else b) as [called [r|e|]]
      end; cbn [bind] in H; try discriminate H; injection H as <-;
        cbn [body_after]; unfold FlatServer.store_profile; rewrite Hp;
        (eexists; split; [reflexivity|]);
        intros k Hk; rewrite lookup_assign, Hk; reflexivity.
Qed.

Lemma body_changes_only_in_profile_witness :
  exists h props',
    NestedServer.api_recommend parse_json mock_env (world_answering JNull)
      (obj [("profile", obj [("interests", JArr [JStr dirty])]);
            ("seed", JStr dirty)]%string) = Some h
    /\ body_after h = JObj props'
    /\ lookup (js "seed") props' = JStr dirty.
Proof.
  destruct (NestedServer.api_recommend parse_json mock_env
              (world_answering JNull)
              (obj [("profile", obj [("interests", JArr [JStr dirty])]);
                    ("seed", JStr dirty)]%string)) as [h|] eqn:H;
    [|vm_compute in H; discriminate H].
  destruct (proj1 (body_changes_only_in_profile parse_json mock_env
                     (world_answering JNull) _) h H) as (props' & E & L).
  exists h, props'. split; [reflexivity|]. split; [exact E|].
  rewrite (L (js "seed") eq_refl). reflexivity.
Defined.

(** ** The seed of the nested-body server *)

Lemma inputs_without_seed props seed :
  match snd (NestedServer.recommend_inputs
               (JObj (assign (js "seed") seed props))),
        snd (NestedServer.recommend_inputs (JObj props)) with
  | Normal i, Normal i' =>
      in_profile i = in_profile i' /\ in_exclude i = in_exclude i'
      /\ in_max i = in_max i'
  | Throw e, Throw e' => e = e'
  | Unmodelled, Unmodelled => True
  | _, _ => False
  end.
Proof.
  rewrite !nested_inputs_unfold. unfold field. cbn [get bind].
  rewrite !lookup_assign.
  replace (str_eqb (js "profile") (js "seed")) with false by reflexivity.
  replace (str_eqb (js "exclude_titles") (js "seed")) with false
    by reflexivity.
  replace (str_eqb (js "max_results_per_category") (js "seed")) with false
    by reflexivity.
  destruct (snd (NestedServer.sanitize_arrays (lookup (js "profile") props)))
    as [[]|e|]; cbn [bind]; [|reflexivity|exact I].
  destruct (NestedServer.sanitize_exclude (lookup (js "exclude_titles") props))
    as [x|e|]; cbn [bind]; [|reflexivity|exact I].
  destruct (ToNumber (lookup (js "max_results_per_category") props))
    as [n|e|]; cbn [bind in_profile in_exclude in_max].
  - repeat split.
  - reflexivity.
  - exact I.
Qed.

(** X21.  The nested-body server reads the seed of a request and does
    nothing with it: the same body with any seed is answered with the same
    response after the same gateway calls, the same prompt included. *)
Theorem nested_seed_is_ignored parse env world props seed :
  match NestedServer.api_recommend parse env world
          (JObj (assign (js "seed") seed props)),
        NestedServer.api_recommend parse env world (JObj props) with
  | Some h, Some h' => response h = response h' /\ calls h = calls h'
  | None, None => True
  | _, _ => False
  end.
Proof.
  unfold NestedServer.api_recommend, field. cbn [get truthy negb orb].
  rewrite lookup_assign.
  replace (str_eqb (js "profile") (js "seed")) with false by reflexivity.
  destruct (truthy (lookup (js "profile") props)); cbn [negb];
    [|split; reflexivity].
  unfold NestedServer.recommend_try.
  pose proof (inputs_without_seed props seed) as H.
  destruct (NestedServer.recommend_inputs (JObj (assign (js "seed") seed props)))
    as [p1 [i|e|]];
    destruct (NestedServer.recommend_inputs (JObj props)) as [p2 [i'|e'|]];
    cbn [snd] in H; try contradiction; [| |exact I].
  - destruct H as (Hp & Hx & Hm). unfold NestedServer.buildPrompt.
    rewrite Hp, Hx, Hm.
    destruct (canonical_profile (in_profile i')); cbn [bind];
      [|split; reflexivity|exact I].
    match goal with
    | |- context [NestedServer.callGemini ?a ?b ?c ?d ?e] =>
        destruct (NestedServer.callGemini a b c d e) as [called r]
    end.
    destruct r as [v| |]; cbn [bind]; [|split; reflexivity|exact I].
    destruct (NestedServer.validateSchema v) as [ok| |]; cbn [bind];
      [|split; reflexivity|exact I].
    destruct (negb ok); split; reflexivity.
  - subst e'. split; reflexivity.
Qed.

(** ** The mode flag and the health endpoint *)

(** X22.  The health endpoint tells which gateway the recommendation
    endpoint of the same server uses: it answers 200 with status 'ok' and a
    mock_mode that is true exactly when the environment variable MOCK_MODE
    is the string 'true', letter for letter; a request that reached the
    remote API was handled under mock_mode false, one that reached the mock
    under mock_mode true. *)
Theorem health_tells_the_gateway parse env world req h :
  FlatServer.api_recommend parse env world req = Some h ->
  status (api_health env) = 200
  /\ exists info,
      payload (api_health env) = Json info
      /\ field info "status" = JStr (js "ok")
      /\ (field info "mock_mode" = JBool true
          <-> MOCK_MODE env = Some (js "true"))
      /\ (In MockCall (calls h) -> field info "mock_mode" = JBool true)
      /\ (forall prompt, In (RemoteCall prompt) (calls h) ->
                         field info "mock_mode" = JBool false).
Proof.
  intros H. split; [reflexivity|]. eexists. split; [reflexivity|].
  split; [reflexivity|].
  change (field _ "mock_mode") with (JBool (USE_MOCK env)). split.
  - unfold USE_MOCK. destruct (MOCK_MODE env) as [s|].
    + split.
      * intros E. injection E as E. apply str_eqb_eq in E. now subst.
      * intros E. injection E as ->. reflexivity.
    + split; discriminate.
  - pose proof (flat_calls_by_mode parse env world req h H) as C.
    destruct (USE_MOCK env); split.
    + reflexivity.
    + intros prompt Hin. destruct C as [C | C]; rewrite C in Hin;
        cbn [In] in Hin; [contradiction|].
      destruct Hin as [Hin | []]. discriminate Hin.
    + intros Hin. destruct C as [C | [p C]]; rewrite C in Hin;
        cbn [In] in Hin; [contradiction|].
      destruct Hin as [Hin | []]. discriminate Hin.
    + reflexivity.
Qed.

Lemma health_tells_the_gateway_witness :
  exists h info,
    FlatServer.api_recommend parse_json mock_env (world_answering JNull)
      {| FlatServer.body := flat_profile; FlatServer.query := no_query |}
    = Some h
    /\ calls h = [MockCall]
    /\ payload (api_health mock_env) = Json info
    /\ field info "mock_mode" = JBool true.
Proof.
  destruct (FlatServer.api_recommend parse_json mock_env
              (world_answering JNull)
              {| FlatServer.body := flat_profile;
                 FlatServer.query := no_query |}) as [h|] eqn:H;
    [|vm_compute in H; discriminate H].
  destruct (health_tells_the_gateway parse_json mock_env
              (world_answering JNull) _ h H) as (_ & info & P & _ & _ & M & _).
  assert (C : calls h = [MockCall]).
  { vm_compute in H. injection H as <-. reflexivity. }
  exists h, info. split; [reflexivity|]. split; [exact C|].
  split; [exact P|]. apply M. rewrite C. left. reflexivity.
Defined.

(** ** A remote response without a text *)

(** X24.  When the first candidate of the remote response is missing or
    carries no non-empty string as its text, the live gateway of the
    nested-body server throws and its handler answers with 400 or 500; the
    flat-body server does the same unless the value in the place of the
    text is an array, which it converts to text and hands to JSON.parse. *)
Theorem no_text_is_an_error parse env world data :
  parse [] = None ->
  USE_MOCK env = false ->
  axios_post world = Resolves data ->
  no_text_content data = true ->
  (forall prompt profile,
      exists e, snd (NestedServer.callGemini parse env world prompt profile)
                = Throw e)
  /\ (forall body,
        in_fragment body = true ->
        exists h, NestedServer.api_recommend parse env world body = Some h
                  /\ (status (response h) = 400 \/ status (response h) = 500))
  /\ (isArray (first_text data) = false ->
      (forall profile max excl seed,
          exists e,
            snd (FlatServer.callGemini parse env world profile max excl seed)
            = Throw e)
      /\ (forall req,
            exists h, FlatServer.api_recommend parse env world req = Some h
                      /\ (status (response h) = 400
                          \/ status (response h) = 500))).
Proof.
  intros Hp Hm Ha Hn. split; [|split; [|split]].
  - intros. now apply (nested_gateway_no_text parse env world _ _ data).
  - intros. now apply (nested_live_no_text parse env world _ data).
  - intros. now apply (flat_gateway_no_text parse env world _ _ _ _ data).
  - intros. now apply (flat_live_no_text parse env world _ data).
Qed.

Lemma no_text_is_an_error_witness :
  let data := obj [("candidates", JArr [])]%string in
  (exists h, NestedServer.api_recommend parse_json live_env
               (world_answering data) test_body = Some h
             /\ (status (response h) = 400 \/ status (response h) = 500))
  /\ (exists h, FlatServer.api_recommend parse_json live_env
                  (world_answering data)
                  {| FlatServer.body := flat_profile;
                     FlatServer.query := no_query |} = Some h
                /\ (status (response h) = 400 \/ status (response h) = 500)).
Proof.
  intros data.
  assert (H : parse_json [] = None) by reflexivity.
  assert (Hm : USE_MOCK live_env = false) by reflexivity.
  assert (Ha : axios_post (world_answering data) = Resolves data)
    by reflexivity.
  assert (Hn : no_text_content data = true) by reflexivity.
  destruct (no_text_is_an_error parse_json live_env (world_answering data)
              data H Hm Ha Hn) as (_ & N & F).
  split; [apply N; reflexivity | apply (proj2 (F eq_refl))].
Defined.
